(** * UniAccess: the accessibility-tree client and the input-capture engine

    A shallow embedding of [src/input_listener.py], [src/atspi_backend.py]
    and [src/config.py], and the properties of the specification that
    concern them.

    Python objects are mutated in place and every method body is wrapped
    in [try ... except Exception]: the embedding therefore uses one small
    monad in which the state reached so far survives a raised exception,
    and in which everything the program does to the outside world (log
    records, handler invocations, calls into the accessibility service)
    is collected in a chronological trace. *)

From stdpp Require Import gmap strings list pretty.
From Stdlib Require Import ZArith Lia.

Local Open Scope string_scope.
Local Open Scope list_scope.
Local Open Scope Z_scope.

(** ** Exceptions, observations and the effect monad *)

(** The exception classes that the modelled code and its libraries raise;
    all of them derive from [Exception], so every [except Exception]
    clause catches them.  What derives from [BaseException] only
    ([SystemExit], [KeyboardInterrupt]) passes through these clauses and
    is outside the model: callbacks are taken to return or to raise an
    [Exception]. *)
Inductive Exn : Type :=
| TypeError | KeyError | AttributeError | ValueError | OSError | RuntimeError
| ServiceError (* GLib.Error raised by the accessibility service *)
| HandlerError (* anything raised by user supplied callbacks *).

Inductive Outcome (A : Type) : Type :=
| Ret (a : A)
| Raise (e : Exn).
Arguments Ret {A} a.
Arguments Raise {A} e.

Definition returns {A} (o : Outcome A) : bool :=
  match o with Ret _ => true | Raise _ => false end.

Inductive Level : Type := INFO | WARNING | ERROR.

(** Python callables are compared by identity ([in], [list.remove]); a
    callable is therefore its object identity, and what calling it does is
    given by the environment. *)
Definition Callable : Type := nat.

(** What the program does to its environment, in the order it happens. *)
Inductive Obs : Type :=
| Log (lvl : Level) (msg : string) (exc : option Exn)
    (* logger.<lvl>(f"<msg>{str(exc)}") *)
| ModifierChanged (code : Z) (pressed : bool)
    (* entry of _trigger_modifier_handlers(code, pressed) *)
| KeyDown (code : Z)
    (* entry of _trigger_key_handlers(code) *)
| Invoke (h : Callable) (arg : option bool)
    (* handler() or handler(pressed) *)
| RegisterKeystroke (cb : Callable)
    (* Atspi.register_keystroke_listener(cb, ...) *)
| DeregisterKeystroke (cb : Callable)
    (* Atspi.deregister_keystroke_listener(cb) *)
| Shutdown
    (* Atspi.shutdown() *).

(** A computation over a mutable object of type [S]. *)
Definition Py (S A : Type) : Type := S -> Outcome A * S * list Obs.

Definition result {S A} (r : Outcome A * S * list Obs) : Outcome A := r.1.1.
Definition state {S A} (r : Outcome A * S * list Obs) : S := r.1.2.
Definition trace {S A} (r : Outcome A * S * list Obs) : list Obs := r.2.

Definition ret {S A} (a : A) : Py S A := fun s => (Ret a, s, []).

Definition raise {S A} (e : Exn) : Py S A := fun s => (Raise e, s, []).

Definition bind {S A B} (m : Py S A) (k : A -> Py S B) : Py S B :=
  fun s =>
    match m s with
    | (Ret a, s1, t1) =>
        match k a s1 with (r, s2, t2) => (r, s2, t1 ++ t2) end
    | (Raise e, s1, t1) => (Raise e, s1, t1)
    end.

(** [try: body except Exception as e: handler e]: the handler starts from
    the state the body had reached when it raised. *)
Definition try_except {S A} (body : Py S A) (handler : Exn -> Py S A) : Py S A :=
  fun s =>
    match body s with
    | (Ret a, s1, t1) => (Ret a, s1, t1)
    | (Raise e, s1, t1) =>
        match handler e s1 with (r, s2, t2) => (r, s2, t1 ++ t2) end
    end.

Definition get {S} : Py S S := fun s => (Ret s, s, []).
Definition modify {S} (f : S -> S) : Py S unit := fun s => (Ret tt, f s, []).
Definition emit {S} (o : Obs) : Py S unit := fun s => (Ret tt, s, [o]).
Definition lift {S A} (o : Outcome A) : Py S A := fun s => (o, s, []).
Definition logger {S} (lvl : Level) (msg : string) (exc : option Exn) : Py S unit :=
  emit (Log lvl msg exc).

Declare Scope py_scope.
Delimit Scope py_scope with py.
Notation "x <- m ;; k" := (bind m (fun x => k))
  (at level 100, m at next level, right associativity) : py_scope.
Notation "m ;; k" := (bind m (fun _ => k))
  (at level 100, right associativity) : py_scope.
Local Open Scope py_scope.

(** [for x in l: body x] *)
Fixpoint for_each {S A} (l : list A) (body : A -> Py S unit) : Py S unit :=
  match l with
  | [] => ret tt
  | x :: l' => body x ;; for_each l' body
  end.

(** Running a method of an object stored in a field of a larger state. *)
Definition zoom {S T A} (proj : T -> S) (upd : S -> T -> T) (m : Py S A) : Py T A :=
  fun t => match m (proj t) with (r, s', tr) => (r, upd s' t, tr) end.

(** ** config.py *)

Module config.

#[local] Unset Elimination Schemes.
Inductive Value : Type :=
| VStr (s : string)
| VInt (n : Z)
| VBool (b : bool)
| VDict (d : list (string * Value)).
#[local] Set Elimination Schemes.

Definition Dict : Type := list (string * Value).

Definition CONFIG : Dict :=
  [
    ("voix", VDict [("moteur", VStr "espeak"); ("langue", VStr "fr");
                    ("vitesse", VInt 180); ("volume", VInt 100);
                    ("personnalisation", VBool true)]);
    ("braille", VDict [("afficheur", VStr "brltty");
                       ("traduction_temps_reel", VBool true);
                       ("paramètres", VDict [])]);
    ("haptique", VDict [("contrôleur", VStr "default");
                        ("retour_personnalisé", VBool true)]);
    ("audio_spatial", VDict [("casque", VStr "default");
                             ("calibration", VBool true)]);
    ("ia", VDict [("reconnaissance_image", VBool true); ("ocr", VBool true);
                  ("description_interface", VBool true);
                  ("navigation_contextuelle", VBool true)]);
    ("plateformes", VDict [("linux", VBool true); ("windows", VBool true);
                           ("android", VBool true); ("console", VBool true)])
  ]%list.

(** [def get_config(): return CONFIG].  The function declares no
    parameter: a call that passes positional arguments raises
    [TypeError] before the body runs. *)
Definition get_config (args : list Value) : Outcome Dict :=
  match args with
  | [] => Ret CONFIG
  | _ :: _ => Raise TypeError
  end.

End config.

(** The builtins applied to the value that [config.get_config] returns,
    which is the dictionary [CONFIG] itself. *)

(** [int(d)] for a dictionary [d]: "int() argument must be a string, a
    bytes-like object or a real number, not 'dict'". *)
Definition py_int (d : config.Dict) : Outcome Z := Raise TypeError.

(** Truth value of a dictionary in an [if]: non-empty. *)
Definition py_bool (d : config.Dict) : bool :=
  match d with [] => false | _ :: _ => true end.

(** ** input_listener.py *)

(** *** The part of [evdev] that the module uses *)

Module ecodes.
(** Constants of the Linux input event interface. *)
Definition EV_KEY : Z := 1.
Definition KEY_ENTER : Z := 28.
Definition KEY_LEFTCTRL : Z := 29.
Definition KEY_A : Z := 30.
Definition KEY_L : Z := 38.
Definition KEY_LEFTSHIFT : Z := 42.
Definition KEY_C : Z := 46.
Definition KEY_RIGHTSHIFT : Z := 54.
Definition KEY_LEFTALT : Z := 56.
Definition KEY_SPACE : Z := 57.
Definition KEY_RIGHTCTRL : Z := 97.
Definition KEY_RIGHTALT : Z := 100.
Definition KEY_LEFTMETA : Z := 125.
Definition KEY_RIGHTMETA : Z := 126.
End ecodes.

Module evdev.

(** [evdev.InputEvent]: the fields the module reads. *)
Record InputEvent : Type := {
  type : Z;
  code : Z;
  value : Z
}.

(** [evdev.KeyEvent.key_up], [key_down], [key_hold]. *)
Definition key_up : Z := 0.
Definition key_down : Z := 1.
Definition key_hold : Z := 2.

(** [evdev.KeyEvent]: [keystate] stays unset when the event value is
    none of 0, 1, 2, and reading it then raises [AttributeError]. *)
Record KeyEvent : Type := {
  scancode : Z;
  keystate_slot : option Z
}.

Definition keystate (k : KeyEvent) : Outcome Z :=
  match keystate_slot k with
  | Some v => Ret v
  | None => Raise AttributeError
  end.

(** [evdev.InputDevice]: an opened device. *)
Record InputDevice : Type := {
  path : string;
  name : string;
  capabilities : Outcome (gmap Z (list Z));
  close : Outcome unit
}.

(** The tables and system calls of the library, which depend on the
    kernel and on the machine. *)
Record Lib : Type := {
  (** [ecodes.KEY[code]]: [None] stands for a lookup that raises
      [KeyError]. *)
  KEY : Z -> option string;
  (** membership in [ecodes.keys], the table [KeyEvent] resolves codes
      with. *)
  keys : Z -> bool;
  (** [evdev.list_devices()] *)
  list_devices : Outcome (list string);
  (** [evdev.InputDevice(path)] *)
  open : string -> Outcome InputDevice
}.

(** [evdev.categorize(event)] for an event of type [EV_KEY]:
    [KeyEvent(event)], which raises [KeyError] on a code that
    [ecodes.keys] does not know. *)
Definition categorize (lib : Lib) (event : InputEvent) : Outcome KeyEvent :=
  let ks :=
    if value event =? 0 then Some key_up
    else if value event =? 2 then Some key_hold
    else if value event =? 1 then Some key_down
    else None in
  if keys lib (code event)
  then Ret {| scancode := code event; keystate_slot := ks |}
  else Raise KeyError.

End evdev.

(** *** The module itself *)

Module input_listener.

(** [class KeyState] *)
Record KeyState : Type := {
  pressed_keys : gset Z;
  modifiers : gset Z;
  last_key_time : Z;      (* milliseconds *)
  key_repeat_delay : Z;   (* ms *)
  key_repeat_rate : Z     (* ms *)
}.

(** [KeyState.__init__] *)
Definition KeyState_new : KeyState :=
  {| pressed_keys := ∅; modifiers := ∅; last_key_time := 0;
     key_repeat_delay := 500; key_repeat_rate := 30 |}.

(** [class InputManager].  The worker thread and the methods that only
    manage it ([start], [stop], [_input_loop]) are left out: the loop
    hands every event it reads to [_handle_key_event], one at a time. *)
(** A [threading.Thread]: of the worker only whether [start()] has
    succeeded on it matters, since [join()] raises on a thread that was
    never started. *)
Record Thread : Type := { started : bool }.

Record InputManager : Type := {
  initialized : bool;
  devices : list evdev.InputDevice;
  key_state : KeyState;
  running : bool;
  thread : option Thread;
  key_handlers : gmap string (list Callable);
  modifier_handlers : gmap string (list Callable);
  gesture_handlers : gmap string (list Callable)
}.

(** [InputManager.__init__] *)
Definition InputManager_new : InputManager :=
  {| initialized := false; devices := []; key_state := KeyState_new;
     running := false; thread := None; key_handlers := ∅;
     modifier_handlers := ∅; gesture_handlers := ∅ |}.

(** Attribute assignment. *)
Definition set_pressed_keys (f : gset Z -> gset Z) (k : KeyState) : KeyState :=
  {| pressed_keys := f (pressed_keys k); modifiers := modifiers k;
     last_key_time := last_key_time k;
     key_repeat_delay := key_repeat_delay k;
     key_repeat_rate := key_repeat_rate k |}.
Definition set_modifiers (f : gset Z -> gset Z) (k : KeyState) : KeyState :=
  {| pressed_keys := pressed_keys k; modifiers := f (modifiers k);
     last_key_time := last_key_time k;
     key_repeat_delay := key_repeat_delay k;
     key_repeat_rate := key_repeat_rate k |}.
Definition set_last_key_time (t : Z) (k : KeyState) : KeyState :=
  {| pressed_keys := pressed_keys k; modifiers := modifiers k;
     last_key_time := t;
     key_repeat_delay := key_repeat_delay k;
     key_repeat_rate := key_repeat_rate k |}.
Definition set_key_repeat_delay (d : Z) (k : KeyState) : KeyState :=
  {| pressed_keys := pressed_keys k; modifiers := modifiers k;
     last_key_time := last_key_time k;
     key_repeat_delay := d;
     key_repeat_rate := key_repeat_rate k |}.
Definition set_key_repeat_rate (r : Z) (k : KeyState) : KeyState :=
  {| pressed_keys := pressed_keys k; modifiers := modifiers k;
     last_key_time := last_key_time k;
     key_repeat_delay := key_repeat_delay k;
     key_repeat_rate := r |}.

Definition set_key_state (f : KeyState -> KeyState) (m : InputManager) : InputManager :=
  {| initialized := initialized m; devices := devices m;
     key_state := f (key_state m); running := running m;
     thread := thread m;
     key_handlers := key_handlers m;
     modifier_handlers := modifier_handlers m;
     gesture_handlers := gesture_handlers m |}.
Definition set_initialized (b : bool) (m : InputManager) : InputManager :=
  {| initialized := b; devices := devices m;
     key_state := key_state m; running := running m;
     thread := thread m;
     key_handlers := key_handlers m;
     modifier_handlers := modifier_handlers m;
     gesture_handlers := gesture_handlers m |}.
Definition set_running (b : bool) (m : InputManager) : InputManager :=
  {| initialized := initialized m; devices := devices m;
     key_state := key_state m; running := b;
     thread := thread m;
     key_handlers := key_handlers m;
     modifier_handlers := modifier_handlers m;
     gesture_handlers := gesture_handlers m |}.
Definition set_thread (t : option Thread) (m : InputManager) : InputManager :=
  {| initialized := initialized m; devices := devices m;
     key_state := key_state m; running := running m;
     thread := t;
     key_handlers := key_handlers m;
     modifier_handlers := modifier_handlers m;
     gesture_handlers := gesture_handlers m |}.
Definition set_devices (f : list evdev.InputDevice -> list evdev.InputDevice)
    (m : InputManager) : InputManager :=
  {| initialized := initialized m; devices := f (devices m);
     key_state := key_state m; running := running m;
     thread := thread m;
     key_handlers := key_handlers m;
     modifier_handlers := modifier_handlers m;
     gesture_handlers := gesture_handlers m |}.
Definition set_key_handlers
    (f : gmap string (list Callable) -> gmap string (list Callable))
    (m : InputManager) : InputManager :=
  {| initialized := initialized m; devices := devices m;
     key_state := key_state m; running := running m;
     thread := thread m;
     key_handlers := f (key_handlers m);
     modifier_handlers := modifier_handlers m;
     gesture_handlers := gesture_handlers m |}.
Definition set_modifier_handlers
    (f : gmap string (list Callable) -> gmap string (list Callable))
    (m : InputManager) : InputManager :=
  {| initialized := initialized m; devices := devices m;
     key_state := key_state m; running := running m;
     thread := thread m;
     key_handlers := key_handlers m;
     modifier_handlers := f (modifier_handlers m);
     gesture_handlers := gesture_handlers m |}.
Definition set_gesture_handlers
    (f : gmap string (list Callable) -> gmap string (list Callable))
    (m : InputManager) : InputManager :=
  {| initialized := initialized m; devices := devices m;
     key_state := key_state m; running := running m;
     thread := thread m;
     key_handlers := key_handlers m;
     modifier_handlers := modifier_handlers m;
     gesture_handlers := f (gesture_handlers m) |}.

(** [if name not in d: d[name] = []] followed by [d[name].append(h)] *)
Definition append_handler (name : string) (h : Callable)
    (d : gmap string (list Callable)) : gmap string (list Callable) :=
  <[ name := default [] (d !! name) ++ [h] ]> d.

Section Methods.

Context (lib : evdev.Lib).
(** What calling a registered handler does: it returns or it raises.
    Handlers hold no reference to the manager. *)
Context (call : Callable -> option bool -> Outcome unit).

Definition _is_keyboard_device (device : evdev.InputDevice) : Py InputManager bool :=
  try_except
    (capabilities <- lift (evdev.capabilities device) ;;
     ret (match capabilities !! ecodes.EV_KEY with
          | Some codes =>
              existsb (fun code => bool_decide (code ∈ codes))
                      [ecodes.KEY_A; ecodes.KEY_SPACE; ecodes.KEY_ENTER]
          | None => false
          end))
    (fun _ => ret false).

(** The loop of [initialize] over [evdev.list_devices()]. *)
Definition find_keyboards : Py InputManager unit :=
  paths <- lift (evdev.list_devices lib) ;;
  for_each paths (fun device_path =>
    try_except
      (device <- lift (evdev.open lib device_path) ;;
       is_keyboard <- _is_keyboard_device device ;;
       if is_keyboard then
         modify (set_devices (fun ds => ds ++ [device])) ;;
         logger INFO ("Périphérique clavier trouvé: " +:+ evdev.name device) None
       else ret tt)
      (fun e =>
         logger WARNING
           ("Impossible d'ouvrir le périphérique " +:+ device_path +:+ ": ")
           (Some e))).

Definition InputManager_initialize : Py InputManager bool :=
  try_except
    ((* Récupère la configuration *)
     c <- lift (config.get_config
                  [config.VStr "keyboard"; config.VStr "key_repeat_delay";
                   config.VInt 500]) ;;
     delay <- lift (py_int c) ;;
     modify (set_key_state (set_key_repeat_delay delay)) ;;
     c <- lift (config.get_config
                  [config.VStr "keyboard"; config.VStr "key_repeat_rate";
                   config.VInt 30]) ;;
     rate <- lift (py_int c) ;;
     modify (set_key_state (set_key_repeat_rate rate)) ;;
     (* Trouve les périphériques clavier *)
     find_keyboards ;;
     self <- get ;;
     match devices self with
     | [] =>
         logger ERROR "Aucun périphérique clavier trouvé" None ;;
         ret false
     | _ :: _ =>
         modify (set_initialized true) ;;
         logger INFO "Gestionnaire d'entrées initialisé avec succès" None ;;
         ret true
     end)
    (fun e =>
       logger ERROR
         "Erreur lors de l'initialisation du gestionnaire d'entrées: " (Some e) ;;
       ret false).

Definition register_key_handler (key : string) (handler : Callable)
    : Py InputManager bool :=
  try_except
    (modify (set_key_handlers (append_handler key handler)) ;;
     ret true)
    (fun e =>
       logger ERROR
         "Erreur lors de l'enregistrement du gestionnaire de touche: " (Some e) ;;
       ret false).

Definition register_modifier_handler (modifier : string) (handler : Callable)
    : Py InputManager bool :=
  try_except
    (modify (set_modifier_handlers (append_handler modifier handler)) ;;
     ret true)
    (fun e =>
       logger ERROR
         "Erreur lors de l'enregistrement du gestionnaire de modificateur: "
         (Some e) ;;
       ret false).

Definition register_gesture_handler (gesture : string) (handler : Callable)
    : Py InputManager bool :=
  try_except
    (modify (set_gesture_handlers (append_handler gesture handler)) ;;
     ret true)
    (fun e =>
       logger ERROR
         "Erreur lors de l'enregistrement du gestionnaire de geste: " (Some e) ;;
       ret false).

Definition _get_modifier_codes : gset Z :=
  {[ ecodes.KEY_LEFTSHIFT; ecodes.KEY_RIGHTSHIFT;
     ecodes.KEY_LEFTCTRL; ecodes.KEY_RIGHTCTRL;
     ecodes.KEY_LEFTALT; ecodes.KEY_RIGHTALT;
     ecodes.KEY_LEFTMETA; ecodes.KEY_RIGHTMETA ]}.

(** [ecodes.KEY[code]] *)
Definition KEY_lookup (code : Z) : Outcome string :=
  match evdev.KEY lib code with
  | Some name => Ret name
  | None => Raise KeyError
  end.

Definition _trigger_key_handlers (key_code : Z) : Py InputManager unit :=
  emit (KeyDown key_code) ;;
  try_except
    (key_name <- lift (KEY_lookup key_code) ;;
     self <- get ;;
     match key_handlers self !! key_name with
     | Some handlers =>
         for_each handlers (fun handler =>
           emit (Invoke handler None) ;;
           lift (call handler None))
     | None => ret tt
     end)
    (fun e =>
       logger ERROR
         "Erreur lors du déclenchement des gestionnaires de touche: " (Some e)).

Definition _trigger_modifier_handlers (modifier_code : Z) (pressed : bool)
    : Py InputManager unit :=
  emit (ModifierChanged modifier_code pressed) ;;
  try_except
    (modifier_name <- lift (KEY_lookup modifier_code) ;;
     self <- get ;;
     match modifier_handlers self !! modifier_name with
     | Some handlers =>
         for_each handlers (fun handler =>
           emit (Invoke handler (Some pressed)) ;;
           lift (call handler (Some pressed)))
     | None => ret tt
     end)
    (fun e =>
       logger ERROR
         "Erreur lors du déclenchement des gestionnaires de modificateur: "
         (Some e)).

(** The body is [pass] under a comment that says gesture detection
    could be implemented here. *)
Definition _check_gestures : Py InputManager unit :=
  try_except
    (ret tt)
    (fun e =>
       logger ERROR "Erreur lors de la vérification des gestes: " (Some e)).

(** [now] is the reading [time.time() * 1000] of the clock. *)
Definition _handle_key_event (now : Z) (event : evdev.InputEvent)
    : Py InputManager unit :=
  try_except
    (if evdev.type event =? ecodes.EV_KEY then
       key <- lift (evdev.categorize lib event) ;;
       keystate <- lift (evdev.keystate key) ;;
       (* Gère les modificateurs *)
       (if keystate =? evdev.key_down then
          modify (set_key_state
                    (set_pressed_keys (fun s => s ∪ {[ evdev.code event ]}))) ;;
          if bool_decide (evdev.code event ∈ _get_modifier_codes) then
            modify (set_key_state
                      (set_modifiers (fun s => s ∪ {[ evdev.code event ]}))) ;;
            _trigger_modifier_handlers (evdev.code event) true
          else ret tt
        else if keystate =? evdev.key_up then
          modify (set_key_state
                    (set_pressed_keys (fun s => s ∖ {[ evdev.code event ]}))) ;;
          if bool_decide (evdev.code event ∈ _get_modifier_codes) then
            modify (set_key_state
                      (set_modifiers (fun s => s ∖ {[ evdev.code event ]}))) ;;
            _trigger_modifier_handlers (evdev.code event) false
          else ret tt
        else ret tt) ;;
       (* Gère les touches normales *)
       (if keystate =? evdev.key_down then
          _trigger_key_handlers (evdev.code event) ;;
          _check_gestures
        else ret tt) ;;
       (* Gère la répétition des touches *)
       (if keystate =? evdev.key_down then
          modify (set_key_state (set_last_key_time now))
        else if keystate =? evdev.key_up then
          modify (set_key_state (set_last_key_time 0))
        else ret tt)
     else ret tt)
    (fun e =>
       logger ERROR
         "Erreur lors du traitement de l'événement de touche: " (Some e)).

(** The events that the reading loop takes from a device, each with
    the clock reading at the time it is handled. *)
Definition feed (events : list (Z * evdev.InputEvent)) : Py InputManager unit :=
  for_each events (fun ev => _handle_key_event ev.1 ev.2).

(** [Thread.join(timeout)] raises [RuntimeError] on a thread that
    was never started.  On a started thread it gives [join]: it
    returns, or raises [RuntimeError] when the caller is that
    thread. *)
Definition Thread_join (join : Outcome unit) (t : Thread) : Outcome unit :=
  if started t then join else Raise RuntimeError.

(** [InputManager.stop] *)
Definition stop (join : Outcome unit) : Py InputManager unit :=
  modify (set_running false) ;;
  self <- get ;;
  match thread self with
  | Some t =>
      lift (Thread_join join t) ;;
      modify (set_thread None)
  | None => ret tt
  end.

(** [InputManager.cleanup] *)
Definition InputManager_cleanup (join : Outcome unit) : Py InputManager unit :=
  try_except
    (stop join ;;
     self <- get ;;
     for_each (devices self) (fun device =>
       try_except (lift (evdev.close device)) (fun _ => ret tt)) ;;
     modify (set_devices (fun _ => [])) ;;
     modify (set_key_handlers (fun _ => ∅)) ;;
     modify (set_modifier_handlers (fun _ => ∅)) ;;
     modify (set_gesture_handlers (fun _ => ∅)) ;;
     modify (set_initialized false))
    (fun e =>
       logger ERROR
         "Erreur lors du nettoyage du gestionnaire d'entrées: " (Some e)).

(** The functions of the module, over the global [_input_manager]. *)

Definition on_manager {A} (self : InputManager) (m : Py InputManager A)
    : Py (option InputManager) A :=
  zoom (fun _ => self) (fun s _ => Some s) m.

Definition initialize : Py (option InputManager) bool :=
  try_except
    (modify (fun _ => Some InputManager_new) ;;
     on_manager InputManager_new InputManager_initialize)
    (fun e =>
       logger ERROR
         "Erreur lors de l'initialisation du gestionnaire d'entrées: " (Some e) ;;
       ret false).

Definition with_input_manager (m : Py InputManager bool)
    : Py (option InputManager) bool :=
  g <- get ;;
  match g with
  | None =>
      logger ERROR "Le gestionnaire d'entrées n'est pas initialisé" None ;;
      ret false
  | Some self => on_manager self m
  end.

Definition module_register_key_handler (key : string) (handler : Callable) :=
  with_input_manager (register_key_handler key handler).
Definition module_register_modifier_handler (modifier : string) (handler : Callable) :=
  with_input_manager (register_modifier_handler modifier handler).
Definition module_register_gesture_handler (gesture : string) (handler : Callable) :=
  with_input_manager (register_gesture_handler gesture handler).

End Methods.

Section Capture.

Context (lib : evdev.Lib).
Context (call : Callable -> option bool -> Outcome unit).
(** What [Thread.start()] gives on the worker, and what [join()]
    gives on a worker that was started. *)
Context (spawn : Outcome unit).
Context (join : Outcome unit).

(** [InputManager.start] *)
Definition start : Py InputManager bool :=
  self <- get ;;
  if negb (initialized self) then
    logger ERROR "Le gestionnaire d'entrées n'est pas initialisé" None ;;
    ret false
  else
    try_except
      (modify (set_running true) ;;
       modify (set_thread (Some {| started := false |})) ;;
       lift spawn ;;
       modify (set_thread (Some {| started := true |})) ;;
       logger INFO "Capture des entrées démarrée" None ;;
       ret true)
      (fun e =>
         logger ERROR
           "Erreur lors du démarrage de la capture des entrées: " (Some e) ;;
         modify (set_running false) ;;
         ret false).

(** [listen_keys()] *)
Definition listen_keys : Py (option InputManager) bool :=
  with_input_manager start.

(** [cleanup()] of the module. *)
Definition cleanup : Py (option InputManager) unit :=
  g <- get ;;
  match g with
  | Some self =>
      on_manager self (InputManager_cleanup join) ;;
      modify (fun _ => None)
  | None => ret tt
  end.

End Capture.

End input_listener.

(** ** atspi_backend.py *)

(** *** The part of the accessibility service binding that the module uses *)

Module Atspi.

(** [Atspi.Role.APPLICATION] *)
Definition Role_APPLICATION : Z := 75.

(** [Atspi.Text] *)
Record Text : Type := {
  text_get_text : Z -> Z -> Outcome string
}.

(** One entry of [get_actions()]. *)
Record Action : Type := {
  action_get_name : Outcome string
}.

Record ActionIface : Type := {
  get_actions : Outcome (list Action)
}.

(** [Atspi.Accessible]: what each query answers.  A query that can
    answer [None] has an [option] type. *)
#[local] Unset Elimination Schemes.
Inductive Accessible : Type := mkAccessible {
  get_role_name : Outcome string;
  get_name : Outcome string;
  get_description : Outcome string;
  get_state_set : Outcome (gset Z);
  get_role : Outcome Z;
  get_process_id : Outcome Z;
  get_child_count : Outcome Z;
  get_child_at_index : Z -> Outcome (option Accessible);
  get_text : Outcome (option Text);
  get_action_iface : Outcome (option ActionIface);
  get_accessible_at_point : Z -> Z -> Outcome (option Accessible)
}.
#[local] Set Elimination Schemes.

(** The functions of the binding.  [get_desktop] is always
    dereferenced at once inside the caller's [try]; a null desktop is
    therefore the same as a raised [AttributeError]. *)
Record Service : Type := {
  init : Outcome unit;
  get_desktop : Z -> Outcome Accessible;
  get_desktop_count : Outcome Z;
  get_focused : Outcome (option Accessible);
  register_keystroke_listener : Callable -> Outcome unit;
  deregister_keystroke_listener : Callable -> Outcome unit;
  shutdown : Outcome unit
}.

End Atspi.

(** Attribute access or call on a value that may be [None]. *)
Definition deref {A} (o : option A) : Outcome A :=
  match o with
  | Some a => Ret a
  | None => Raise AttributeError
  end.

(** [[f(x) for x in l]] *)
Fixpoint map_m {S A B} (f : A -> Py S B) (l : list A) : Py S (list B) :=
  match l with
  | [] => ret []
  | x :: l' => y <- f x ;; ys <- map_m f l' ;; ret (y :: ys)
  end.

(** [range(n)] *)
Definition range (n : Z) : list Z := seqZ 0 n.

(** A dictionary whose iteration order (the order of first insertion of
    the keys) the program depends on. *)
Section Dict.
Context {V : Type}.

Fixpoint dict_get (d : list (string * V)) (k : string) : option V :=
  match d with
  | [] => None
  | (k', v) :: d' => if String.eqb k k' then Some v else dict_get d' k
  end.

Fixpoint dict_alter (f : V -> V) (k : string) (d : list (string * V))
    : list (string * V) :=
  match d with
  | [] => []
  | (k', v) :: d' =>
      if String.eqb k k' then (k', f v) :: d'
      else (k', v) :: dict_alter f k d'
  end.

(** [if k not in d: d[k] = v] *)
Definition dict_setdefault (k : string) (v : V) (d : list (string * V))
    : list (string * V) :=
  match dict_get d k with
  | Some _ => d
  | None => d ++ [(k, v)]
  end.
End Dict.

(** [l.remove(x)]: the first element equal to [x] goes; without one the
    call raises [ValueError]. *)
Fixpoint list_remove (x : Callable) (l : list Callable) : Outcome (list Callable) :=
  match l with
  | [] => Raise ValueError
  | y :: l' =>
      if bool_decide (x = y) then Ret l'
      else match list_remove x l' with
           | Ret r => Ret (y :: r)
           | Raise e => Raise e
           end
  end.

Module atspi_backend.

(** [class AccessibilityNode] *)
#[local] Unset Elimination Schemes.
Inductive AccessibilityNode : Type := mkAccessibilityNode {
  accessible : Atspi.Accessible;
  role : string;
  name : string;
  description : string;
  states : gset Z;
  children : list AccessibilityNode;
  parent : option AccessibilityNode
}.
#[local] Set Elimination Schemes.

(** One dictionary of [get_application_list]. *)
Record AppSummary : Type := {
  app_name : string;
  app_pid : Z;
  app_role : string;
  app_description : string
}.

(** [class AccessibilityManager] *)
Record AccessibilityManager : Type := {
  initialized : bool;
  root : option AccessibilityNode;
  focused_node : option AccessibilityNode;
  event_listeners : list (string * list Callable);
  braille_display : option bool
}.

(** [AccessibilityManager.__init__] *)
Definition AccessibilityManager_new : AccessibilityManager :=
  {| initialized := false; root := None; focused_node := None;
     event_listeners := []; braille_display := None |}.

Definition set_initialized (b : bool) (m : AccessibilityManager) :=
  {| initialized := b; root := root m; focused_node := focused_node m;
     event_listeners := event_listeners m;
     braille_display := braille_display m |}.
Definition set_root (r : option AccessibilityNode) (m : AccessibilityManager) :=
  {| initialized := initialized m; root := r; focused_node := focused_node m;
     event_listeners := event_listeners m;
     braille_display := braille_display m |}.
Definition set_focused_node (n : option AccessibilityNode) (m : AccessibilityManager) :=
  {| initialized := initialized m; root := root m; focused_node := n;
     event_listeners := event_listeners m;
     braille_display := braille_display m |}.
Definition set_event_listeners
    (f : list (string * list Callable) -> list (string * list Callable))
    (m : AccessibilityManager) :=
  {| initialized := initialized m; root := root m;
     focused_node := focused_node m;
     event_listeners := f (event_listeners m);
     braille_display := braille_display m |}.
Definition set_braille_display (b : option bool) (m : AccessibilityManager) :=
  {| initialized := initialized m; root := root m;
     focused_node := focused_node m;
     event_listeners := event_listeners m;
     braille_display := b |}.

Section Node.
Context {S : Type}.

(** [AccessibilityNode.__init__] *)
Definition AccessibilityNode_new (a : Atspi.Accessible) : Py S AccessibilityNode :=
  r <- lift (Atspi.get_role_name a) ;;
  n <- lift (Atspi.get_name a) ;;
  d <- lift (Atspi.get_description a) ;;
  st <- lift (Atspi.get_state_set a) ;;
  ret {| accessible := a; role := r; name := n; description := d;
         states := st; children := []; parent := None |}.

Definition get_text (self : AccessibilityNode) : Py S string :=
  r <- try_except
         (t <- lift (Atspi.get_text (accessible self)) ;;
          match t with
          | Some _ =>
              t' <- lift (Atspi.get_text (accessible self)) ;;
              iface <- lift (deref t') ;;
              s <- lift (Atspi.text_get_text iface 0 (-1)) ;;
              ret (Some s)
          | None => ret None
          end)
         (fun _ => ret None) ;;
  match r with
  | Some s => ret s
  | None => ret ""
  end.

Definition get_actions (self : AccessibilityNode) : Py S (list string) :=
  try_except
    (i <- lift (Atspi.get_action_iface (accessible self)) ;;
     iface <- lift (deref i) ;;
     actions <- lift (Atspi.get_actions iface) ;;
     map_m (fun action => lift (Atspi.action_get_name action)) actions)
    (fun _ => ret []).
End Node.

Section Methods.

Context (svc : Atspi.Service).

Definition initialize_braille : Py AccessibilityManager bool :=
  try_except
    (modify (set_braille_display (Some true)) ;;
     logger INFO "Support braille initialisé" None ;;
     ret true)
    (fun e =>
       logger ERROR "Erreur lors de l'initialisation du support braille: "
         (Some e) ;;
       ret false).

Definition AccessibilityManager_initialize : Py AccessibilityManager bool :=
  try_except
    ((* Initialise AT-SPI *)
     lift (Atspi.init svc) ;;
     (* Récupère le bureau *)
     desktop <- lift (Atspi.get_desktop svc 0) ;;
     node <- AccessibilityNode_new desktop ;;
     modify (set_root (Some node)) ;;
     (* Initialise le braille si nécessaire *)
     c <- lift (config.get_config
                  [config.VStr "braille"; config.VStr "enabled";
                   config.VBool false]) ;;
     (if py_bool c then initialize_braille ;; ret tt else ret tt) ;;
     modify (set_initialized true) ;;
     logger INFO "Gestionnaire d'accessibilité initialisé avec succès" None ;;
     ret true)
    (fun e =>
       logger ERROR
         "Erreur lors de l'initialisation du gestionnaire d'accessibilité: "
         (Some e) ;;
       ret false).

Definition get_focused_node : Py AccessibilityManager (option AccessibilityNode) :=
  try_except
    (focused <- lift (Atspi.get_focused svc) ;;
     match focused with
     | Some f => node <- AccessibilityNode_new f ;; ret (Some node)
     | None => ret None
     end)
    (fun e =>
       logger ERROR "Erreur lors de la récupération du nœud focalisé: " (Some e) ;;
       ret None).

Definition get_node_at_point (x y : Z)
    : Py AccessibilityManager (option AccessibilityNode) :=
  try_except
    (desktop <- lift (Atspi.get_desktop svc 0) ;;
     a <- lift (Atspi.get_accessible_at_point desktop x y) ;;
     match a with
     | Some acc => node <- AccessibilityNode_new acc ;; ret (Some node)
     | None => ret None
     end)
    (fun e =>
       logger ERROR
         ("Erreur lors de la récupération du nœud à la position ("
          +:+ pretty x +:+ ", " +:+ pretty y +:+ "): ")
         (Some e) ;;
       ret None).

(** The body of the inner loop of [get_application_list]: what one
    child of a desktop adds to [apps]. *)
Definition application_entry (desktop : Atspi.Accessible) (j : Z)
    : Py AccessibilityManager (list AppSummary) :=
  app <- lift (Atspi.get_child_at_index desktop j) ;;
  match app with
  | Some a =>
      r <- lift (Atspi.get_role a) ;;
      if r =? Atspi.Role_APPLICATION then
        node <- AccessibilityNode_new a ;;
        pid <- lift (Atspi.get_process_id a) ;;
        ret [ {| app_name := name node; app_pid := pid;
                 app_role := role node;
                 app_description := description node |} ]
      else ret []
  | None => ret []
  end.

(** The local list [apps] is the concatenation, in loop order, of what
    the children of the desktops add to it. *)
Definition get_application_list : Py AccessibilityManager (list AppSummary) :=
  try_except
    (count <- lift (Atspi.get_desktop_count svc) ;;
     per_desktop <-
       map_m (fun i =>
                desktop <- lift (Atspi.get_desktop svc i) ;;
                n <- lift (Atspi.get_child_count desktop) ;;
                entries <- map_m (application_entry desktop) (range n) ;;
                ret (concat entries))
             (range count) ;;
     ret (concat per_desktop))
    (fun e =>
       logger ERROR
         "Erreur lors de la récupération de la liste des applications: "
         (Some e) ;;
       ret []).

Definition register_event_listener (event_type : string) (callback : Callable)
    : Py AccessibilityManager bool :=
  try_except
    (modify (set_event_listeners (dict_setdefault event_type [])) ;;
     modify (set_event_listeners
               (dict_alter (fun l => l ++ [callback]) event_type)) ;;
     (* Enregistre l'événement auprès d'AT-SPI *)
     emit (RegisterKeystroke callback) ;;
     lift (Atspi.register_keystroke_listener svc callback) ;;
     ret true)
    (fun e =>
       logger ERROR
         "Erreur lors de l'enregistrement de l'écouteur d'événements: " (Some e) ;;
       ret false).

Definition unregister_event_listener (event_type : string) (callback : Callable)
    : Py AccessibilityManager bool :=
  try_except
    (self <- get ;;
     match dict_get (event_listeners self) event_type with
     | Some listeners =>
         if bool_decide (callback ∈ listeners) then
           listeners' <- lift (list_remove callback listeners) ;;
           modify (set_event_listeners
                     (dict_alter (fun _ => listeners') event_type)) ;;
           emit (DeregisterKeystroke callback) ;;
           lift (Atspi.deregister_keystroke_listener svc callback) ;;
           ret true
         else ret false
     | None => ret false
     end)
    (fun e =>
       logger ERROR
         "Erreur lors du désenregistrement de l'écouteur d'événements: "
         (Some e) ;;
       ret false).

Definition AccessibilityManager_cleanup : Py AccessibilityManager unit :=
  try_except
    ((* Désenregistre tous les écouteurs *)
     self <- get ;;
     for_each (event_listeners self) (fun item =>
       for_each item.2 (fun listener =>
         emit (DeregisterKeystroke listener) ;;
         lift (Atspi.deregister_keystroke_listener svc listener))) ;;
     modify (set_event_listeners (fun _ => [])) ;;
     (* Nettoie AT-SPI *)
     emit Shutdown ;;
     lift (Atspi.shutdown svc) ;;
     modify (set_initialized false) ;;
     modify (set_root None) ;;
     modify (set_focused_node None) ;;
     modify (set_braille_display None))
    (fun e =>
       logger ERROR
         "Erreur lors du nettoyage du gestionnaire d'accessibilité: " (Some e)).

(** The functions of the module, over the global
    [_accessibility_manager]. *)

Definition on_manager {A} (self : AccessibilityManager)
    (m : Py AccessibilityManager A) : Py (option AccessibilityManager) A :=
  zoom (fun _ => self) (fun s _ => Some s) m.

Definition with_accessibility_manager {A} (absent : A)
    (m : Py AccessibilityManager A) : Py (option AccessibilityManager) A :=
  g <- get ;;
  match g with
  | None =>
      logger ERROR "Le gestionnaire d'accessibilité n'est pas initialisé" None ;;
      ret absent
  | Some self => on_manager self m
  end.

Definition initialize : Py (option AccessibilityManager) bool :=
  try_except
    (modify (fun _ => Some AccessibilityManager_new) ;;
     on_manager AccessibilityManager_new AccessibilityManager_initialize)
    (fun e =>
       logger ERROR "Erreur lors de l'initialisation de l'accessibilité: "
         (Some e) ;;
       ret false).

Definition module_get_focused_node :=
  with_accessibility_manager None get_focused_node.
Definition module_get_node_at_point (x y : Z) :=
  with_accessibility_manager None (get_node_at_point x y).
Definition module_get_application_list :=
  with_accessibility_manager [] get_application_list.
Definition module_register_event_listener (event_type : string) (callback : Callable) :=
  with_accessibility_manager false (register_event_listener event_type callback).
Definition module_unregister_event_listener (event_type : string) (callback : Callable) :=
  with_accessibility_manager false (unregister_event_listener event_type callback).

Definition cleanup : Py (option AccessibilityManager) unit :=
  g <- get ;;
  match g with
  | Some self =>
      on_manager self AccessibilityManager_cleanup ;;
      modify (fun _ => None)
  | None => ret tt
  end.

End Methods.

(** [initialize_braille()] of the module. *)
Definition module_initialize_braille : Py (option AccessibilityManager) bool :=
  with_accessibility_manager false initialize_braille.

Section Actions.

Context {S : Type}.
(** [iface.do_action(i)] of the binding. *)
Context (do_action : Atspi.ActionIface -> Z -> Outcome unit).

(** The loop [for i, action in enumerate(actions)] of
    [perform_action], from index [i] on; [true] stands for the
    [return True] inside the loop. *)
Fixpoint perform_loop (self : AccessibilityNode) (action_name : string)
    (i : Z) (actions : list Atspi.Action) : Py S bool :=
  match actions with
  | [] => ret false
  | action :: rest =>
      n <- lift (Atspi.action_get_name action) ;;
      if String.eqb n action_name then
        a <- lift (Atspi.get_action_iface (accessible self)) ;;
        iface <- lift (deref a) ;;
        lift (do_action iface i) ;;
        ret true
      else perform_loop self action_name (i + 1) rest
  end.

(** [AccessibilityNode.perform_action] *)
Definition perform_action (self : AccessibilityNode) (action_name : string)
    : Py S bool :=
  try_except
    (a <- lift (Atspi.get_action_iface (accessible self)) ;;
     iface <- lift (deref a) ;;
     actions <- lift (Atspi.get_actions iface) ;;
     perform_loop self action_name 0 actions)
    (fun e =>
       logger ERROR
         ("Erreur lors de l'exécution de l'action " +:+ action_name +:+ ": ")
         (Some e) ;;
       ret false).

End Actions.

End atspi_backend.

(** ** A machine to run the code on *)

Module sample.

(** The entries of [ecodes.KEY] for the codes used below. *)
Definition KEY (code : Z) : option string :=
  if code =? ecodes.KEY_ENTER then Some "KEY_ENTER"
  else if code =? ecodes.KEY_LEFTCTRL then Some "KEY_LEFTCTRL"
  else if code =? ecodes.KEY_A then Some "KEY_A"
  else if code =? ecodes.KEY_L then Some "KEY_L"
  else if code =? ecodes.KEY_C then Some "KEY_C"
  else if code =? ecodes.KEY_LEFTALT then Some "KEY_LEFTALT"
  else if code =? ecodes.KEY_SPACE then Some "KEY_SPACE"
  else None.

Definition keyboard : evdev.InputDevice :=
  {| evdev.path := "/dev/input/event0";
     evdev.name := "AT Translated Set 2 keyboard";
     evdev.capabilities :=
       Ret {[ ecodes.EV_KEY := [ecodes.KEY_ENTER; ecodes.KEY_LEFTCTRL;
                                ecodes.KEY_A; ecodes.KEY_C; ecodes.KEY_SPACE] ]};
     evdev.close := Ret tt |}.

Definition mouse : evdev.InputDevice :=
  {| evdev.path := "/dev/input/event1";
     evdev.name := "USB Optical Mouse";
     evdev.capabilities := Ret {[ ecodes.EV_KEY := [272; 273; 274]; 2 := [0; 1; 8] ]};
     evdev.close := Ret tt |}.

(** A machine with one keyboard and one mouse.  [ecodes.keys] also
    knows the button codes 272 to 274, which [ecodes.KEY] does not
    name. *)
Definition lib : evdev.Lib :=
  {| evdev.KEY := KEY;
     evdev.keys := fun code =>
       bool_decide (is_Some (KEY code)) || ((272 <=? code) && (code <=? 274));
     evdev.list_devices := Ret ["/dev/input/event0"; "/dev/input/event1"];
     evdev.open := fun p =>
       if String.eqb p "/dev/input/event0" then Ret keyboard
       else if String.eqb p "/dev/input/event1" then Ret mouse
       else Raise OSError |}.

Definition down (code : Z) : evdev.InputEvent :=
  {| evdev.type := ecodes.EV_KEY; evdev.code := code; evdev.value := 1 |}.
Definition up (code : Z) : evdev.InputEvent :=
  {| evdev.type := ecodes.EV_KEY; evdev.code := code; evdev.value := 0 |}.

(** Handlers that all return. *)
Definition quiet : Callable -> option bool -> Outcome unit := fun _ _ => Ret tt.

(** Handler 1 raises, every other handler returns. *)
Definition first_raises : Callable -> option bool -> Outcome unit :=
  fun h _ => if bool_decide (h = 1%nat) then Raise HandlerError else Ret tt.

(** A manager with handlers 1 and 2 registered, in this order, for the
    key A. *)
Definition two_handlers : input_listener.InputManager :=
  input_listener.set_key_handlers
    (fun _ => {[ "KEY_A" := [1%nat; 2%nat] ]}) input_listener.InputManager_new.

(** The same manager, initialized. *)
Definition ready : input_listener.InputManager :=
  input_listener.set_initialized true two_handlers.

(** The same manager with a worker thread that was never started. *)
Definition never_started : input_listener.InputManager :=
  input_listener.set_thread (Some {| input_listener.started := false |})
    two_handlers.

(** Scenario B of the specification, at clock readings 10, 20, 30, 40. *)
Definition scenario_B : list (Z * evdev.InputEvent) :=
  [(10, down ecodes.KEY_LEFTCTRL); (20, down ecodes.KEY_C);
   (30, up ecodes.KEY_C); (40, up ecodes.KEY_LEFTCTRL)].

(** Scenario C: handler 7 is registered for the gesture, then the three
    keys go down. *)
Definition gesture_manager : input_listener.InputManager :=
  state (input_listener.register_gesture_handler
           "KEY_LEFTCTRL+KEY_LEFTALT+KEY_L" 7%nat
           input_listener.InputManager_new).
Definition scenario_C : list (Z * evdev.InputEvent) :=
  [(10, down ecodes.KEY_LEFTCTRL); (20, down ecodes.KEY_LEFTALT);
   (30, down ecodes.KEY_L)].

(** An accessibility service with one desktop and three applications;
    the second application does not answer [get_name]. *)
Definition application (app_name : Outcome string) (pid : Z) : Atspi.Accessible :=
  Atspi.mkAccessible
    (Ret "application") app_name (Ret "") (Ret ∅)
    (Ret Atspi.Role_APPLICATION) (Ret pid) (Ret 0)
    (fun _ => Ret None) (Ret None) (Ret None) (fun _ _ => Ret None).

Definition app1 : Atspi.Accessible := application (Ret "Firefox") 101.
Definition app2 : Atspi.Accessible := application (Raise ServiceError) 102.
Definition app3 : Atspi.Accessible := application (Ret "Kate") 103.

Definition desktop : Atspi.Accessible :=
  Atspi.mkAccessible
    (Ret "desktop frame") (Ret "main") (Ret "") (Ret ∅)
    (Ret 14) (Ret 0) (Ret 3)
    (fun j => if j =? 0 then Ret (Some app1)
              else if j =? 1 then Ret (Some app2)
              else if j =? 2 then Ret (Some app3)
              else Ret None)
    (Ret None) (Ret None) (fun _ _ => Ret (Some app1)).

Definition svc : Atspi.Service :=
  {| Atspi.init := Ret tt;
     Atspi.get_desktop := fun i => if i =? 0 then Ret desktop else Raise ServiceError;
     Atspi.get_desktop_count := Ret 1;
     Atspi.get_focused := Ret (Some app1);
     Atspi.register_keystroke_listener := fun _ => Ret tt;
     Atspi.deregister_keystroke_listener := fun _ => Ret tt;
     Atspi.shutdown := Ret tt |}.

(** A service whose focused accessible, and whose accessible at every
    point, is the application that does not give its name. *)
Definition stale_desktop : Atspi.Accessible :=
  Atspi.mkAccessible
    (Ret "desktop frame") (Ret "main") (Ret "") (Ret ∅)
    (Ret 14) (Ret 0) (Ret 1)
    (fun j => if j =? 0 then Ret (Some app2) else Ret None)
    (Ret None) (Ret None) (fun _ _ => Ret (Some app2)).

Definition stale : Atspi.Service :=
  {| Atspi.init := Ret tt;
     Atspi.get_desktop := fun _ => Ret stale_desktop;
     Atspi.get_desktop_count := Ret 1;
     Atspi.get_focused := Ret (Some app2);
     Atspi.register_keystroke_listener := fun _ => Ret tt;
     Atspi.deregister_keystroke_listener := fun _ => Ret tt;
     Atspi.shutdown := Ret tt |}.

(** A desktop whose first application does not give its process id. *)
Definition no_pid : Atspi.Accessible :=
  Atspi.mkAccessible
    (Ret "application") (Ret "Gimp") (Ret "") (Ret ∅)
    (Ret Atspi.Role_APPLICATION) (Raise OSError) (Ret 0)
    (fun _ => Ret None) (Ret None) (Ret None) (fun _ _ => Ret None).

Definition no_pid_desktop : Atspi.Accessible :=
  Atspi.mkAccessible
    (Ret "desktop frame") (Ret "main") (Ret "") (Ret ∅)
    (Ret 14) (Ret 0) (Ret 2)
    (fun j => if j =? 0 then Ret (Some no_pid)
              else if j =? 1 then Ret (Some app3)
              else Ret None)
    (Ret None) (Ret None) (fun _ _ => Ret None).

Definition no_pid_svc : Atspi.Service :=
  {| Atspi.init := Ret tt;
     Atspi.get_desktop := fun _ => Ret no_pid_desktop;
     Atspi.get_desktop_count := Ret 1;
     Atspi.get_focused := Ret None;
     Atspi.register_keystroke_listener := fun _ => Ret tt;
     Atspi.deregister_keystroke_listener := fun _ => Ret tt;
     Atspi.shutdown := Ret tt |}.

(** The same service when it refuses keystroke listeners. *)
Definition refusing : Atspi.Service :=
  {| Atspi.init := Ret tt;
     Atspi.get_desktop := Atspi.get_desktop svc;
     Atspi.get_desktop_count := Ret 1;
     Atspi.get_focused := Ret (Some app1);
     Atspi.register_keystroke_listener := fun _ => Raise TypeError;
     Atspi.deregister_keystroke_listener := fun _ => Ret tt;
     Atspi.shutdown := Ret tt |}.

(** The same service when it is down. *)
Definition unreachable : Atspi.Service :=
  {| Atspi.init := Raise ServiceError;
     Atspi.get_desktop := fun _ => Raise ServiceError;
     Atspi.get_desktop_count := Raise ServiceError;
     Atspi.get_focused := Raise ServiceError;
     Atspi.register_keystroke_listener := fun _ => Raise ServiceError;
     Atspi.deregister_keystroke_listener := fun _ => Raise ServiceError;
     Atspi.shutdown := Raise ServiceError |}.

(** A node whose accessible fails every text and action query. *)
Definition mute : Atspi.Accessible :=
  Atspi.mkAccessible
    (Ret "label") (Ret "status") (Ret "") (Ret ∅)
    (Ret 29) (Ret 101) (Ret 0)
    (fun _ => Ret None) (Raise ServiceError) (Raise ServiceError)
    (fun _ _ => Ret None).

Definition mute_node : atspi_backend.AccessibilityNode :=
  {| atspi_backend.accessible := mute; atspi_backend.role := "label";
     atspi_backend.name := "status"; atspi_backend.description := "";
     atspi_backend.states := ∅; atspi_backend.children := [];
     atspi_backend.parent := None |}.

(** A manager that holds listeners 4 and 5 for one event type. *)
Definition listening : atspi_backend.AccessibilityManager :=
  atspi_backend.set_event_listeners
    (fun _ => [("object:state-changed:focused", [4%nat; 5%nat])])
    atspi_backend.AccessibilityManager_new.

(** A desktop on which every application answers. *)
Definition healthy_desktop : Atspi.Accessible :=
  Atspi.mkAccessible
    (Ret "desktop frame") (Ret "main") (Ret "") (Ret ∅)
    (Ret 14) (Ret 0) (Ret 3)
    (fun j => if j =? 0 then Ret (Some app1)
              else if j =? 1 then Ret None
              else if j =? 2 then Ret (Some app3)
              else Ret None)
    (Ret None) (Ret None) (fun _ _ => Ret None).

Definition healthy : Atspi.Service :=
  {| Atspi.init := Ret tt;
     Atspi.get_desktop := fun _ => Ret healthy_desktop;
     Atspi.get_desktop_count := Ret 1;
     Atspi.get_focused := Ret None;
     Atspi.register_keystroke_listener := fun _ => Ret tt;
     Atspi.deregister_keystroke_listener := fun _ => Ret tt;
     Atspi.shutdown := Ret tt |}.

(** A button with a text interface and three actions, two of them
    named alike; the service performs action 1 and fails on every
    other index. *)
Definition click : Atspi.Action := {| Atspi.action_get_name := Ret "click" |}.
Definition press : Atspi.Action := {| Atspi.action_get_name := Ret "press" |}.
Definition button_actions : Atspi.ActionIface :=
  {| Atspi.get_actions := Ret [press; click; click] |}.
Definition button_text : Atspi.Text :=
  {| Atspi.text_get_text := fun _ _ => Ret "OK" |}.
Definition button : Atspi.Accessible :=
  Atspi.mkAccessible
    (Ret "push button") (Ret "OK") (Ret "") (Ret ∅)
    (Ret 43) (Ret 101) (Ret 0)
    (fun _ => Ret None) (Ret (Some button_text)) (Ret (Some button_actions))
    (fun _ _ => Ret None).
Definition button_node : atspi_backend.AccessibilityNode :=
  {| atspi_backend.accessible := button; atspi_backend.role := "push button";
     atspi_backend.name := "OK"; atspi_backend.description := "";
     atspi_backend.states := ∅; atspi_backend.children := [];
     atspi_backend.parent := None |}.
Definition do_action : Atspi.ActionIface -> Z -> Outcome unit :=
  fun _ i => if i =? 1 then Ret tt else Raise ServiceError.

End sample.

(** ** Vocabulary of the properties *)

(** The records of one handler loop: the handlers are called in
    registration order up to and including the first one that raises. *)
Fixpoint invocations (call : Callable -> option bool -> Outcome unit)
    (arg : option bool) (hs : list Callable) : list Obs * option Exn :=
  match hs with
  | [] => ([], None)
  | h :: hs' =>
      match call h arg with
      | Ret _ => (Invoke h arg :: (invocations call arg hs').1,
                  (invocations call arg hs').2)
      | Raise e => ([Invoke h arg], Some e)
      end
  end.

(** The records of one dispatch through a registry, after the entry
    record. *)
Definition dispatch (lib : evdev.Lib)
    (call : Callable -> option bool -> Outcome unit)
    (registry : gmap string (list Callable)) (arg : option bool)
    (msg : string) (code : Z) : list Obs :=
  match evdev.KEY lib code with
  | None => [Log ERROR msg (Some KeyError)]
  | Some key_name =>
      match registry !! key_name with
      | None => []
      | Some hs =>
          (invocations call arg hs).1 ++
          match (invocations call arg hs).2 with
          | None => []
          | Some e => [Log ERROR msg (Some e)]
          end
      end
  end.

Definition key_msg : string :=
  "Erreur lors du déclenchement des gestionnaires de touche: ".
Definition modifier_msg : string :=
  "Erreur lors du déclenchement des gestionnaires de modificateur: ".
Definition event_msg : string :=
  "Erreur lors du traitement de l'événement de touche: ".

(** The key state after one event, and the records the event leaves. *)
Definition is_modifier (code : Z) : bool :=
  bool_decide (code ∈ input_listener._get_modifier_codes).

Definition after_event (lib : evdev.Lib) (now : Z) (event : evdev.InputEvent)
    (k : input_listener.KeyState) : input_listener.KeyState :=
  let code := evdev.code event in
  if negb (evdev.type event =? ecodes.EV_KEY) then k
  else if negb (evdev.keys lib code) then k
  else if evdev.value event =? 1 then
    input_listener.set_last_key_time now
      (if is_modifier code
       then input_listener.set_modifiers (fun s => s ∪ {[ code ]})
              (input_listener.set_pressed_keys (fun s => s ∪ {[ code ]}) k)
       else input_listener.set_pressed_keys (fun s => s ∪ {[ code ]}) k)
  else if evdev.value event =? 0 then
    input_listener.set_last_key_time 0
      (if is_modifier code
       then input_listener.set_modifiers (fun s => s ∖ {[ code ]})
              (input_listener.set_pressed_keys (fun s => s ∖ {[ code ]}) k)
       else input_listener.set_pressed_keys (fun s => s ∖ {[ code ]}) k)
  else k.

Definition records_of_event (lib : evdev.Lib)
    (call : Callable -> option bool -> Outcome unit)
    (m : input_listener.InputManager) (event : evdev.InputEvent) : list Obs :=
  let code := evdev.code event in
  if negb (evdev.type event =? ecodes.EV_KEY) then []
  else if negb (evdev.keys lib code) then [Log ERROR event_msg (Some KeyError)]
  else if evdev.value event =? 1 then
    (if is_modifier code
     then ModifierChanged code true ::
          dispatch lib call (input_listener.modifier_handlers m) (Some true)
            modifier_msg code
     else []) ++
    KeyDown code ::
    dispatch lib call (input_listener.key_handlers m) None key_msg code
  else if evdev.value event =? 0 then
    (if is_modifier code
     then ModifierChanged code false ::
          dispatch lib call (input_listener.modifier_handlers m) (Some false)
            modifier_msg code
     else [])
  else if evdev.value event =? 2 then []
  else [Log ERROR event_msg (Some AttributeError)].

(** The same for a sequence of events fed to one manager. *)
Fixpoint after_events (lib : evdev.Lib) (events : list (Z * evdev.InputEvent))
    (k : input_listener.KeyState) : input_listener.KeyState :=
  match events with
  | [] => k
  | ev :: events' => after_events lib events' (after_event lib ev.1 ev.2 k)
  end.

Definition records_of_events (lib : evdev.Lib)
    (call : Callable -> option bool -> Outcome unit)
    (m : input_listener.InputManager) (events : list (Z * evdev.InputEvent))
    : list Obs :=
  flat_map (fun ev => records_of_event lib call m ev.2) events.

(** The events among the records: the entries of the two dispatch
    routines. *)
Definition is_event (o : Obs) : bool :=
  match o with
  | ModifierChanged _ _ | KeyDown _ => true
  | _ => false
  end.

Definition emitted (t : list Obs) : list Obs := List.filter is_event t.

(** The handlers that key events can reach: those of the key and
    modifier registries. *)
Definition reachable_handler (m : input_listener.InputManager) (h : Callable) : Prop :=
  (exists key_name hs,
      input_listener.key_handlers m !! key_name = Some hs /\ h ∈ hs) \/
  (exists key_name hs,
      input_listener.modifier_handlers m !! key_name = Some hs /\ h ∈ hs).

(** The key state invariant of the specification. *)
Definition modifiers_pressed (k : input_listener.KeyState) : Prop :=
  input_listener.modifiers k ⊆ input_listener.pressed_keys k.

(** What makes it inductive: only modifier codes enter [modifiers]. *)
Definition only_modifiers (k : input_listener.KeyState) : Prop :=
  input_listener.modifiers k ⊆ input_listener._get_modifier_codes.

(** How often handler [h] is called in a run. *)
Definition is_invoke (h : Callable) (o : Obs) : bool :=
  match o with
  | Invoke h' _ => bool_decide (h' = h)
  | _ => false
  end.

Definition invoked (h : Callable) (t : list Obs) : nat :=
  length (List.filter (is_invoke h) t).

(** Classification of an opened device, as [_is_keyboard_device] decides
    it, and the devices that the scan of [initialize] keeps. *)
Definition classifies (device : evdev.InputDevice) : bool :=
  match evdev.capabilities device with
  | Ret capabilities =>
      match capabilities !! ecodes.EV_KEY with
      | Some codes =>
          existsb (fun code => bool_decide (code ∈ codes))
                  [ecodes.KEY_A; ecodes.KEY_SPACE; ecodes.KEY_ENTER]
      | None => false
      end
  | Raise _ => false
  end.

Definition keyboards_among (lib : evdev.Lib) (paths : list string)
    : list evdev.InputDevice :=
  flat_map (fun p => match evdev.open lib p with
                     | Ret device => if classifies device then [device] else []
                     | Raise _ => []
                     end) paths.

Definition init_msg : string :=
  "Erreur lors de l'initialisation du gestionnaire d'entrées: ".
Definition atspi_init_msg : string :=
  "Erreur lors de l'initialisation du gestionnaire d'accessibilité: ".

Definition listing_msg : string :=
  "Erreur lors de la récupération de la liste des applications: ".
Definition register_msg : string :=
  "Erreur lors de l'enregistrement de l'écouteur d'événements: ".
Definition unregister_msg : string :=
  "Erreur lors du désenregistrement de l'écouteur d'événements: ".

(** A computation that neither changes the object nor leaves a record. *)
Definition silent {S A} (c : Py S A) : Prop :=
  forall s, state (c s) = s /\ trace (c s) = [].

(** The listener map after [register_event_listener]. *)
Definition registered (event_type : string) (callback : Callable)
    (d : list (string * list Callable)) : list (string * list Callable) :=
  dict_alter (fun l => l ++ [callback]) event_type
    (dict_setdefault event_type [] d).

(** ** Vocabulary of the further properties *)

(** A raw event that presses, or releases, the key [c]. *)
Definition is_down_of (c : Z) (event : evdev.InputEvent) : Prop :=
  evdev.type event = ecodes.EV_KEY /\ evdev.code event = c /\
  evdev.value event = 1.

Definition is_up_of (c : Z) (event : evdev.InputEvent) : Prop :=
  evdev.type event = ecodes.EV_KEY /\ evdev.code event = c /\
  evdev.value event = 0.

(** A node that records what its accessible answered, and nothing of the
    tree around it. *)
Definition snapshot_of (a : Atspi.Accessible)
    (node : atspi_backend.AccessibilityNode) : Prop :=
  atspi_backend.accessible node = a /\
  Atspi.get_role_name a = Ret (atspi_backend.role node) /\
  Atspi.get_name a = Ret (atspi_backend.name node) /\
  Atspi.get_description a = Ret (atspi_backend.description node) /\
  Atspi.get_state_set a = Ret (atspi_backend.states node) /\
  atspi_backend.children node = [] /\
  atspi_backend.parent node = None.

(** A summary that records what an application answered. *)
Definition summary_of (a : Atspi.Accessible)
    (summary : atspi_backend.AppSummary) : Prop :=
  Atspi.get_role a = Ret Atspi.Role_APPLICATION /\
  Atspi.get_name a = Ret (atspi_backend.app_name summary) /\
  Atspi.get_process_id a = Ret (atspi_backend.app_pid summary) /\
  Atspi.get_role_name a = Ret (atspi_backend.app_role summary) /\
  Atspi.get_description a = Ret (atspi_backend.app_description summary).

Definition focus_msg : string :=
  "Erreur lors de la récupération du nœud focalisé: ".
Definition point_msg (x y : Z) : string :=
  "Erreur lors de la récupération du nœud à la position ("
  +:+ pretty x +:+ ", " +:+ pretty y +:+ "): ".

(** The exception of the first query of [AccessibilityNode.__init__]
    that fails on an accessible. *)
Definition first_failure (a : Atspi.Accessible) : option Exn :=
  match Atspi.get_role_name a with
  | Raise e => Some e
  | Ret _ =>
      match Atspi.get_name a with
      | Raise e => Some e
      | Ret _ =>
          match Atspi.get_description a with
          | Raise e => Some e
          | Ret _ =>
              match Atspi.get_state_set a with
              | Raise e => Some e
              | Ret _ => None
              end
          end
      end
  end.

(** An application entry for which some field cannot be resolved: its
    role, or, on an application, one of the role name, name, description,
    state set and process id. *)
Definition unresolved (a : Atspi.Accessible) : Prop :=
  returns (Atspi.get_role a) = false \/
  (Atspi.get_role a = Ret Atspi.Role_APPLICATION /\
   returns (Atspi.get_role_name a) && returns (Atspi.get_name a)
   && returns (Atspi.get_description a) && returns (Atspi.get_state_set a)
   && returns (Atspi.get_process_id a) = false).

(** What [stop()] gets from joining the worker thread of a manager. *)
Definition stop_outcome (join : Outcome unit) (m : input_listener.InputManager)
    : Outcome unit :=
  match input_listener.thread m with
  | Some t => input_listener.Thread_join join t
  | None => Ret tt
  end.

Definition input_cleanup_msg : string :=
  "Erreur lors du nettoyage du gestionnaire d'entrées: ".
Definition cleanup_msg : string :=
  "Erreur lors du nettoyage du gestionnaire d'accessibilité: ".
Definition no_manager_msg : string :=
  "Le gestionnaire d'accessibilité n'est pas initialisé".

Definition perform_msg (action_name : string) : string :=
  "Erreur lors de l'exécution de l'action " +:+ action_name +:+ ": ".

(** The calls into the service among the records of a run. *)
Definition is_service_call (o : Obs) : bool :=
  match o with
  | RegisterKeystroke _ | DeregisterKeystroke _ | Shutdown => true
  | _ => false
  end.

Definition emitted_calls (t : list Obs) : list Obs :=
  List.filter is_service_call t.

(** A computation that calls no callback, from any state. *)
Definition calls_nothing {S A} (c : Py S A) : Prop :=
  forall s h, invoked h (trace (c s)) = 0%nat.

(** * Properties *)

(** ** Facts about the effect monad *)

Section MonadFacts.
Context {S : Type}.

Lemma run_eta {A} (r : Outcome A * S * list Obs) :
  r = (result r, state r, trace r).
Proof. by destruct r as [[? ?] ?]. Qed.

Lemma try_except_returns {A} (body : Py S A) (handler : Exn -> Py S A) s :
  (forall e s', returns (result (handler e s')) = true) ->
  returns (result (try_except body handler s)) = true.
Proof.
  intros Hh. unfold try_except.
  destruct (body s) as [[[a|e] s1] t1]; [done|].
  specialize (Hh e s1). by destruct (handler e s1) as [[? ?] ?].
Qed.

End MonadFacts.

(** ** The input-capture engine *)

Section InputFacts.
Import input_listener.
Context (lib : evdev.Lib) (call : Callable -> option bool -> Outcome unit).

Lemma for_each_call_run {S} (arg : option bool) (hs : list Callable) (s : S) :
  for_each hs (fun h => emit (Invoke h arg) ;; lift (call h arg)) s
  = (match (invocations call arg hs).2 with
     | None => Ret tt
     | Some e => Raise e
     end, s, (invocations call arg hs).1).
Proof.
  induction hs as [|h hs IH]; [done|].
  cbn [for_each invocations]. unfold bind at 1. unfold bind at 1.
  unfold emit at 1. unfold lift at 1.
  destruct (call h arg) as [[]|e]; [|done].
  rewrite IH. done.
Qed.

Lemma trigger_key_run (code : Z) (m : InputManager) :
  _trigger_key_handlers lib call code m
  = (Ret tt, m, KeyDown code :: dispatch lib call (key_handlers m) None key_msg code).
Proof.
  unfold _trigger_key_handlers, dispatch, KEY_lookup, key_msg.
  unfold bind at 1. unfold emit at 1. unfold try_except.
  unfold bind at 1. unfold lift at 1.
  destruct (evdev.KEY lib code) as [key_name|]; [|done].
  unfold bind at 1. unfold get at 1.
  destruct (key_handlers m !! key_name) as [hs|]; [|done].
  rewrite for_each_call_run.
  destruct (invocations call None hs).2; cbn; [done|].
  by rewrite app_nil_r.
Qed.

Lemma trigger_modifier_run (code : Z) (pressed : bool) (m : InputManager) :
  _trigger_modifier_handlers lib call code pressed m
  = (Ret tt, m,
     ModifierChanged code pressed ::
     dispatch lib call (modifier_handlers m) (Some pressed) modifier_msg code).
Proof.
  unfold _trigger_modifier_handlers, dispatch, KEY_lookup, modifier_msg.
  unfold bind at 1. unfold emit at 1. unfold try_except.
  unfold bind at 1. unfold lift at 1.
  destruct (evdev.KEY lib code) as [key_name|]; [|done].
  unfold bind at 1. unfold get at 1.
  destruct (modifier_handlers m !! key_name) as [hs|]; [|done].
  rewrite for_each_call_run.
  destruct (invocations call (Some pressed) hs).2; cbn; [done|].
  by rewrite app_nil_r.
Qed.

#[local] Arguments _trigger_modifier_handlers : simpl never.
#[local] Arguments _trigger_key_handlers : simpl never.
#[local] Arguments _get_modifier_codes : simpl never.

Lemma handle_key_event_run (now : Z) (event : evdev.InputEvent) (m : InputManager) :
  _handle_key_event lib call now event m
  = (Ret tt, set_key_state (after_event lib now event) m,
     records_of_event lib call m event).
Proof.
  unfold _handle_key_event, after_event, records_of_event, is_modifier,
    evdev.categorize, evdev.keystate, _check_gestures, event_msg.
  destruct m as [ini devs ks run kh mh gh].
  destruct (evdev.type event =? ecodes.EV_KEY); cbn [negb];
    [|by destruct ks].
  destruct (evdev.keys lib (evdev.code event)); cbn [negb];
    [|by destruct ks].
  destruct (Z.eqb_spec (evdev.value event) 0) as [E|H0].
  { rewrite ?E. unfold try_except, bind, lift, modify, ret; cbn.
    destruct (bool_decide _); cbn; [|by destruct ks].
    rewrite trigger_modifier_run. cbn. rewrite app_nil_r. by destruct ks. }
  destruct (Z.eqb_spec (evdev.value event) 2) as [E|H2].
  { rewrite ?E. unfold try_except, bind, lift, modify, ret; cbn. by destruct ks. }
  destruct (Z.eqb_spec (evdev.value event) 1) as [E|H1].
  { rewrite ?E. unfold try_except, bind, lift, modify, ret; cbn.
    destruct (bool_decide _); cbn.
    - rewrite trigger_modifier_run. cbn. rewrite trigger_key_run. cbn.
      rewrite !app_nil_r. by destruct ks.
    - rewrite trigger_key_run. cbn. rewrite !app_nil_r. by destruct ks. }
  unfold try_except, bind, lift, modify, ret, logger, emit; cbn.
  by destruct ks.
Qed.

End InputFacts.

Section FeedFacts.
Import input_listener.
Context (lib : evdev.Lib) (call : Callable -> option bool -> Outcome unit).

Lemma set_key_state_id (m : InputManager) :
  set_key_state (fun k => k) m = m.
Proof. by destruct m. Qed.

Lemma feed_run (events : list (Z * evdev.InputEvent)) (m : InputManager) :
  feed lib call events m
  = (Ret tt, set_key_state (after_events lib events) m,
     records_of_events lib call m events).
Proof.
  revert m. induction events as [|ev events IH]; intros m.
  - cbn. by rewrite set_key_state_id.
  - unfold feed in *. cbn [for_each]. unfold bind at 1.
    rewrite handle_key_event_run, IH.
    cbn [after_events records_of_events flat_map]. done.
Qed.

(** Every event leaves the registries, the devices and the flags alone. *)
Lemma feed_registries (events : list (Z * evdev.InputEvent)) (m : InputManager) :
  key_handlers (state (feed lib call events m)) = key_handlers m /\
  modifier_handlers (state (feed lib call events m)) = modifier_handlers m /\
  gesture_handlers (state (feed lib call events m)) = gesture_handlers m.
Proof. by rewrite feed_run. Qed.

Lemma after_event_only_modifiers (now : Z) (event : evdev.InputEvent) (k : KeyState) :
  only_modifiers k -> only_modifiers (after_event lib now event k).
Proof.
  unfold only_modifiers, after_event, is_modifier. intros Hk.
  destruct (negb _); [done|]. destruct (negb _); [done|].
  destruct (_ =? 1).
  { case_bool_decide as Hm; cbn; [|done].
    intros c [Hc| ->%elem_of_singleton]%elem_of_union; [by apply Hk | done]. }
  destruct (_ =? 0); [|done].
  case_bool_decide as Hm; cbn; [|done].
  intros c [Hc _]%elem_of_difference. by apply Hk.
Qed.

Lemma after_event_invariant (now : Z) (event : evdev.InputEvent) (k : KeyState) :
  only_modifiers k ->
  modifiers_pressed k -> modifiers_pressed (after_event lib now event k).
Proof.
  unfold only_modifiers, modifiers_pressed, after_event, is_modifier.
  intros Ho Hk.
  destruct (negb _); [done|]. destruct (negb _); [done|].
  destruct (_ =? 1).
  { case_bool_decide as Hm; cbn.
    - intros c [Hc|Hc]%elem_of_union; apply elem_of_union; [left|right]; auto.
    - intros c Hc. apply elem_of_union. left. by apply Hk. }
  destruct (_ =? 0); [|done].
  case_bool_decide as Hm; cbn.
  - intros c [Hc Hn]%elem_of_difference. apply elem_of_difference.
    split; [by apply Hk | done].
  - (* a released ordinary key was never among the modifiers *)
    intros c Hc. apply elem_of_difference. split; [by apply Hk|].
    intros ->%elem_of_singleton. apply Hm. by apply Ho.
Qed.

Lemma after_events_invariant (events : list (Z * evdev.InputEvent)) (k : KeyState) :
  only_modifiers k -> modifiers_pressed k ->
  only_modifiers (after_events lib events k) /\
  modifiers_pressed (after_events lib events k).
Proof.
  revert k. induction events as [|ev events IH]; intros k Ho Hk; [done|].
  cbn [after_events]. apply IH.
  - by apply after_event_only_modifiers.
  - by apply after_event_invariant.
Qed.

End FeedFacts.

(** C1.  From a freshly constructed [KeyState], whatever events the
    reading loop hands to [_handle_key_event] and whatever handlers are
    registered, [modifiers] is a subset of [pressed_keys] after each
    event: the property holds for the state reached by every prefix of
    the sequence. *)
Theorem key_state_invariant_reachable
    (lib : evdev.Lib) (call : Callable -> option bool -> Outcome unit)
    (m : input_listener.InputManager)
    (events : list (Z * evdev.InputEvent)) (n : nat) :
  input_listener.key_state m = input_listener.KeyState_new ->
  input_listener.modifiers
    (input_listener.key_state
       (state (input_listener.feed lib call (take n events) m)))
  ⊆ input_listener.pressed_keys
      (input_listener.key_state
         (state (input_listener.feed lib call (take n events) m))).
Proof.
  intros Hfresh. rewrite feed_run. cbn. rewrite Hfresh.
  apply (after_events_invariant lib (take n events) input_listener.KeyState_new).
  - intros c Hc. by apply not_elem_of_empty in Hc.
  - intros c Hc. by apply not_elem_of_empty in Hc.
Qed.

Lemma key_state_invariant_reachable_witness :
  input_listener.key_state sample.two_handlers = input_listener.KeyState_new /\
  input_listener.modifiers
    (input_listener.key_state
       (state (input_listener.feed sample.lib sample.first_raises
                 (take 3 sample.scenario_B) sample.two_handlers)))
  ⊆ input_listener.pressed_keys
      (input_listener.key_state
         (state (input_listener.feed sample.lib sample.first_raises
                   (take 3 sample.scenario_B) sample.two_handlers))).
Proof.
  split; [reflexivity|].
  apply (key_state_invariant_reachable sample.lib sample.first_raises
           sample.two_handlers sample.scenario_B 3).
  reflexivity.
Defined.

(** *** Dispatch to handlers *)

Section DispatchFacts.
Import input_listener.
Context (lib : evdev.Lib) (call : Callable -> option bool -> Outcome unit).

Lemma invocations_first_raise (arg : option bool)
    (pre : list Callable) (h : Callable) (post : list Callable) (e : Exn) :
  (forall h', h' ∈ pre -> call h' arg = Ret tt) ->
  call h arg = Raise e ->
  invocations call arg (pre ++ h :: post)
  = (map (fun h' => Invoke h' arg) (pre ++ [h]), Some e).
Proof.
  intros Hpre Hh. induction pre as [|p pre IH]; cbn.
  - by rewrite Hh.
  - rewrite (Hpre p) by apply list_elem_of_here.
    rewrite IH; [done|]. intros h' Hin. apply Hpre. by apply list_elem_of_further.
Qed.

Lemma invocations_all_return (arg : option bool) (hs : list Callable) :
  (forall h, h ∈ hs -> call h arg = Ret tt) ->
  invocations call arg hs = (map (fun h => Invoke h arg) hs, None).
Proof.
  intros Hall. induction hs as [|h hs IH]; [done|]. cbn.
  rewrite (Hall h) by apply list_elem_of_here.
  rewrite IH; [done|]. intros h' Hin. apply Hall. by apply list_elem_of_further.
Qed.

Lemma invocations_elem (arg : option bool) (hs : list Callable) (o : Obs) :
  o ∈ (invocations call arg hs).1 -> exists h, o = Invoke h arg /\ h ∈ hs.
Proof.
  induction hs as [|h hs IH]; cbn.
  - intros Hin. by apply elem_of_nil in Hin.
  - destruct (call h arg); cbn.
    + intros [->|Hin]%elem_of_cons.
      * exists h. split; [done | apply list_elem_of_here].
      * destruct (IH Hin) as (h' & -> & Hh'). exists h'.
        split; [done | by apply list_elem_of_further].
    + intros ->%list_elem_of_singleton. exists h.
      split; [done | apply list_elem_of_here].
Qed.

Lemma dispatch_elem (registry : gmap string (list Callable)) (arg : option bool)
    (msg : string) (code : Z) (o : Obs) :
  o ∈ dispatch lib call registry arg msg code ->
  (exists e, o = Log ERROR msg (Some e)) \/
  (exists h key_name hs,
      o = Invoke h arg /\ registry !! key_name = Some hs /\ h ∈ hs).
Proof.
  unfold dispatch. destruct (evdev.KEY lib code) as [key_name|].
  - destruct (registry !! key_name) as [hs|] eqn:Hreg.
    + intros [Hin|Hin]%elem_of_app.
      * right. destruct (invocations_elem _ _ _ Hin) as (h & -> & Hh).
        by exists h, key_name, hs.
      * left. destruct (invocations call arg hs).2 as [e|].
        -- apply list_elem_of_singleton in Hin. by exists e.
        -- by apply elem_of_nil in Hin.
    + intros Hin. by apply elem_of_nil in Hin.
  - intros ->%list_elem_of_singleton. left. by exists KeyError.
Qed.

Lemma emitted_app (t1 t2 : list Obs) :
  emitted (t1 ++ t2) = emitted t1 ++ emitted t2.
Proof. unfold emitted. apply List.filter_app. Qed.

Lemma emitted_cons (o : Obs) (t : list Obs) :
  emitted (o :: t) = (if is_event o then [o] else []) ++ emitted t.
Proof. unfold emitted. cbn. by destruct (is_event o). Qed.

Lemma emitted_dispatch (registry : gmap string (list Callable))
    (arg : option bool) (msg : string) (code : Z) :
  emitted (dispatch lib call registry arg msg code) = [].
Proof.
  unfold emitted.
  assert (Hall : forall o, o ∈ dispatch lib call registry arg msg code ->
                           is_event o = false).
  { intros o [[e ->]|(h & k & hs & -> & _)]%dispatch_elem; done. }
  induction (dispatch lib call registry arg msg code) as [|o t IH]; [done|].
  cbn. rewrite (Hall o) by apply list_elem_of_here.
  apply IH. intros o' Ho'. apply Hall. by apply list_elem_of_further.
Qed.

End DispatchFacts.

(** C2, as the code has it.  Both dispatch routines run their loop inside
    one [try]: when the handlers registered for an event type are
    [pre ++ h :: post], those of [pre] return and [h] raises [e], then
    the handlers of [pre] and [h] are called in registration order, [e]
    is logged as an error, no later handler is called, and the routine
    returns to its caller with the manager unchanged. *)
Theorem dispatch_stops_at_first_raise
    (lib : evdev.Lib) (call : Callable -> option bool -> Outcome unit)
    (m : input_listener.InputManager) (code : Z) (key_name : string)
    (pre : list Callable) (h : Callable) (post : list Callable) (e : Exn) :
  evdev.KEY lib code = Some key_name ->
  (input_listener.key_handlers m !! key_name = Some (pre ++ h :: post) ->
   (forall h', h' ∈ pre -> call h' None = Ret tt) ->
   call h None = Raise e ->
   input_listener._trigger_key_handlers lib call code m
   = (Ret tt, m,
      KeyDown code :: map (fun h' => Invoke h' None) (pre ++ [h]) ++
      [Log ERROR key_msg (Some e)])) /\
  (forall pressed : bool,
   input_listener.modifier_handlers m !! key_name = Some (pre ++ h :: post) ->
   (forall h', h' ∈ pre -> call h' (Some pressed) = Ret tt) ->
   call h (Some pressed) = Raise e ->
   input_listener._trigger_modifier_handlers lib call code pressed m
   = (Ret tt, m,
      ModifierChanged code pressed ::
      map (fun h' => Invoke h' (Some pressed)) (pre ++ [h]) ++
      [Log ERROR modifier_msg (Some e)])).
Proof.
  intros Hname. split.
  - intros Hreg Hpre Hh. rewrite trigger_key_run. unfold dispatch.
    rewrite Hname, Hreg.
    by rewrite (invocations_first_raise call None pre h post e Hpre Hh).
  - intros pressed Hreg Hpre Hh. rewrite trigger_modifier_run. unfold dispatch.
    rewrite Hname, Hreg.
    by rewrite (invocations_first_raise call (Some pressed) pre h post e Hpre Hh).
Qed.

Lemma dispatch_stops_at_first_raise_witness :
  input_listener._trigger_key_handlers sample.lib sample.first_raises
    ecodes.KEY_A sample.two_handlers
  = (Ret tt, sample.two_handlers,
     [KeyDown ecodes.KEY_A; Invoke 1%nat None;
      Log ERROR key_msg (Some HandlerError)]).
Proof.
  apply (proj1 (dispatch_stops_at_first_raise sample.lib sample.first_raises
                  sample.two_handlers ecodes.KEY_A "KEY_A" [] 1%nat [2%nat]
                  HandlerError eq_refl)).
  - reflexivity.
  - intros h' Hin. by apply elem_of_nil in Hin.
  - reflexivity.
Defined.

(** C2 as the specification words it fails: handler 2 is registered after
    handler 1 for the key A, handler 1 raises, and handler 2 is not
    called in that dispatch. *)
Lemma later_handler_skipped :
  input_listener.key_handlers sample.two_handlers !! "KEY_A"
    = Some [1%nat; 2%nat] /\
  sample.first_raises 1%nat None = Raise HandlerError /\
  sample.first_raises 2%nat None = Ret tt /\
  invoked 2%nat
    (trace (input_listener._trigger_key_handlers sample.lib sample.first_raises
              ecodes.KEY_A sample.two_handlers)) = 0%nat.
Proof. repeat split; reflexivity. Qed.

(** *** Scenarios B and C *)

(** C3, as the code has it.  For the sequence down(LeftCtrl), down(C),
    up(C), up(LeftCtrl) from a fresh key state, with codes that the
    library knows, the events are modifier_changed(LeftCtrl, true),
    key_down(LeftCtrl), key_down(C), modifier_changed(LeftCtrl, false),
    in this order: the key-down of a modifier code goes to the modifier
    handlers and then, like every key-down, to the key handlers.
    Afterwards [pressed_keys] and [modifiers] are both empty. *)
Theorem scenario_B_events
    (lib : evdev.Lib) (call : Callable -> option bool -> Outcome unit)
    (m : input_listener.InputManager) (t1 t2 t3 t4 : Z) :
  input_listener.key_state m = input_listener.KeyState_new ->
  evdev.keys lib ecodes.KEY_LEFTCTRL = true ->
  evdev.keys lib ecodes.KEY_C = true ->
  emitted
    (trace (input_listener.feed lib call
              [(t1, sample.down ecodes.KEY_LEFTCTRL); (t2, sample.down ecodes.KEY_C);
               (t3, sample.up ecodes.KEY_C); (t4, sample.up ecodes.KEY_LEFTCTRL)] m))
  = [ModifierChanged ecodes.KEY_LEFTCTRL true; KeyDown ecodes.KEY_LEFTCTRL;
     KeyDown ecodes.KEY_C; ModifierChanged ecodes.KEY_LEFTCTRL false] /\
  input_listener.pressed_keys
    (input_listener.key_state
       (state (input_listener.feed lib call
                 [(t1, sample.down ecodes.KEY_LEFTCTRL); (t2, sample.down ecodes.KEY_C);
                  (t3, sample.up ecodes.KEY_C); (t4, sample.up ecodes.KEY_LEFTCTRL)] m)))
  = ∅ /\
  input_listener.modifiers
    (input_listener.key_state
       (state (input_listener.feed lib call
                 [(t1, sample.down ecodes.KEY_LEFTCTRL); (t2, sample.down ecodes.KEY_C);
                  (t3, sample.up ecodes.KEY_C); (t4, sample.up ecodes.KEY_LEFTCTRL)] m)))
  = ∅.
Proof.
  intros Hfresh Hctrl Hc. rewrite feed_run. cbn [trace state fst snd].
  split.
  - unfold records_of_events. cbn [flat_map fst snd].
    unfold records_of_event. cbn [sample.down sample.up evdev.type evdev.code evdev.value].
    rewrite Hctrl, Hc. cbn [negb Z.eqb ecodes.EV_KEY Pos.eqb].
    change (is_modifier ecodes.KEY_LEFTCTRL) with true.
    change (is_modifier ecodes.KEY_C) with false.
    cbv beta iota.
    rewrite ?emitted_app, ?emitted_cons, ?emitted_dispatch. reflexivity.
  - cbn [input_listener.key_state input_listener.set_key_state]. rewrite Hfresh.
    unfold after_events, after_event.
    cbn [fst snd sample.down sample.up evdev.type evdev.code evdev.value].
    rewrite Hctrl, Hc. cbn [negb Z.eqb ecodes.EV_KEY Pos.eqb].
    change (is_modifier ecodes.KEY_LEFTCTRL) with true.
    change (is_modifier ecodes.KEY_C) with false.
    split; reflexivity.
Qed.

Lemma scenario_B_events_witness :
  emitted
    (trace (input_listener.feed sample.lib sample.quiet sample.scenario_B
              input_listener.InputManager_new))
  = [ModifierChanged ecodes.KEY_LEFTCTRL true; KeyDown ecodes.KEY_LEFTCTRL;
     KeyDown ecodes.KEY_C; ModifierChanged ecodes.KEY_LEFTCTRL false].
Proof.
  apply (scenario_B_events sample.lib sample.quiet input_listener.InputManager_new
           10 20 30 40); reflexivity.
Defined.

(** C3 as the specification words it fails: the key-down of LeftCtrl is
    also dispatched as a key_down event, so the events are not the three
    that the scenario lists. *)
Lemma scenario_B_not_three_events :
  emitted
    (trace (input_listener.feed sample.lib sample.quiet sample.scenario_B
              input_listener.InputManager_new))
  <> [ModifierChanged ecodes.KEY_LEFTCTRL true; KeyDown ecodes.KEY_C;
      ModifierChanged ecodes.KEY_LEFTCTRL false].
Proof. vm_compute. discriminate. Qed.

Section GestureFacts.
Import input_listener.
Context (lib : evdev.Lib) (call : Callable -> option bool -> Outcome unit).

Lemma records_of_event_invoke (m : InputManager) (event : evdev.InputEvent)
    (h : Callable) (arg : option bool) :
  Invoke h arg ∈ records_of_event lib call m event -> reachable_handler m h.
Proof.
  unfold records_of_event, reachable_handler.
  assert (Hkey : forall a msg code,
    Invoke h arg ∈ dispatch lib call (key_handlers m) a msg code ->
    exists key_name hs, key_handlers m !! key_name = Some hs /\ h ∈ hs).
  { intros a msg code [[e He]|(h' & k & hs & He & Hreg & Hin)]%dispatch_elem;
      [discriminate|]. injection He as -> _. by exists k, hs. }
  assert (Hmod : forall a msg code,
    Invoke h arg ∈ dispatch lib call (modifier_handlers m) a msg code ->
    exists key_name hs, modifier_handlers m !! key_name = Some hs /\ h ∈ hs).
  { intros a msg code [[e He]|(h' & k & hs & He & Hreg & Hin)]%dispatch_elem;
      [discriminate|]. injection He as -> _. by exists k, hs. }
  destruct (negb _); [by intros ?%elem_of_nil|].
  destruct (negb _); [by intros ?%list_elem_of_singleton|].
  destruct (_ =? 1).
  { destruct (is_modifier _).
    - intros [Hin|Hin]%elem_of_app.
      + apply elem_of_cons in Hin as [?|Hin]; [discriminate|]. right. eauto.
      + apply elem_of_cons in Hin as [?|Hin]; [discriminate|]. left. eauto.
    - cbn [app]. intros [?|Hin]%elem_of_cons; [discriminate|]. left. eauto. }
  destruct (_ =? 0).
  { destruct (is_modifier _); [|by intros ?%elem_of_nil].
    intros [?|Hin]%elem_of_cons; [discriminate|]. right. eauto. }
  destruct (_ =? 2); [by intros ?%elem_of_nil|].
  by intros ?%list_elem_of_singleton.
Qed.

Lemma feed_invoke (m : InputManager) (events : list (Z * evdev.InputEvent))
    (h : Callable) (arg : option bool) :
  Invoke h arg ∈ trace (feed lib call events m) -> reachable_handler m h.
Proof.
  rewrite feed_run. cbn [trace snd]. unfold records_of_events.
  induction events as [|ev events IH]; cbn [flat_map].
  - by intros ?%elem_of_nil.
  - intros [Hin|Hin]%elem_of_app; [|by apply IH].
    by apply records_of_event_invoke in Hin.
Qed.

Lemma invoked_zero (h : Callable) (t : list Obs) :
  (forall arg, Invoke h arg ∉ t) -> invoked h t = 0%nat.
Proof.
  unfold invoked. induction t as [|o t IH]; intros Hnot; [done|].
  cbn [List.filter].
  destruct (is_invoke h o) eqn:Ho.
  - destruct o as [| | |h' arg| | |]; try discriminate. cbn in Ho.
    apply bool_decide_eq_true in Ho as ->.
    destruct (Hnot arg). apply list_elem_of_here.
  - apply IH. intros arg Hin. apply (Hnot arg). by apply list_elem_of_further.
Qed.

End GestureFacts.

(** C4, as the code has it.  [_check_gestures] does nothing, and nothing
    else reads [gesture_handlers]: whatever keys go down or up, a handler
    registered for a gesture is never called, unless the same callable is
    also registered as a key or modifier handler.  The gesture event is
    emitted zero times, so it is never emitted a second time either. *)
Theorem gesture_handler_never_called
    (lib : evdev.Lib) (call : Callable -> option bool -> Outcome unit)
    (m : input_listener.InputManager) (gesture : string)
    (hs : list Callable) (h : Callable)
    (events : list (Z * evdev.InputEvent)) :
  input_listener.gesture_handlers m !! gesture = Some hs ->
  h ∈ hs ->
  ~ reachable_handler m h ->
  invoked h (trace (input_listener.feed lib call events m)) = 0%nat /\
  input_listener.gesture_handlers
    (state (input_listener.feed lib call events m)) !! gesture = Some hs.
Proof.
  intros Hreg Hin Hnot. split.
  - apply invoked_zero. intros arg Hinv. apply Hnot.
    by apply (feed_invoke lib call m events h arg).
  - destruct (feed_registries lib call events m) as (_ & _ & ->). done.
Qed.

Lemma gesture_handler_never_called_witness :
  invoked 7%nat
    (trace (input_listener.feed sample.lib sample.quiet sample.scenario_C
              sample.gesture_manager)) = 0%nat.
Proof.
  apply (gesture_handler_never_called sample.lib sample.quiet
           sample.gesture_manager "KEY_LEFTCTRL+KEY_LEFTALT+KEY_L"
           [7%nat] 7%nat sample.scenario_C).
  - reflexivity.
  - apply list_elem_of_here.
  - intros [(k & hs & Hk & _)|(k & hs & Hk & _)]; discriminate Hk.
Defined.

(** C4 as the specification words it fails: with handler 7 registered for
    the gesture of LeftCtrl, LeftAlt and L, the three keys go down and
    stay down, and the handler has been called zero times, not once. *)
Lemma scenario_C_gesture_not_fired :
  input_listener.gesture_handlers sample.gesture_manager
    !! "KEY_LEFTCTRL+KEY_LEFTALT+KEY_L" = Some [7%nat] /\
  input_listener.pressed_keys
    (input_listener.key_state
       (state (input_listener.feed sample.lib sample.quiet sample.scenario_C
                 sample.gesture_manager)))
  = {[ ecodes.KEY_LEFTCTRL; ecodes.KEY_LEFTALT; ecodes.KEY_L ]} /\
  invoked 7%nat
    (trace (input_listener.feed sample.lib sample.quiet sample.scenario_C
              sample.gesture_manager)) <> 1%nat.
Proof.
  split; [reflexivity|]. split; [reflexivity|].
  vm_compute. discriminate.
Qed.

(** *** Initialisation of the capture engine *)

Section InitFacts.
Import input_listener.
Context (lib : evdev.Lib).

Lemma is_keyboard_device_run (device : evdev.InputDevice) (m : InputManager) :
  _is_keyboard_device device m = (Ret (classifies device), m, []).
Proof.
  unfold _is_keyboard_device, classifies, try_except, bind, lift, ret.
  by destruct (evdev.capabilities device).
Qed.

Lemma set_devices_app (l1 l2 : list evdev.InputDevice) (m : InputManager) :
  set_devices (fun ds => ds ++ l2) (set_devices (fun ds => ds ++ l1) m)
  = set_devices (fun ds => ds ++ (l1 ++ l2)) m.
Proof. destruct m. unfold set_devices. cbn. by rewrite <- app_assoc. Qed.

Lemma set_devices_nil (m : InputManager) :
  set_devices (fun ds => ds ++ []) m = m.
Proof. destruct m. unfold set_devices. cbn. by rewrite app_nil_r. Qed.

(** The scan opens every listed path, keeps the devices that classify
    as keyboards, in order, and is not stopped by a device that fails
    to open. *)
Lemma find_keyboards_devices (paths : list string) (m : InputManager) :
  evdev.list_devices lib = Ret paths ->
  exists t,
    find_keyboards lib m
    = (Ret tt, set_devices (fun ds => ds ++ keyboards_among lib paths) m, t).
Proof.
  intros Hlist. unfold find_keyboards. unfold bind at 1. unfold lift at 1.
  rewrite Hlist. clear Hlist.
  match goal with
  | |- context [for_each paths ?f] => set (body := f)
  end.
  assert (Hloop : forall m0, exists t,
    for_each paths body m0
    = (Ret tt, set_devices (fun ds => ds ++ keyboards_among lib paths) m0, t)).
  { induction paths as [|p paths' IH]; intros m0.
    - exists []. cbn. by rewrite set_devices_nil.
    - cbn [for_each keyboards_among flat_map]. unfold bind at 1.
      assert (Hbody : exists t,
        body p m0 = (Ret tt,
                     set_devices (fun ds => ds ++
                       match evdev.open lib p with
                       | Ret device => if classifies device then [device] else []
                       | Raise _ => []
                       end) m0, t)).
      { unfold body, try_except. unfold bind at 1. unfold lift at 1.
        destruct (evdev.open lib p) as [device|e].
        - unfold bind at 1. rewrite is_keyboard_device_run.
          destruct (classifies device).
          + eexists. unfold bind, modify, logger, emit. cbn. reflexivity.
          + eexists. unfold ret. cbn. by rewrite set_devices_nil.
        - eexists. unfold logger, emit. cbn. by rewrite set_devices_nil. }
      destruct Hbody as [t ->].
      destruct (IH (set_devices (fun ds => ds ++
                       match evdev.open lib p with
                       | Ret device => if classifies device then [device] else []
                       | Raise _ => []
                       end) m0)) as [t2 ->].
      eexists. by rewrite set_devices_app. }
  destruct (Hloop m) as [t ->]. by eexists.
Qed.

(** The call [config.get_config('keyboard', 'key_repeat_delay', 500)]
    raises [TypeError], which the outer [except] of [initialize] turns
    into the result [False]. *)
Lemma InputManager_initialize_run (m : InputManager) :
  InputManager_initialize lib m
  = (Ret false, m, [Log ERROR init_msg (Some TypeError)]).
Proof. reflexivity. Qed.

End InitFacts.

(** On the sample machine the scan finds the keyboard and leaves the
    mouse (scenario A of the specification). *)
Example find_keyboards_sample :
  input_listener.devices
    (state (input_listener.find_keyboards sample.lib input_listener.InputManager_new))
  = [sample.keyboard].
Proof.
  destruct (find_keyboards_devices sample.lib _ input_listener.InputManager_new
              eq_refl) as [t ->].
  reflexivity.
Qed.

(** C7, the code at the failing input.  On a machine whose first device
    opens and classifies as a keyboard, [initialize] still returns
    [False], with nothing changed in the manager: the configuration
    lookup raises before the devices are listed. *)
Theorem initialize_fails_with_keyboard_present :
  evdev.open sample.lib "/dev/input/event0" = Ret sample.keyboard /\
  result (input_listener._is_keyboard_device sample.keyboard
            input_listener.InputManager_new) = Ret true /\
  input_listener.InputManager_initialize sample.lib input_listener.InputManager_new
  = (Ret false, input_listener.InputManager_new,
     [Log ERROR init_msg (Some TypeError)]) /\
  input_listener.initialize sample.lib None
  = (Ret false, Some input_listener.InputManager_new,
     [Log ERROR init_msg (Some TypeError)]).
Proof. repeat split; reflexivity. Qed.

Section AtspiInitFacts.
Import atspi_backend.
Context (svc : Atspi.Service).

Lemma AccessibilityNode_new_run {S} (a : Atspi.Accessible) (s : S) :
  state (AccessibilityNode_new a s) = s /\ trace (AccessibilityNode_new a s) = [].
Proof.
  unfold AccessibilityNode_new, bind, lift, ret.
  destruct (Atspi.get_role_name a); [|done].
  destruct (Atspi.get_name a); [|done].
  destruct (Atspi.get_description a); [|done].
  by destruct (Atspi.get_state_set a).
Qed.

Lemma AccessibilityNode_new_eta {S} (a : Atspi.Accessible) (s : S) :
  AccessibilityNode_new a s = (result (AccessibilityNode_new a s), s, []).
Proof.
  destruct (AccessibilityNode_new_run a s) as [Hs Ht].
  rewrite (run_eta (AccessibilityNode_new a s)) at 1. by rewrite Hs, Ht.
Qed.

(** Whatever the service answers, [AccessibilityManager.initialize]
    logs an error, returns [False] and enables neither the manager nor
    braille. *)
Lemma AccessibilityManager_initialize_fails (m : AccessibilityManager) :
  exists m' e,
    AccessibilityManager_initialize svc m
    = (Ret false, m', [Log ERROR atspi_init_msg (Some e)]) /\
    initialized m' = initialized m /\
    braille_display m' = braille_display m /\
    event_listeners m' = event_listeners m.
Proof.
  unfold AccessibilityManager_initialize, try_except.
  unfold bind at 1. unfold lift at 1.
  destruct (Atspi.init svc) as [[]|e]; [|by exists m, e].
  unfold bind at 1. unfold lift at 1.
  destruct (Atspi.get_desktop svc 0) as [desktop|e]; [|by exists m, e].
  unfold bind at 1. rewrite AccessibilityNode_new_eta.
  destruct (result (AccessibilityNode_new desktop m)) as [node|e];
    [|by exists m, e].
  exists (set_root (Some node) m), TypeError. done.
Qed.

End AtspiInitFacts.

(** C9, the code at the failing input.  With the configuration module
    as it is, the key-repeat delay and rate of a new manager stay at the
    500 ms and 30 ms that [KeyState.__init__] sets and braille is not
    enabled, but neither initialisation proceeds: every lookup
    [config.get_config(section, key, default)] raises [TypeError],
    because [get_config] takes no argument, and both [initialize] methods
    return [False] for that reason. *)
Theorem initialize_fails_on_configuration_lookup :
  config.get_config [config.VStr "keyboard"; config.VStr "key_repeat_delay";
                     config.VInt 500] = Raise TypeError /\
  input_listener.InputManager_initialize sample.lib input_listener.InputManager_new
  = (Ret false, input_listener.InputManager_new,
     [Log ERROR init_msg (Some TypeError)]) /\
  input_listener.key_repeat_delay
    (input_listener.key_state
       (state (input_listener.InputManager_initialize sample.lib
                 input_listener.InputManager_new))) = 500 /\
  input_listener.key_repeat_rate
    (input_listener.key_state
       (state (input_listener.InputManager_initialize sample.lib
                 input_listener.InputManager_new))) = 30 /\
  result (atspi_backend.AccessibilityManager_initialize sample.svc
            atspi_backend.AccessibilityManager_new) = Ret false /\
  trace (atspi_backend.AccessibilityManager_initialize sample.svc
           atspi_backend.AccessibilityManager_new)
  = [Log ERROR atspi_init_msg (Some TypeError)] /\
  atspi_backend.braille_display
    (state (atspi_backend.AccessibilityManager_initialize sample.svc
              atspi_backend.AccessibilityManager_new)) = None /\
  atspi_backend.initialized
    (state (atspi_backend.AccessibilityManager_initialize sample.svc
              atspi_backend.AccessibilityManager_new)) = false.
Proof. repeat split; reflexivity. Qed.

(** ** The accessibility-tree client *)

(** *** Queries *)

(** Computations that change nothing and leave no record. *)
Section SilentFacts.
Context {S : Type}.

Lemma silent_run {A} (c : Py S A) (s : S) :
  silent c -> c s = (result (c s), s, []).
Proof.
  intros Hc. destruct (Hc s) as [Hs Ht].
  rewrite (run_eta (c s)) at 1. by rewrite Hs, Ht.
Qed.

Lemma silent_ret {A} (a : A) : silent (ret a : Py S A).
Proof. by intros s. Qed.

Lemma silent_lift {A} (o : Outcome A) : silent (lift o : Py S A).
Proof. by intros s. Qed.

Lemma silent_bind {A B} (c : Py S A) (k : A -> Py S B) :
  silent c -> (forall a, silent (k a)) -> silent (bind c k).
Proof.
  intros Hc Hk s. unfold bind. rewrite (silent_run c s Hc).
  destruct (result (c s)) as [a|e]; [|done].
  rewrite (silent_run (k a) s (Hk a)). done.
Qed.

Lemma silent_map_m {A B} (f : A -> Py S B) (l : list A) :
  (forall x, silent (f x)) -> silent (map_m f l).
Proof.
  intros Hf. induction l as [|x l IH]; cbn [map_m].
  - apply silent_ret.
  - apply silent_bind; [apply Hf|]. intros y.
    apply silent_bind; [apply IH|]. intros ys. apply silent_ret.
Qed.

(** A silent first step that raises makes the sequence raise. *)
Lemma bind_raises_first {A B} (c : Py S A) (k : A -> Py S B) (s : S) :
  returns (result (c s)) = false -> returns (result (bind c k s)) = false.
Proof. unfold bind. by destruct (c s) as [[[a|e] s1] t1]. Qed.

Lemma bind_raises_next {A B} (c : Py S A) (k : A -> Py S B) (s : S) (a : A) :
  c s = (Ret a, s, []) ->
  returns (result (k a s)) = false -> returns (result (bind c k s)) = false.
Proof.
  unfold bind. intros ->. by destruct (k a s) as [[[b|e] s1] t1].
Qed.

(** A comprehension raises as soon as one of its elements does. *)
Lemma map_m_raises {A B} (f : A -> Py S B) (l : list A) (x : A) (s : S) :
  (forall y, silent (f y)) ->
  x ∈ l ->
  returns (result (f x s)) = false ->
  returns (result (map_m f l s)) = false.
Proof.
  intros Hf Hin Hx. induction l as [|y l IH]; [by apply elem_of_nil in Hin|].
  cbn [map_m]. destruct (result (f y s)) as [b|e] eqn:Hy.
  - apply (bind_raises_next _ _ s b).
    { rewrite (silent_run (f y) s (Hf y)). by rewrite Hy. }
    apply elem_of_cons in Hin as [->|Hin].
    { rewrite Hy in Hx. discriminate. }
    apply bind_raises_first. by apply IH.
  - apply bind_raises_first. by rewrite Hy.
Qed.

End SilentFacts.

Section QueryFacts.
Import atspi_backend.
Context (svc : Atspi.Service).

Lemma bind_returns {S A B} (c : Py S A) (k : A -> Py S B) (s : S) :
  returns (result (c s)) = true ->
  (forall a s', returns (result (k a s')) = true) ->
  returns (result (bind c k s)) = true.
Proof.
  unfold bind. destruct (c s) as [[[a|e] s1] t1]; [|discriminate].
  intros _ Hk. specialize (Hk a s1). by destruct (k a s1) as [[? ?] ?].
Qed.

Lemma get_focused_node_returns (m : AccessibilityManager) :
  returns (result (get_focused_node svc m)) = true.
Proof. by apply try_except_returns. Qed.

Lemma get_node_at_point_returns (x y : Z) (m : AccessibilityManager) :
  returns (result (get_node_at_point svc x y m)) = true.
Proof. by apply try_except_returns. Qed.

Lemma get_text_returns {S} (node : AccessibilityNode) (s : S) :
  returns (result (get_text node s)) = true.
Proof.
  apply bind_returns; [by apply try_except_returns|].
  by intros [?|] ?.
Qed.

Lemma get_actions_returns {S} (node : AccessibilityNode) (s : S) :
  returns (result (get_actions node s)) = true.
Proof. by apply try_except_returns. Qed.

Lemma with_accessibility_manager_returns {A} (absent : A)
    (c : Py AccessibilityManager A) (g : option AccessibilityManager) :
  (forall m, returns (result (c m)) = true) ->
  returns (result (with_accessibility_manager absent c g)) = true.
Proof.
  intros Hc. unfold with_accessibility_manager, bind, get.
  destruct g as [m|]; [|done].
  unfold on_manager, zoom. specialize (Hc m).
  by destruct (c m) as [[? ?] ?].
Qed.

End QueryFacts.

Section QueryFailureFacts.
Import atspi_backend.
Context (svc : Atspi.Service).

Lemma AccessibilityNode_new_failure {S} (a : Atspi.Accessible) (e : Exn)
    (s : S) :
  first_failure a = Some e ->
  AccessibilityNode_new a s = (Raise e, s, []).
Proof.
  unfold first_failure, AccessibilityNode_new, bind, lift, ret.
  destruct (Atspi.get_role_name a); [|by intros [= ->]].
  destruct (Atspi.get_name a); [|by intros [= ->]].
  destruct (Atspi.get_description a); [|by intros [= ->]].
  destruct (Atspi.get_state_set a); [discriminate | by intros [= ->]].
Qed.

Lemma get_text_silent (node : AccessibilityNode) (s : unit) :
  exists text, get_text node s = (Ret text, s, []).
Proof.
  unfold get_text, bind, try_except, lift, ret, deref.
  destruct (Atspi.get_text (accessible node)) as [[iface|]|e]; cbn;
    [|by eexists|by eexists].
  destruct (Atspi.text_get_text iface 0 (-1)); by eexists.
Qed.

Lemma names_silent (actions : list Atspi.Action) (s : unit) :
  state (map_m (fun action => lift (Atspi.action_get_name action)) actions s) = s
  /\ trace (map_m (fun action => lift (Atspi.action_get_name action)) actions s)
     = [].
Proof.
  induction actions as [|a actions [IHs IHt]]; [done|].
  cbn [map_m]. unfold bind at 1 3. unfold lift at 1 3.
  destruct (Atspi.action_get_name a); [|done].
  unfold bind at 1 2.
  destruct (map_m _ actions s) as [[[names|e] s'] t]; cbn in *; by subst.
Qed.

Lemma get_actions_silent (node : AccessibilityNode) (s : unit) :
  exists names, get_actions node s = (Ret names, s, []).
Proof.
  unfold get_actions, try_except. unfold bind at 1. unfold lift at 1.
  destruct (Atspi.get_action_iface (accessible node)) as [[iface|]|e];
    [|by eexists|by eexists].
  unfold bind at 1. unfold lift at 1. cbn [deref].
  unfold bind at 1. unfold lift at 1.
  destruct (Atspi.get_actions iface) as [actions|e]; [|by eexists].
  destruct (names_silent actions s) as [Hs Ht]. revert Hs Ht.
  destruct (map_m _ actions s) as [[[names|e] s'] t]; cbn;
    intros -> ->; by eexists.
Qed.

Lemma get_focused_node_run (m : AccessibilityManager) :
  get_focused_node svc m
  = match Atspi.get_focused svc with
    | Ret (Some a) =>
        match result (AccessibilityNode_new a m) with
        | Ret node => (Ret (Some node), m, [])
        | Raise e => (Ret None, m, [Log ERROR focus_msg (Some e)])
        end
    | Ret None => (Ret None, m, [])
    | Raise e => (Ret None, m, [Log ERROR focus_msg (Some e)])
    end.
Proof.
  unfold get_focused_node, try_except. unfold bind at 1. unfold lift at 1.
  destruct (Atspi.get_focused svc) as [[a|]|e]; [|done|done].
  unfold bind at 1. rewrite AccessibilityNode_new_eta.
  by destruct (result (AccessibilityNode_new a m)).
Qed.

Lemma get_node_at_point_run (x y : Z) (m : AccessibilityManager) :
  get_node_at_point svc x y m
  = match Atspi.get_desktop svc 0 with
    | Ret desktop =>
        match Atspi.get_accessible_at_point desktop x y with
        | Ret (Some a) =>
            match result (AccessibilityNode_new a m) with
            | Ret node => (Ret (Some node), m, [])
            | Raise e => (Ret None, m, [Log ERROR (point_msg x y) (Some e)])
            end
        | Ret None => (Ret None, m, [])
        | Raise e => (Ret None, m, [Log ERROR (point_msg x y) (Some e)])
        end
    | Raise e => (Ret None, m, [Log ERROR (point_msg x y) (Some e)])
    end.
Proof.
  unfold get_node_at_point, try_except. unfold bind at 1. unfold lift at 1.
  destruct (Atspi.get_desktop svc 0) as [desktop|e]; [|done].
  unfold bind at 1. unfold lift at 1.
  destruct (Atspi.get_accessible_at_point desktop x y) as [[a|]|e];
    [|done|done].
  unfold bind at 1. rewrite AccessibilityNode_new_eta.
  by destruct (result (AccessibilityNode_new a m)).
Qed.

Lemma get_focused_node_state (m : AccessibilityManager) :
  state (get_focused_node svc m) = m.
Proof.
  rewrite get_focused_node_run.
  destruct (Atspi.get_focused svc) as [[a|]|e]; [|done|done].
  by destruct (result (AccessibilityNode_new a m)).
Qed.

Lemma get_node_at_point_state (x y : Z) (m : AccessibilityManager) :
  state (get_node_at_point svc x y m) = m.
Proof.
  rewrite get_node_at_point_run.
  destruct (Atspi.get_desktop svc 0) as [desktop|e]; [|done].
  destruct (Atspi.get_accessible_at_point desktop x y) as [[a|]|e];
    [|done|done].
  by destruct (result (AccessibilityNode_new a m)).
Qed.

Lemma get_actions_name_failure (node : AccessibilityNode) (s : unit)
    (iface : Atspi.ActionIface) (actions : list Atspi.Action)
    (action : Atspi.Action) (e : Exn) :
  Atspi.get_action_iface (accessible node) = Ret (Some iface) ->
  Atspi.get_actions iface = Ret actions ->
  action ∈ actions ->
  Atspi.action_get_name action = Raise e ->
  get_actions node s = (Ret [], s, []).
Proof.
  intros Hiface Hactions Hin Hraise.
  set (f := fun action : Atspi.Action =>
              (lift (Atspi.action_get_name action) : Py unit string)).
  assert (Hsilent : forall a, silent (f a)).
  { intros a. apply silent_lift. }
  assert (Hr : returns (result (map_m f actions s)) = false).
  { apply (map_m_raises f actions action s Hsilent Hin).
    unfold f, lift. by rewrite Hraise. }
  unfold get_actions, try_except.
  unfold bind at 1. unfold lift at 1. rewrite Hiface.
  unfold bind at 1. unfold lift at 1. cbn [deref].
  unfold bind at 1. unfold lift at 1. rewrite Hactions.
  fold f. rewrite (silent_run _ s (silent_map_m f actions Hsilent)).
  by destruct (result (map_m f actions s)).
Qed.

(** What [initialize()] leaves behind: a manager that is not
    initialized. *)
Lemma initialize_leaves_manager :
  exists m' e,
    initialize svc None
    = (Ret false, Some m', [Log ERROR atspi_init_msg (Some e)]) /\
    initialized m' = false.
Proof.
  destruct (AccessibilityManager_initialize_fails svc AccessibilityManager_new)
    as (m' & e & Hrun & Hini & _).
  exists m', e. split; [|done].
  unfold initialize, try_except. unfold bind at 1. unfold modify at 1.
  unfold on_manager, zoom. by rewrite Hrun.
Qed.

Lemma module_query_forwards {A} (absent : A) (c : Py AccessibilityManager A)
    (m : AccessibilityManager) :
  state (c m) = m ->
  with_accessibility_manager absent c (Some m)
  = (result (c m), Some m, trace (c m)).
Proof.
  intros Hs. unfold with_accessibility_manager, bind, get, on_manager, zoom.
  revert Hs. destruct (c m) as [[r s'] t]. cbn. by intros ->.
Qed.

End QueryFailureFacts.

(** C5, as the code has it.  The four queries never raise, also through
    the functions of the module and whatever manager exists.  Focus
    lookup and hit-testing return [None] and log the error on every
    failure below them: of the service call, of the desktop's answer at
    the point, and of any of the four queries that build the node.  Text
    extraction and action listing never log: on every failure they
    return the empty string and the empty list.  Called when no manager
    exists, the functions of the module return [None] and log that.  The
    flag [initialized] is not consulted: after an [initialize()] that
    returned [False] the manager exists, and the functions of the module
    hand every query on to it. *)
Theorem queries_never_raise (svc : Atspi.Service) :
  (forall m, returns (result (atspi_backend.get_focused_node svc m)) = true) /\
  (forall x y m,
      returns (result (atspi_backend.get_node_at_point svc x y m)) = true) /\
  (forall node (s : unit), returns (result (atspi_backend.get_text node s)) = true) /\
  (forall node (s : unit),
      returns (result (atspi_backend.get_actions node s)) = true) /\
  (forall g, returns (result (atspi_backend.module_get_focused_node svc g)) = true) /\
  (forall x y g,
      returns (result (atspi_backend.module_get_node_at_point svc x y g)) = true) /\
  (forall m e,
      Atspi.get_focused svc = Raise e ->
      atspi_backend.get_focused_node svc m
      = (Ret None, m, [Log ERROR focus_msg (Some e)])) /\
  (forall m a e,
      Atspi.get_focused svc = Ret (Some a) ->
      first_failure a = Some e ->
      atspi_backend.get_focused_node svc m
      = (Ret None, m, [Log ERROR focus_msg (Some e)])) /\
  (forall x y m e,
      Atspi.get_desktop svc 0 = Raise e ->
      atspi_backend.get_node_at_point svc x y m
      = (Ret None, m, [Log ERROR (point_msg x y) (Some e)])) /\
  (forall x y m desktop e,
      Atspi.get_desktop svc 0 = Ret desktop ->
      Atspi.get_accessible_at_point desktop x y = Raise e ->
      atspi_backend.get_node_at_point svc x y m
      = (Ret None, m, [Log ERROR (point_msg x y) (Some e)])) /\
  (forall x y m desktop a e,
      Atspi.get_desktop svc 0 = Ret desktop ->
      Atspi.get_accessible_at_point desktop x y = Ret (Some a) ->
      first_failure a = Some e ->
      atspi_backend.get_node_at_point svc x y m
      = (Ret None, m, [Log ERROR (point_msg x y) (Some e)])) /\
  (forall node (s : unit),
      exists text, atspi_backend.get_text node s = (Ret text, s, [])) /\
  (forall node (s : unit) e,
      Atspi.get_text (atspi_backend.accessible node) = Raise e ->
      atspi_backend.get_text node s = (Ret "", s, [])) /\
  (forall node (s : unit) iface e,
      Atspi.get_text (atspi_backend.accessible node) = Ret (Some iface) ->
      Atspi.text_get_text iface 0 (-1) = Raise e ->
      atspi_backend.get_text node s = (Ret "", s, [])) /\
  (forall node (s : unit),
      exists names, atspi_backend.get_actions node s = (Ret names, s, [])) /\
  (forall node (s : unit) e,
      Atspi.get_action_iface (atspi_backend.accessible node) = Raise e ->
      atspi_backend.get_actions node s = (Ret [], s, [])) /\
  (forall node (s : unit) iface e,
      Atspi.get_action_iface (atspi_backend.accessible node) = Ret (Some iface) ->
      Atspi.get_actions iface = Raise e ->
      atspi_backend.get_actions node s = (Ret [], s, [])) /\
  (forall node (s : unit) iface actions action e,
      Atspi.get_action_iface (atspi_backend.accessible node) = Ret (Some iface) ->
      Atspi.get_actions iface = Ret actions ->
      action ∈ actions ->
      Atspi.action_get_name action = Raise e ->
      atspi_backend.get_actions node s = (Ret [], s, [])) /\
  atspi_backend.module_get_focused_node svc None
  = (Ret None, None, [Log ERROR no_manager_msg None]) /\
  (forall x y,
      atspi_backend.module_get_node_at_point svc x y None
      = (Ret None, None, [Log ERROR no_manager_msg None])) /\
  (exists m',
      result (atspi_backend.initialize svc None) = Ret false /\
      state (atspi_backend.initialize svc None) = Some m' /\
      atspi_backend.initialized m' = false /\
      atspi_backend.module_get_focused_node svc (Some m')
      = (result (atspi_backend.get_focused_node svc m'), Some m',
         trace (atspi_backend.get_focused_node svc m')) /\
      (forall x y,
          atspi_backend.module_get_node_at_point svc x y (Some m')
          = (result (atspi_backend.get_node_at_point svc x y m'), Some m',
             trace (atspi_backend.get_node_at_point svc x y m')))).
Proof.
  split; [apply get_focused_node_returns|].
  split; [apply get_node_at_point_returns|].
  split; [intros; apply get_text_returns|].
  split; [intros; apply get_actions_returns|].
  split.
  { intros g. apply with_accessibility_manager_returns.
    apply get_focused_node_returns. }
  split.
  { intros x y g. apply with_accessibility_manager_returns.
    apply get_node_at_point_returns. }
  split.
  { intros m e He. unfold atspi_backend.get_focused_node, try_except.
    unfold bind at 1. unfold lift at 1. by rewrite He. }
  split.
  { intros m a e Ha Hf. unfold atspi_backend.get_focused_node, try_except.
    unfold bind at 1. unfold lift at 1. rewrite Ha.
    unfold bind at 1. by rewrite (AccessibilityNode_new_failure a e m Hf). }
  split.
  { intros x y m e He. unfold atspi_backend.get_node_at_point, try_except.
    unfold bind at 1. unfold lift at 1. by rewrite He. }
  split.
  { intros x y m desktop e Hd He.
    unfold atspi_backend.get_node_at_point, try_except.
    unfold bind at 1. unfold lift at 1. rewrite Hd.
    unfold bind at 1. unfold lift at 1. by rewrite He. }
  split.
  { intros x y m desktop a e Hd Ha Hf.
    unfold atspi_backend.get_node_at_point, try_except.
    unfold bind at 1. unfold lift at 1. rewrite Hd.
    unfold bind at 1. unfold lift at 1. rewrite Ha.
    unfold bind at 1. by rewrite (AccessibilityNode_new_failure a e m Hf). }
  split; [apply get_text_silent|].
  split.
  { intros node s e He. unfold atspi_backend.get_text.
    unfold bind at 1. unfold try_except. unfold bind at 1. unfold lift at 1.
    by rewrite He. }
  split.
  { intros node s iface e Hi He.
    unfold atspi_backend.get_text, bind, try_except, lift, ret, deref.
    rewrite Hi. cbn. by rewrite He. }
  split; [apply get_actions_silent|].
  split.
  { intros node s e He. unfold atspi_backend.get_actions, try_except.
    unfold bind at 1. unfold lift at 1. by rewrite He. }
  split.
  { intros node s iface e Hi He. unfold atspi_backend.get_actions, try_except.
    unfold bind at 1. unfold lift at 1. rewrite Hi.
    unfold bind at 1. unfold lift at 1. cbn [deref].
    unfold bind at 1. unfold lift at 1. by rewrite He. }
  split; [apply get_actions_name_failure|].
  split; [reflexivity|]. split; [intros x y; reflexivity|].
  destruct (initialize_leaves_manager svc) as (m' & e & Hrun & Hini).
  exists m'. rewrite Hrun. split; [done|]. split; [done|]. split; [done|].
  split.
  - apply module_query_forwards. apply get_focused_node_state.
  - intros x y. apply module_query_forwards. apply get_node_at_point_state.
Qed.

Lemma queries_never_raise_witness :
  atspi_backend.get_focused_node sample.stale
    atspi_backend.AccessibilityManager_new
  = (Ret None, atspi_backend.AccessibilityManager_new,
     [Log ERROR focus_msg (Some ServiceError)]) /\
  atspi_backend.get_node_at_point sample.stale 3 4
    atspi_backend.AccessibilityManager_new
  = (Ret None, atspi_backend.AccessibilityManager_new,
     [Log ERROR (point_msg 3 4) (Some ServiceError)]) /\
  atspi_backend.get_text sample.mute_node tt = (Ret "", tt, []).
Proof.
  destruct (queries_never_raise sample.stale)
    as (_ & _ & _ & _ & _ & _ & _ & Hfocus & _ & _ & Hpoint & _ & Htext & _).
  split; [|split].
  - apply (Hfocus _ sample.app2 ServiceError); reflexivity.
  - apply (Hpoint 3 4 _ sample.stale_desktop sample.app2 ServiceError);
      reflexivity.
  - apply (Htext sample.mute_node tt ServiceError). reflexivity.
Defined.

(** The record of a failed hit-test names the point. *)
Example point_msg_of_point :
  point_msg 3 (-4)
  = "Erreur lors de la récupération du nœud à la position (3, -4): ".
Proof. reflexivity. Qed.

(** C5 as the specification words it fails twice.  A node whose text and
    action queries fail gives the empty string and the empty list, but
    nothing is logged.  And after an [initialize] that returned [False],
    the manager exists and the focus lookup still asks the service and
    returns its node. *)
Lemma silent_text_and_uninitialized_focus :
  atspi_backend.get_text sample.mute_node tt = (Ret "", tt, []) /\
  atspi_backend.get_actions sample.mute_node tt = (Ret [], tt, []) /\
  result (atspi_backend.initialize sample.svc None) = Ret false /\
  (atspi_backend.initialized <$> state (atspi_backend.initialize sample.svc None))
  = Some false /\
  (atspi_backend.name <$>
     default None
       (match result (atspi_backend.module_get_focused_node sample.svc
                        (state (atspi_backend.initialize sample.svc None))) with
        | Ret r => Some r
        | Raise _ => None
        end))
  = Some "Firefox" /\
  trace (atspi_backend.module_get_focused_node sample.svc
           (state (atspi_backend.initialize sample.svc None))) = [].
Proof. repeat split; reflexivity. Qed.

(** *** The application listing *)

Section ListingFacts.
Import atspi_backend.
Context (svc : Atspi.Service).

Lemma silent_AccessibilityNode_new {S} (a : Atspi.Accessible) :
  silent (AccessibilityNode_new a : Py S AccessibilityNode).
Proof. intros s. apply AccessibilityNode_new_run. Qed.

Lemma silent_application_entry (desktop : Atspi.Accessible) (j : Z) :
  silent (application_entry desktop j).
Proof.
  unfold application_entry.
  apply silent_bind; [apply silent_lift|]. intros [a|]; [|apply silent_ret].
  apply silent_bind; [apply silent_lift|]. intros r.
  destruct (r =? Atspi.Role_APPLICATION); [|apply silent_ret].
  apply silent_bind; [apply silent_AccessibilityNode_new|]. intros node.
  apply silent_bind; [apply silent_lift|]. intros pid. apply silent_ret.
Qed.

Lemma silent_desktop_entries (i : Z) :
  silent (desktop <- lift (Atspi.get_desktop svc i) ;;
          n <- lift (Atspi.get_child_count desktop) ;;
          entries <- map_m (application_entry desktop) (range n) ;;
          ret (concat entries)).
Proof.
  apply silent_bind; [apply silent_lift|]. intros desktop.
  apply silent_bind; [apply silent_lift|]. intros n.
  apply silent_bind; [|intros; apply silent_ret].
  apply silent_map_m. intros j. apply silent_application_entry.
Qed.

(** An application of which some field cannot be resolved makes its
    entry raise. *)
Lemma application_entry_raises (desktop app : Atspi.Accessible) (j : Z)
    (m : AccessibilityManager) :
  Atspi.get_child_at_index desktop j = Ret (Some app) ->
  unresolved app ->
  returns (result (application_entry desktop j m)) = false.
Proof.
  intros Hchild Hun. unfold application_entry.
  unfold bind at 1. unfold lift at 1. rewrite Hchild.
  unfold bind at 1. unfold lift at 1.
  destruct Hun as [Hrole|[Hrole Hfield]].
  { by destruct (Atspi.get_role app). }
  rewrite Hrole, Z.eqb_refl. unfold bind at 1.
  unfold AccessibilityNode_new. unfold bind at 1. unfold lift at 1.
  destruct (Atspi.get_role_name app); [|done].
  unfold bind at 1. unfold lift at 1.
  destruct (Atspi.get_name app); [|done].
  unfold bind at 1. unfold lift at 1.
  destruct (Atspi.get_description app); [|done].
  unfold bind at 1. unfold lift at 1.
  destruct (Atspi.get_state_set app); [|done].
  unfold ret at 1. unfold bind at 1. unfold lift at 1.
  by destruct (Atspi.get_process_id app).
Qed.

(** A child that is missing, or whose role is not APPLICATION, is
    passed over. *)
Lemma application_entry_skips (desktop : Atspi.Accessible) (j : Z)
    (m : AccessibilityManager) :
  Atspi.get_child_at_index desktop j = Ret None \/
  (exists a r, Atspi.get_child_at_index desktop j = Ret (Some a) /\
               Atspi.get_role a = Ret r /\ r <> Atspi.Role_APPLICATION) ->
  application_entry desktop j m = (Ret [], m, []).
Proof.
  unfold application_entry.
  intros [Hnone|(a & r & Hchild & Hrole & Hne)].
  - unfold bind at 1. unfold lift at 1. by rewrite Hnone.
  - unfold bind at 1. unfold lift at 1. rewrite Hchild.
    unfold bind at 1. unfold lift at 1. rewrite Hrole.
    by destruct (Z.eqb_spec r Atspi.Role_APPLICATION).
Qed.

Lemma get_application_list_returns (m : AccessibilityManager) :
  returns (result (get_application_list svc m)) = true.
Proof. by apply try_except_returns. Qed.

End ListingFacts.

(** C6, as the code has it.  The listing runs inside one [try]: when
    some field of any application entry of any desktop cannot be
    resolved (its role, or, on an application, its role name, name,
    description, state set or process id), the whole listing is given
    up, the error is logged and the result is the empty list; the
    listing does not raise. *)
Theorem listing_aborts_on_unresolved_name
    (svc : Atspi.Service) (m : atspi_backend.AccessibilityManager)
    (count i n j : Z) (desktop app : Atspi.Accessible) :
  Atspi.get_desktop_count svc = Ret count ->
  0 <= i < count ->
  Atspi.get_desktop svc i = Ret desktop ->
  Atspi.get_child_count desktop = Ret n ->
  0 <= j < n ->
  Atspi.get_child_at_index desktop j = Ret (Some app) ->
  unresolved app ->
  exists e',
    atspi_backend.get_application_list svc m
    = (Ret [], m, [Log ERROR listing_msg (Some e')]).
Proof.
  intros Hcount Hi Hdesktop Hn Hj Hchild Hun.
  unfold atspi_backend.get_application_list, try_except.
  match goal with
  | |- context [match ?body m with _ => _ end] => set (run := body)
  end.
  assert (Hsilent : silent run).
  { unfold run. apply silent_bind; [apply silent_lift|]. intros c.
    apply silent_bind; [|intros; apply silent_ret].
    apply silent_map_m. intros k. apply silent_desktop_entries. }
  assert (Hraises : returns (result (run m)) = false).
  { unfold run. apply (bind_raises_next _ _ m count).
    { unfold lift. by rewrite Hcount. }
    apply bind_raises_first.
    apply (map_m_raises _ _ i).
    - intros k. apply silent_desktop_entries.
    - unfold range. apply elem_of_seqZ. lia.
    - apply (bind_raises_next _ _ m desktop).
      { unfold lift. by rewrite Hdesktop. }
      apply (bind_raises_next _ _ m n).
      { unfold lift. by rewrite Hn. }
      apply bind_raises_first.
      apply (map_m_raises _ _ j).
      + intros k. apply silent_application_entry.
      + unfold range. apply elem_of_seqZ. lia.
      + by apply (application_entry_raises desktop app j). }
  rewrite (silent_run run m Hsilent).
  destruct (result (run m)) as [apps|e']; [discriminate|].
  exists e'. reflexivity.
Qed.

Lemma listing_aborts_on_unresolved_name_witness :
  (exists e',
    atspi_backend.get_application_list sample.svc
      atspi_backend.AccessibilityManager_new
    = (Ret [], atspi_backend.AccessibilityManager_new,
       [Log ERROR listing_msg (Some e')])) /\
  (exists e',
    atspi_backend.get_application_list sample.no_pid_svc
      atspi_backend.AccessibilityManager_new
    = (Ret [], atspi_backend.AccessibilityManager_new,
       [Log ERROR listing_msg (Some e')])).
Proof.
  split.
  - apply (listing_aborts_on_unresolved_name sample.svc
             atspi_backend.AccessibilityManager_new 1 0 3 1
             sample.desktop sample.app2);
      first [reflexivity | lia | right; split; reflexivity].
  - apply (listing_aborts_on_unresolved_name sample.no_pid_svc
             atspi_backend.AccessibilityManager_new 1 0 2 0
             sample.no_pid_desktop sample.no_pid);
      first [reflexivity | lia | right; split; reflexivity].
Defined.

(** C6 as the specification words it fails: of the three applications of
    the sample desktop only the second fails to resolve its name, and the
    listing returns no summary at all, not two. *)
Lemma listing_of_three_with_one_unresolved :
  Atspi.get_name sample.app1 = Ret "Firefox" /\
  Atspi.get_name sample.app2 = Raise ServiceError /\
  Atspi.get_name sample.app3 = Ret "Kate" /\
  atspi_backend.get_application_list sample.svc
    atspi_backend.AccessibilityManager_new
  = (Ret [], atspi_backend.AccessibilityManager_new,
     [Log ERROR listing_msg (Some ServiceError)]).
Proof. repeat split; reflexivity. Qed.

(** The same holds when the field that fails is the process id: of the
    two applications of this desktop the first does not give its process
    id, and the summary of the second is not returned either. *)
Example listing_with_unresolved_process_id :
  Atspi.get_name sample.no_pid = Ret "Gimp" /\
  Atspi.get_process_id sample.no_pid = Raise OSError /\
  atspi_backend.get_application_list sample.no_pid_svc
    atspi_backend.AccessibilityManager_new
  = (Ret [], atspi_backend.AccessibilityManager_new,
     [Log ERROR listing_msg (Some OSError)]).
Proof. repeat split; reflexivity. Qed.

(** When every query answers, the listing has one summary for each
    application, in the order of the desktop. *)
Example listing_of_healthy_desktop :
  result (atspi_backend.get_application_list sample.healthy
            atspi_backend.AccessibilityManager_new)
  = Ret [ {| atspi_backend.app_name := "Firefox"; atspi_backend.app_pid := 101;
             atspi_backend.app_role := "application";
             atspi_backend.app_description := "" |};
          {| atspi_backend.app_name := "Kate"; atspi_backend.app_pid := 103;
             atspi_backend.app_role := "application";
             atspi_backend.app_description := "" |} ].
Proof. reflexivity. Qed.

(** *** The listener registry *)

Section DictFacts.
Context {V : Type}.

Lemma dict_get_setdefault (d : list (string * V)) (k : string) (v : V) :
  dict_get (dict_setdefault k v d) k = Some (default v (dict_get d k)).
Proof.
  unfold dict_setdefault. destruct (dict_get d k) as [w|] eqn:Hget; [done|].
  induction d as [|[k' w] d IH]; cbn in *.
  - by rewrite String.eqb_refl.
  - destruct (String.eqb k k'); [discriminate|]. by apply IH.
Qed.

Lemma dict_get_alter (f : V -> V) (d : list (string * V)) (k : string) :
  dict_get (dict_alter f k d) k = f <$> dict_get d k.
Proof.
  induction d as [|[k' w] d IH]; [done|]. cbn.
  destruct (String.eqb k k') eqn:Hk; cbn; rewrite Hk; [done | apply IH].
Qed.

Lemma dict_get_alter_ne (f : V -> V) (d : list (string * V)) (k k0 : string) :
  k <> k0 -> dict_get (dict_alter f k d) k0 = dict_get d k0.
Proof.
  intros Hne. induction d as [|[k' w] d IH]; [done|]. cbn.
  destruct (String.eqb k k') eqn:Hk; cbn; [|by rewrite IH].
  apply String.eqb_eq in Hk as <-.
  destruct (String.eqb k0 k) eqn:Hk0; [|done].
  apply String.eqb_eq in Hk0. congruence.
Qed.

Lemma dict_get_elem (d : list (string * V)) (k : string) (v : V) :
  dict_get d k = Some v -> (k, v) ∈ d.
Proof.
  induction d as [|[k' w] d IH]; [done|]. cbn.
  destruct (String.eqb k k') eqn:Hk.
  - apply String.eqb_eq in Hk as <-. intros [= ->]. apply list_elem_of_here.
  - intros Hget. apply list_elem_of_further. by apply IH.
Qed.
End DictFacts.

Section RegistryFacts.
Import atspi_backend.
Context (svc : Atspi.Service).

(** [l.remove(x)] takes out the first [x] and nothing else. *)
Lemma list_remove_first (x : Callable) (l : list Callable) :
  x ∈ l ->
  exists l1 l2,
    l = l1 ++ x :: l2 /\ (x ∉ l1) /\ list_remove x l = Ret (l1 ++ l2).
Proof.
  induction l as [|y l IH]; [by intros ?%elem_of_nil|].
  intros Hin. cbn [list_remove]. case_bool_decide as Hxy.
  - subst y. exists [], l.
    split; [done|]. split; [by intros ?%elem_of_nil | done].
  - apply elem_of_cons in Hin as [?|Hin]; [done|].
    destruct (IH Hin) as (l1 & l2 & -> & Hnot & ->).
    exists (y :: l1), l2. split; [done|]. split; [|done].
    intros [?|?]%elem_of_cons; [congruence | done].
Qed.

Lemma register_event_listener_run (event_type : string) (callback : Callable)
    (m : AccessibilityManager) :
  register_event_listener svc event_type callback m
  = (Ret (returns (Atspi.register_keystroke_listener svc callback)),
     set_event_listeners (registered event_type callback) m,
     RegisterKeystroke callback ::
     match Atspi.register_keystroke_listener svc callback with
     | Ret _ => []
     | Raise e => [Log ERROR register_msg (Some e)]
     end).
Proof.
  unfold register_event_listener, try_except, bind, modify, emit, lift, ret,
    logger, emit, registered.
  destruct m as [ini rt fo ls br]. cbn.
  by destruct (Atspi.register_keystroke_listener svc callback) as [[]|e].
Qed.

Lemma registered_get (event_type : string) (callback : Callable)
    (d : list (string * list Callable)) :
  dict_get (registered event_type callback d) event_type
  = Some (default [] (dict_get d event_type) ++ [callback]).
Proof.
  unfold registered. by rewrite dict_get_alter, dict_get_setdefault.
Qed.

Lemma unregister_event_listener_found (event_type : string)
    (callback : Callable) (m : AccessibilityManager)
    (l1 l2 : list Callable) :
  dict_get (event_listeners m) event_type = Some (l1 ++ callback :: l2) ->
  callback ∉ l1 ->
  unregister_event_listener svc event_type callback m
  = (Ret (returns (Atspi.deregister_keystroke_listener svc callback)),
     set_event_listeners (dict_alter (fun _ => l1 ++ l2) event_type) m,
     DeregisterKeystroke callback ::
     match Atspi.deregister_keystroke_listener svc callback with
     | Ret _ => []
     | Raise e => [Log ERROR unregister_msg (Some e)]
     end).
Proof.
  intros Hget Hnot.
  assert (Hin : callback ∈ l1 ++ callback :: l2).
  { apply elem_of_app. right. apply list_elem_of_here. }
  destruct (list_remove_first callback _ Hin) as (k1 & k2 & Hsplit & Hk1 & Hrm).
  assert (k1 = l1 /\ k2 = l2) as [-> ->].
  { clear -Hsplit Hnot Hk1. revert k1 Hsplit Hk1.
    induction l1 as [|a l1 IH]; intros [|b k1] Hsplit Hk1; cbn in *.
    - by injection Hsplit as ->.
    - injection Hsplit as <- _. destruct Hk1. apply list_elem_of_here.
    - injection Hsplit as -> _. destruct Hnot. apply list_elem_of_here.
    - injection Hsplit as -> Hsplit.
      destruct (IH (fun H => Hnot (list_elem_of_further _ _ _ H)) k1 Hsplit
                  (fun H => Hk1 (list_elem_of_further _ _ _ H))) as [-> ->].
      done. }
  unfold unregister_event_listener, try_except.
  unfold bind at 1. unfold get at 1. rewrite Hget.
  rewrite bool_decide_eq_true_2 by done.
  unfold bind at 1. unfold lift at 1. rewrite Hrm.
  unfold bind, modify, emit, lift, ret, logger, emit. cbn.
  by destruct (Atspi.deregister_keystroke_listener svc callback) as [[]|e].
Qed.



(** The deregistrations of [cleanup] when the service accepts them. *)
Lemma cleanup_loop_run (d : list (string * list Callable))
    (m : AccessibilityManager) :
  (forall c, Atspi.deregister_keystroke_listener svc c = Ret tt) ->
  for_each d (fun item =>
    for_each item.2 (fun listener =>
      emit (DeregisterKeystroke listener) ;;
      lift (Atspi.deregister_keystroke_listener svc listener))) m
  = (Ret tt, m, flat_map (fun item => map DeregisterKeystroke item.2) d).
Proof.
  intros Hok. induction d as [|[k l] d IH]; [done|].
  cbn [for_each flat_map snd]. unfold bind at 1.
  assert (Hinner :
    for_each l (fun listener =>
      emit (DeregisterKeystroke listener) ;;
      lift (Atspi.deregister_keystroke_listener svc listener)) m
    = (Ret tt, m, map DeregisterKeystroke l)).
  { clear IH. induction l as [|c l IHl]; [done|].
    cbn [for_each map]. unfold bind at 1. unfold bind at 1.
    unfold emit at 1. unfold lift at 1. rewrite Hok, IHl. done. }
  rewrite Hinner, IH. done.
Qed.

Lemma cleanup_deregisters (m : AccessibilityManager) (event_type : string)
    (l : list Callable) (callback : Callable) :
  (forall c, Atspi.deregister_keystroke_listener svc c = Ret tt) ->
  dict_get (event_listeners m) event_type = Some l ->
  callback ∈ l ->
  DeregisterKeystroke callback ∈ trace (AccessibilityManager_cleanup svc m).
Proof.
  intros Hok Hget Hin. unfold AccessibilityManager_cleanup, try_except.
  unfold bind at 1. unfold get at 1. unfold bind at 1.
  rewrite (cleanup_loop_run _ m Hok).
  assert (Hmem : DeregisterKeystroke callback
                 ∈ flat_map (fun item : string * list Callable =>
                               map DeregisterKeystroke item.2)
                     (event_listeners m)).
  { apply list_elem_of_In, in_flat_map. exists (event_type, l). split.
    - apply list_elem_of_In. by apply dict_get_elem.
    - cbn. apply in_map. by apply list_elem_of_In. }
  destruct ((modify (set_event_listeners (fun _ => [])) ;; _) m)
    as [[[[]|e] s1] t1]; cbn.
  - apply elem_of_app. by left.
  - apply elem_of_app. left. apply elem_of_app. by left.
Qed.

End RegistryFacts.

(** The accessibility manager stores callbacks and hands them to the
    service; none of its methods calls one. *)
Section CallbackFacts.
Import atspi_backend.
Context {S : Type}.

Lemma invoked_app (h : Callable) (t1 t2 : list Obs) :
  invoked h (t1 ++ t2) = (invoked h t1 + invoked h t2)%nat.
Proof. unfold invoked. by rewrite List.filter_app, List.length_app. Qed.

Lemma calls_nothing_ret {A} (a : A) : calls_nothing (ret a : Py S A).
Proof. by intros s h. Qed.

Lemma calls_nothing_lift {A} (o : Outcome A) : calls_nothing (lift o : Py S A).
Proof. by intros s h. Qed.

Lemma calls_nothing_get : calls_nothing (get : Py S S).
Proof. by intros s h. Qed.

Lemma calls_nothing_modify (f : S -> S) : calls_nothing (modify f).
Proof. by intros s h. Qed.

Lemma calls_nothing_logger (lvl : Level) (msg : string) (exc : option Exn) :
  calls_nothing (logger lvl msg exc : Py S unit).
Proof. by intros s h. Qed.

Lemma calls_nothing_emit (o : Obs) :
  (forall h, is_invoke h o = false) -> calls_nothing (emit o : Py S unit).
Proof.
  intros Ho s h. unfold emit, invoked, trace. cbn. by rewrite Ho.
Qed.

Lemma calls_nothing_bind {A B} (c : Py S A) (k : A -> Py S B) :
  calls_nothing c -> (forall a, calls_nothing (k a)) ->
  calls_nothing (bind c k).
Proof.
  intros Hc Hk s h. specialize (Hc s h). unfold bind.
  destruct (c s) as [[[a|e] s1] t1]; [|done].
  specialize (Hk a s1 h). destruct (k a s1) as [[r s2] t2].
  unfold trace in *. cbn [snd] in *. rewrite invoked_app. lia.
Qed.

Lemma calls_nothing_try_except {A} (body : Py S A) (handler : Exn -> Py S A) :
  calls_nothing body -> (forall e, calls_nothing (handler e)) ->
  calls_nothing (try_except body handler).
Proof.
  intros Hc Hk s h. specialize (Hc s h). unfold try_except.
  destruct (body s) as [[[a|e] s1] t1]; [done|].
  specialize (Hk e s1 h). destruct (handler e s1) as [[r s2] t2].
  unfold trace in *. cbn [snd] in *. rewrite invoked_app. lia.
Qed.

Lemma calls_nothing_for_each {A} (l : list A) (body : A -> Py S unit) :
  (forall x, calls_nothing (body x)) -> calls_nothing (for_each l body).
Proof.
  intros Hbody. induction l as [|x l IH]; [apply calls_nothing_ret|].
  cbn [for_each]. apply calls_nothing_bind; [apply Hbody | by intros _].
Qed.

End CallbackFacts.

Ltac calls_nothing :=
  repeat first
    [ apply calls_nothing_ret | apply calls_nothing_lift
    | apply calls_nothing_get | apply calls_nothing_modify
    | apply calls_nothing_logger
    | apply calls_nothing_emit; done
    | apply calls_nothing_try_except; [|intros ?]
    | apply calls_nothing_bind; [|intros ?]
    | apply calls_nothing_for_each; intros ?
    | match goal with
      | |- calls_nothing (match ?x with _ => _ end) => destruct x
      end ].

Section RegistryCallbackFacts.
Import atspi_backend.
Context (svc : Atspi.Service).




End RegistryCallbackFacts.




(** Registering listener 4 twice with two entries already there, then
    unregistering it three times: the third call finds nothing. *)
Example register_twice_unregister_thrice :
  let m2 := state (atspi_backend.register_event_listener sample.svc "focus" 4%nat
              (state (atspi_backend.register_event_listener sample.svc "focus"
                        4%nat sample.listening))) in
  let u1 := atspi_backend.unregister_event_listener sample.svc "focus" 4%nat m2 in
  let u2 := atspi_backend.unregister_event_listener sample.svc "focus" 4%nat
              (state u1) in
  let u3 := atspi_backend.unregister_event_listener sample.svc "focus" 4%nat
              (state u2) in
  dict_get (atspi_backend.event_listeners m2) "focus" = Some [4%nat; 4%nat] /\
  result u1 = Ret true /\
  dict_get (atspi_backend.event_listeners (state u1)) "focus" = Some [4%nat] /\
  result u2 = Ret true /\
  dict_get (atspi_backend.event_listeners (state u2)) "focus" = Some [] /\
  u3 = (Ret false, state u2, []).
Proof. repeat split; reflexivity. Qed.

(** C10.  When the service refuses the keystroke listener,
    [register_event_listener] returns [False] and logs the error, but the
    callback, appended before the service was called, stays in the list
    of its event type: [unregister_event_listener] finds it and
    deregisters it, and so does [cleanup] when the service accepts the
    deregistrations. *)
Theorem register_event_listener_not_atomic
    (svc : Atspi.Service) (m : atspi_backend.AccessibilityManager)
    (event_type : string) (callback : Callable) (e : Exn) :
  Atspi.register_keystroke_listener svc callback = Raise e ->
  atspi_backend.register_event_listener svc event_type callback m
  = (Ret false,
     atspi_backend.set_event_listeners (registered event_type callback) m,
     [RegisterKeystroke callback; Log ERROR register_msg (Some e)]) /\
  dict_get
    (atspi_backend.event_listeners
       (state (atspi_backend.register_event_listener svc event_type callback m)))
    event_type
  = Some (default [] (dict_get (atspi_backend.event_listeners m) event_type)
          ++ [callback]) /\
  DeregisterKeystroke callback
  ∈ trace (atspi_backend.unregister_event_listener svc event_type callback
             (state (atspi_backend.register_event_listener svc event_type
                       callback m))) /\
  ((forall c, Atspi.deregister_keystroke_listener svc c = Ret tt) ->
   DeregisterKeystroke callback
   ∈ trace (atspi_backend.AccessibilityManager_cleanup svc
              (state (atspi_backend.register_event_listener svc event_type
                        callback m)))).
Proof.
  intros Hraise. rewrite !register_event_listener_run, Hraise.
  cbn [state fst snd returns].
  set (m' := atspi_backend.set_event_listeners (registered event_type callback) m).
  assert (Hget : dict_get (atspi_backend.event_listeners m') event_type
                 = Some (default [] (dict_get (atspi_backend.event_listeners m)
                                       event_type) ++ [callback])).
  { unfold m'. cbn [atspi_backend.event_listeners
                    atspi_backend.set_event_listeners].
    apply registered_get. }
  assert (Hin : callback ∈ default [] (dict_get (atspi_backend.event_listeners m)
                                         event_type) ++ [callback]).
  { apply elem_of_app. right. apply list_elem_of_here. }
  split; [done|]. split; [done|]. split.
  - destruct (list_remove_first callback _ Hin) as (l1 & l2 & Hsplit & Hnot & _).
    rewrite Hsplit in Hget.
    rewrite (unregister_event_listener_found svc _ _ m' l1 l2 Hget Hnot).
    apply list_elem_of_here.
  - intros Hok. by apply (cleanup_deregisters svc m' event_type _ callback Hok Hget).
Qed.

Lemma register_event_listener_not_atomic_witness :
  atspi_backend.register_event_listener sample.refusing "focus" 6%nat
    atspi_backend.AccessibilityManager_new
  = (Ret false,
     atspi_backend.set_event_listeners (registered "focus" 6%nat)
       atspi_backend.AccessibilityManager_new,
     [RegisterKeystroke 6%nat; Log ERROR register_msg (Some TypeError)]).
Proof.
  apply (register_event_listener_not_atomic sample.refusing
           atspi_backend.AccessibilityManager_new "focus" 6%nat TypeError).
  reflexivity.
Defined.

(** ** Further properties of the input-capture engine *)

(** *** Registration and dispatch *)

Section RegistrationFacts.
Import input_listener.

Lemma append_handler_lookup (name : string) (h : Callable)
    (d : gmap string (list Callable)) :
  append_handler name h d !! name = Some (default [] (d !! name) ++ [h]).
Proof. unfold append_handler. apply lookup_insert_eq. Qed.

Lemma append_handler_lookup_ne (name other : string) (h : Callable)
    (d : gmap string (list Callable)) :
  name <> other -> append_handler name h d !! other = d !! other.
Proof. intros Hne. unfold append_handler. by apply lookup_insert_ne. Qed.

End RegistrationFacts.

(** X1.  Registering a key handler cannot fail and logs nothing: the
    handler goes to the end of the list kept under that key name, the
    lists of all other names are as before, and so are the modifier and
    gesture registries, the key state, the devices and the flags. *)
Theorem register_key_handler_appends
    (m : input_listener.InputManager) (key : string) (handler : Callable) :
  result (input_listener.register_key_handler key handler m) = Ret true /\
  trace (input_listener.register_key_handler key handler m) = [] /\
  input_listener.key_handlers
    (state (input_listener.register_key_handler key handler m)) !! key
  = Some (default [] (input_listener.key_handlers m !! key) ++ [handler]) /\
  (forall other, key <> other ->
     input_listener.key_handlers
       (state (input_listener.register_key_handler key handler m)) !! other
     = input_listener.key_handlers m !! other) /\
  input_listener.set_key_handlers (fun _ => input_listener.key_handlers m)
    (state (input_listener.register_key_handler key handler m)) = m.
Proof.
  split; [done|]. split; [done|]. split.
  { apply append_handler_lookup. }
  split.
  { intros other Hne. by apply append_handler_lookup_ne. }
  by destruct m.
Qed.

Lemma register_key_handler_appends_witness :
  input_listener.key_handlers
    (state (input_listener.register_key_handler "KEY_A" 3%nat sample.two_handlers))
    !! "KEY_A"
  = Some (default [] (input_listener.key_handlers sample.two_handlers !! "KEY_A")
          ++ [3%nat]) /\
  input_listener.key_handlers
    (state (input_listener.register_key_handler "KEY_A" 3%nat sample.two_handlers))
    !! "KEY_C"
  = input_listener.key_handlers sample.two_handlers !! "KEY_C".
Proof.
  destruct (register_key_handler_appends sample.two_handlers "KEY_A" 3%nat)
    as (_ & _ & Hown & Hother & _).
  split; [exact Hown|]. apply Hother. discriminate.
Defined.

(** X2.  The same for the modifier and the gesture registry: each
    registration appends to the list of its name in its own registry and
    touches nothing else. *)
Theorem register_modifier_and_gesture_handler_append
    (m : input_listener.InputManager) (name : string) (handler : Callable) :
  (result (input_listener.register_modifier_handler name handler m) = Ret true /\
   trace (input_listener.register_modifier_handler name handler m) = [] /\
   input_listener.modifier_handlers
     (state (input_listener.register_modifier_handler name handler m)) !! name
   = Some (default [] (input_listener.modifier_handlers m !! name) ++ [handler]) /\
   (forall other, name <> other ->
      input_listener.modifier_handlers
        (state (input_listener.register_modifier_handler name handler m)) !! other
      = input_listener.modifier_handlers m !! other) /\
   input_listener.set_modifier_handlers
     (fun _ => input_listener.modifier_handlers m)
     (state (input_listener.register_modifier_handler name handler m)) = m) /\
  (result (input_listener.register_gesture_handler name handler m) = Ret true /\
   trace (input_listener.register_gesture_handler name handler m) = [] /\
   input_listener.gesture_handlers
     (state (input_listener.register_gesture_handler name handler m)) !! name
   = Some (default [] (input_listener.gesture_handlers m !! name) ++ [handler]) /\
   (forall other, name <> other ->
      input_listener.gesture_handlers
        (state (input_listener.register_gesture_handler name handler m)) !! other
      = input_listener.gesture_handlers m !! other) /\
   input_listener.set_gesture_handlers
     (fun _ => input_listener.gesture_handlers m)
     (state (input_listener.register_gesture_handler name handler m)) = m).
Proof.
  split.
  - split; [done|]. split; [done|]. split; [apply append_handler_lookup|].
    split; [|by destruct m].
    intros other Hne. by apply append_handler_lookup_ne.
  - split; [done|]. split; [done|]. split; [apply append_handler_lookup|].
    split; [|by destruct m].
    intros other Hne. by apply append_handler_lookup_ne.
Qed.

Lemma register_modifier_and_gesture_handler_append_witness :
  input_listener.gesture_handlers
    (state (input_listener.register_gesture_handler "lock" 8%nat
              sample.gesture_manager))
    !! "KEY_LEFTCTRL+KEY_LEFTALT+KEY_L"
  = input_listener.gesture_handlers sample.gesture_manager
      !! "KEY_LEFTCTRL+KEY_LEFTALT+KEY_L".
Proof.
  destruct (register_modifier_and_gesture_handler_append sample.gesture_manager
              "lock" 8%nat) as (_ & _ & _ & _ & Hother & _).
  apply Hother. discriminate.
Defined.

(** X3.  Handlers are called in the order of their registration: after
    [h1] and then [h2] were registered for a key that already had the
    handlers [old], a key-down of that key calls the handlers of [old],
    then [h1], then [h2], each once, and logs nothing, provided none of
    them raises. *)
Theorem key_handlers_called_in_registration_order
    (lib : evdev.Lib) (call : Callable -> option bool -> Outcome unit)
    (m : input_listener.InputManager) (code : Z) (key : string)
    (old : list Callable) (h1 h2 : Callable) :
  evdev.KEY lib code = Some key ->
  default [] (input_listener.key_handlers m !! key) = old ->
  (forall h, h ∈ old ++ [h1; h2] -> call h None = Ret tt) ->
  trace (input_listener._trigger_key_handlers lib call code
           (state (input_listener.register_key_handler key h2
                     (state (input_listener.register_key_handler key h1 m)))))
  = KeyDown code :: map (fun h => Invoke h None) (old ++ [h1; h2]).
Proof.
  intros Hname Hold Hret. rewrite trigger_key_run. cbn [trace snd].
  unfold dispatch. rewrite Hname.
  destruct (register_key_handler_appends
              (state (input_listener.register_key_handler key h1 m)) key h2)
    as (_ & _ & -> & _).
  destruct (register_key_handler_appends m key h1) as (_ & _ & -> & _).
  cbn [default from_option id]. rewrite Hold, <- app_assoc. cbn [app].
  rewrite (invocations_all_return call None _ Hret). cbn [fst snd].
  by rewrite app_nil_r.
Qed.

Lemma key_handlers_called_in_registration_order_witness :
  trace (input_listener._trigger_key_handlers sample.lib sample.quiet ecodes.KEY_A
           (state (input_listener.register_key_handler "KEY_A" 4%nat
                     (state (input_listener.register_key_handler "KEY_A" 3%nat
                               sample.two_handlers)))))
  = KeyDown ecodes.KEY_A
    :: map (fun h => Invoke h None) ([1%nat; 2%nat] ++ [3%nat; 4%nat]).
Proof.
  apply (key_handlers_called_in_registration_order sample.lib sample.quiet
           sample.two_handlers ecodes.KEY_A "KEY_A" [1%nat; 2%nat] 3%nat 4%nat).
  - reflexivity.
  - reflexivity.
  - intros h _. reflexivity.
Defined.

(** X4.  A key code that [ecodes.KEY] does not name reaches no handler:
    the dispatch routines log the [KeyError] and return.  A named key
    without a list in the registry is dispatched silently. *)
Theorem dispatch_of_unnamed_or_unhandled_key
    (lib : evdev.Lib) (call : Callable -> option bool -> Outcome unit)
    (m : input_listener.InputManager) (code : Z) (pressed : bool) :
  (evdev.KEY lib code = None ->
   input_listener._trigger_key_handlers lib call code m
   = (Ret tt, m, [KeyDown code; Log ERROR key_msg (Some KeyError)]) /\
   input_listener._trigger_modifier_handlers lib call code pressed m
   = (Ret tt, m,
      [ModifierChanged code pressed; Log ERROR modifier_msg (Some KeyError)])) /\
  (forall key,
     evdev.KEY lib code = Some key ->
     (input_listener.key_handlers m !! key = None ->
      input_listener._trigger_key_handlers lib call code m
      = (Ret tt, m, [KeyDown code])) /\
     (input_listener.modifier_handlers m !! key = None ->
      input_listener._trigger_modifier_handlers lib call code pressed m
      = (Ret tt, m, [ModifierChanged code pressed]))).
Proof.
  split.
  - intros Hnone. rewrite trigger_key_run, trigger_modifier_run.
    unfold dispatch. by rewrite Hnone.
  - intros key Hname. split; intros Hreg.
    + rewrite trigger_key_run. unfold dispatch. by rewrite Hname, Hreg.
    + rewrite trigger_modifier_run. unfold dispatch. by rewrite Hname, Hreg.
Qed.

Lemma dispatch_of_unnamed_or_unhandled_key_witness :
  input_listener._trigger_key_handlers sample.lib sample.quiet 272
    sample.two_handlers
  = (Ret tt, sample.two_handlers,
     [KeyDown 272; Log ERROR key_msg (Some KeyError)]).
Proof.
  apply (proj1 (dispatch_of_unnamed_or_unhandled_key sample.lib sample.quiet
                  sample.two_handlers 272 true)).
  reflexivity.
Defined.

(** *** Events and the key state *)

(** X6.  Events that are not key events, and auto-repeat events (value
    2) of a known key, change nothing and leave no record.  A key event
    whose code the library does not know, or whose value is none of 0, 1
    and 2, changes nothing and is logged as an error. *)
Theorem ignored_events
    (lib : evdev.Lib) (call : Callable -> option bool -> Outcome unit)
    (now : Z) (event : evdev.InputEvent) (m : input_listener.InputManager) :
  (evdev.type event <> ecodes.EV_KEY ->
   input_listener._handle_key_event lib call now event m = (Ret tt, m, [])) /\
  (evdev.type event = ecodes.EV_KEY ->
   evdev.keys lib (evdev.code event) = true ->
   evdev.value event = 2 ->
   input_listener._handle_key_event lib call now event m = (Ret tt, m, [])) /\
  (evdev.type event = ecodes.EV_KEY ->
   evdev.keys lib (evdev.code event) = false ->
   input_listener._handle_key_event lib call now event m
   = (Ret tt, m, [Log ERROR event_msg (Some KeyError)])) /\
  (evdev.type event = ecodes.EV_KEY ->
   evdev.keys lib (evdev.code event) = true ->
   evdev.value event <> 0 -> evdev.value event <> 1 -> evdev.value event <> 2 ->
   input_listener._handle_key_event lib call now event m
   = (Ret tt, m, [Log ERROR event_msg (Some AttributeError)])).
Proof.
  rewrite handle_key_event_run. unfold after_event, records_of_event.
  split; [|split; [|split]].
  - intros Hty. apply Z.eqb_neq in Hty. rewrite Hty. cbn [negb].
    by rewrite set_key_state_id.
  - intros Hty Hk Hv. rewrite Hty, Hk, Hv. cbn. by rewrite set_key_state_id.
  - intros Hty Hk. rewrite Hty, Hk. cbn. by rewrite set_key_state_id.
  - intros Hty Hk H0 H1 H2. rewrite Hty, Hk.
    apply Z.eqb_neq in H0, H1, H2. rewrite H0, H1, H2. cbn.
    by rewrite set_key_state_id.
Qed.

Lemma ignored_events_witness :
  input_listener._handle_key_event sample.lib sample.first_raises 10
    {| evdev.type := ecodes.EV_KEY; evdev.code := ecodes.KEY_A; evdev.value := 2 |}
    sample.two_handlers
  = (Ret tt, sample.two_handlers, []).
Proof.
  destruct (ignored_events sample.lib sample.first_raises 10
              {| evdev.type := ecodes.EV_KEY; evdev.code := ecodes.KEY_A;
                 evdev.value := 2 |} sample.two_handlers)
    as (_ & Hhold & _).
  apply Hhold; reflexivity.
Defined.

Section KeyStateFacts.
Import input_listener.
Context (lib : evdev.Lib).

Lemma after_events_app (l1 l2 : list (Z * evdev.InputEvent)) (k : KeyState) :
  after_events lib (l1 ++ l2) k = after_events lib l2 (after_events lib l1 k).
Proof. revert k. induction l1 as [|ev l1 IH]; intros k; [done|]. apply IH. Qed.

Lemma after_event_down (now : Z) (event : evdev.InputEvent) (k : KeyState) :
  is_down_of (evdev.code event) event ->
  evdev.keys lib (evdev.code event) = true ->
  after_event lib now event k
  = set_last_key_time now
      (if is_modifier (evdev.code event)
       then set_modifiers (fun s => s ∪ {[ evdev.code event ]})
              (set_pressed_keys (fun s => s ∪ {[ evdev.code event ]}) k)
       else set_pressed_keys (fun s => s ∪ {[ evdev.code event ]}) k).
Proof.
  intros (Hty & _ & Hv) Hk. unfold after_event. by rewrite Hty, Hk, Hv.
Qed.

Lemma after_event_up (now : Z) (event : evdev.InputEvent) (k : KeyState) :
  is_up_of (evdev.code event) event ->
  evdev.keys lib (evdev.code event) = true ->
  after_event lib now event k
  = set_last_key_time 0
      (if is_modifier (evdev.code event)
       then set_modifiers (fun s => s ∖ {[ evdev.code event ]})
              (set_pressed_keys (fun s => s ∖ {[ evdev.code event ]}) k)
       else set_pressed_keys (fun s => s ∖ {[ evdev.code event ]}) k).
Proof.
  intros (Hty & _ & Hv) Hk. unfold after_event. by rewrite Hty, Hk, Hv.
Qed.

(** The pressed keys after one event. *)
Lemma pressed_after_event (now : Z) (event : evdev.InputEvent) (k : KeyState)
    (c : Z) :
  c ∈ pressed_keys (after_event lib now event k) <->
  (c ∈ pressed_keys k /\
   ~ (is_up_of c event /\ evdev.keys lib c = true)) \/
  (is_down_of c event /\ evdev.keys lib c = true).
Proof.
  unfold after_event, is_up_of, is_down_of.
  destruct (Z.eqb_spec (evdev.type event) ecodes.EV_KEY) as [Hty|Hty];
    cbn [negb]; [|by intuition].
  destruct (evdev.keys lib (evdev.code event)) eqn:Hk; cbn [negb].
  2:{ split; [|by intros [[? ?]|[(? & <- & ?) ?]]; [|congruence]].
      intros Hc. left. split; [done|]. intros [(_ & <- & _) ?]. congruence. }
  destruct (Z.eqb_spec (evdev.value event) 1) as [H1|H1].
  { assert (Hp : forall k', c ∈ pressed_keys k' ∪ {[evdev.code event]} <->
                            c ∈ pressed_keys k' \/ c = evdev.code event).
    { intros k'. rewrite elem_of_union, elem_of_singleton. done. }
    destruct (is_modifier _); cbn; rewrite Hp; split.
    - intros [Hc| ->]; [|by right].
      left. split; [done|]. intros [(_ & _ & ?) _]. lia.
    - intros [[? _]|[(_ & <- & _) _]]; [by left | by right].
    - intros [Hc| ->]; [|by right].
      left. split; [done|]. intros [(_ & _ & ?) _]. lia.
    - intros [[? _]|[(_ & <- & _) _]]; [by left | by right]. }
  destruct (Z.eqb_spec (evdev.value event) 0) as [H0|H0].
  { assert (Hp : c ∈ pressed_keys k ∖ {[evdev.code event]} <->
                 c ∈ pressed_keys k /\ c <> evdev.code event).
    { rewrite elem_of_difference, elem_of_singleton. done. }
    destruct (is_modifier _); cbn; rewrite Hp; split.
    - intros [Hc Hne]. left. split; [done|]. intros [(_ & ? & _) _]. congruence.
    - intros [[Hc Hn]|[(_ & _ & ?) _]]; [|lia].
      split; [done|]. intros ->. apply Hn. done.
    - intros [Hc Hne]. left. split; [done|]. intros [(_ & ? & _) _]. congruence.
    - intros [[Hc Hn]|[(_ & _ & ?) _]]; [|lia].
      split; [done|]. intros ->. apply Hn. done. }
  split.
  - intros Hc. left. split; [done|]. intros [(_ & _ & ?) _]. lia.
  - intros [[? _]|[(_ & _ & ?) _]]; [done | lia].
Qed.

Lemma modifiers_exact_after_event (now : Z) (event : evdev.InputEvent)
    (k : KeyState) :
  modifiers k = pressed_keys k ∩ _get_modifier_codes ->
  modifiers (after_event lib now event k)
  = pressed_keys (after_event lib now event k) ∩ _get_modifier_codes.
Proof.
  unfold after_event, is_modifier. intros Hk.
  destruct (negb _); [done|]. destruct (negb _); [done|].
  destruct (_ =? 1).
  { case_bool_decide as Hm; cbn; [rewrite Hk|]; apply set_eq; intros x;
      rewrite ?elem_of_union, ?elem_of_intersection, ?elem_of_union,
        ?elem_of_singleton.
    - intuition (subst; auto; try contradiction).
    - rewrite Hk, elem_of_intersection. intuition (subst; auto; try contradiction). }
  destruct (_ =? 0); [|done].
  case_bool_decide as Hm; cbn; [rewrite Hk|]; apply set_eq; intros x;
    rewrite ?elem_of_difference, ?elem_of_intersection, ?elem_of_difference,
      ?elem_of_singleton.
  - intuition (subst; auto; try contradiction).
  - rewrite Hk, elem_of_intersection. intuition (subst; auto; try contradiction).
Qed.

Lemma modifiers_exact_after_events (events : list (Z * evdev.InputEvent))
    (k : KeyState) :
  modifiers k = pressed_keys k ∩ _get_modifier_codes ->
  modifiers (after_events lib events k)
  = pressed_keys (after_events lib events k) ∩ _get_modifier_codes.
Proof.
  revert k. induction events as [|ev events IH]; intros k Hk; [done|].
  cbn [after_events]. apply IH. by apply modifiers_exact_after_event.
Qed.

End KeyStateFacts.

(** X7.  Pressing and then releasing a key that was not held brings the
    sets of pressed keys and of modifiers back to what they were; the
    time of the last key is 0 afterwards and the repeat settings are
    untouched. *)
Theorem press_then_release_restores
    (lib : evdev.Lib) (call : Callable -> option bool -> Outcome unit)
    (m : input_listener.InputManager) (t1 t2 c : Z) :
  evdev.keys lib c = true ->
  c ∉ input_listener.pressed_keys (input_listener.key_state m) ->
  c ∉ input_listener.modifiers (input_listener.key_state m) ->
  input_listener.key_state
    (state (input_listener.feed lib call
              [(t1, sample.down c); (t2, sample.up c)] m))
  = input_listener.set_last_key_time 0 (input_listener.key_state m).
Proof.
  intros Hk Hp Hm. rewrite feed_run. cbn [state fst snd].
  cbn [input_listener.key_state input_listener.set_key_state after_events
       fst snd].
  rewrite (after_event_down lib t1 (sample.down c)); [|done|done].
  rewrite (after_event_up lib t2 (sample.up c)); [|done|done].
  cbn [sample.down sample.up evdev.code].
  assert (Hset : forall s : gset Z, c ∉ s -> (s ∪ {[c]}) ∖ {[c]} = s).
  { intros s Hs. apply set_eq. intros x.
    rewrite elem_of_difference, elem_of_union, elem_of_singleton.
    intuition (subst; auto; try contradiction). }
  destruct (input_listener.key_state m) as [P M lt rd rr]. cbn in Hp, Hm.
  unfold input_listener.set_last_key_time, input_listener.set_modifiers,
    input_listener.set_pressed_keys.
  destruct (is_modifier c); cbn; by rewrite ?Hset.
Qed.

Lemma press_then_release_restores_witness :
  input_listener.key_state
    (state (input_listener.feed sample.lib sample.quiet
              [(10, sample.down ecodes.KEY_LEFTCTRL);
               (20, sample.up ecodes.KEY_LEFTCTRL)]
              input_listener.InputManager_new))
  = input_listener.set_last_key_time 0
      (input_listener.key_state input_listener.InputManager_new).
Proof.
  apply (press_then_release_restores sample.lib sample.quiet
           input_listener.InputManager_new 10 20 ecodes.KEY_LEFTCTRL).
  - reflexivity.
  - intros H. by apply not_elem_of_empty in H.
  - intros H. by apply not_elem_of_empty in H.
Defined.

(** X8.  In every state reached from a fresh key state, [modifiers] is
    exactly the set of pressed keys that are modifier codes. *)
Theorem modifiers_are_the_pressed_modifier_codes
    (lib : evdev.Lib) (call : Callable -> option bool -> Outcome unit)
    (m : input_listener.InputManager)
    (events : list (Z * evdev.InputEvent)) :
  input_listener.key_state m = input_listener.KeyState_new ->
  input_listener.modifiers
    (input_listener.key_state (state (input_listener.feed lib call events m)))
  = input_listener.pressed_keys
      (input_listener.key_state (state (input_listener.feed lib call events m)))
    ∩ input_listener._get_modifier_codes.
Proof.
  intros Hfresh. rewrite feed_run. cbn [state fst snd].
  cbn [input_listener.key_state input_listener.set_key_state].
  apply modifiers_exact_after_events. rewrite Hfresh. cbn.
  apply set_eq. intros x. rewrite elem_of_intersection.
  split; [by intros ?%not_elem_of_empty | by intros [?%not_elem_of_empty _]].
Qed.

Lemma modifiers_are_the_pressed_modifier_codes_witness :
  input_listener.modifiers
    (input_listener.key_state
       (state (input_listener.feed sample.lib sample.quiet sample.scenario_C
                 sample.gesture_manager)))
  = input_listener.pressed_keys
      (input_listener.key_state
         (state (input_listener.feed sample.lib sample.quiet sample.scenario_C
                   sample.gesture_manager)))
    ∩ input_listener._get_modifier_codes.
Proof.
  apply (modifiers_are_the_pressed_modifier_codes sample.lib sample.quiet
           sample.gesture_manager sample.scenario_C).
  reflexivity.
Defined.

Section HeldFacts.
Import input_listener.
Context (lib : evdev.Lib).

Lemma held_through (post : list (Z * evdev.InputEvent)) (k : KeyState) (c : Z) :
  c ∈ pressed_keys k ->
  (forall ev, ev ∈ post -> ~ is_up_of c ev.2) ->
  c ∈ pressed_keys (after_events lib post k).
Proof.
  revert k. induction post as [|ev post IH]; intros k Hc Hno; [done|].
  cbn [after_events]. apply IH.
  - apply pressed_after_event. left. split; [done|].
    intros [Hup _]. apply (Hno ev); [apply list_elem_of_here | done].
  - intros ev' Hin. apply Hno. by apply list_elem_of_further.
Qed.

Lemma free_through (post : list (Z * evdev.InputEvent)) (k : KeyState) (c : Z) :
  c ∉ pressed_keys k ->
  (forall ev, ev ∈ post -> ~ is_down_of c ev.2) ->
  c ∉ pressed_keys (after_events lib post k).
Proof.
  revert k. induction post as [|ev post IH]; intros k Hc Hno; [done|].
  cbn [after_events]. apply IH.
  - intros [[Hin _]|[Hdown _]]%pressed_after_event; [done|].
    apply (Hno ev); [apply list_elem_of_here | done].
  - intros ev' Hin. apply Hno. by apply list_elem_of_further.
Qed.

End HeldFacts.

(** X9.  A key is held after its last press: when a key-down of a known
    code [c] is followed by no key-up of [c], then [c] is in
    [pressed_keys] at the end, whatever came before and whatever other
    keys did in between. *)
Theorem key_held_after_last_press
    (lib : evdev.Lib) (call : Callable -> option bool -> Outcome unit)
    (m : input_listener.InputManager)
    (pre post : list (Z * evdev.InputEvent)) (t c : Z)
    (event : evdev.InputEvent) :
  is_down_of c event ->
  evdev.keys lib c = true ->
  (forall ev, ev ∈ post -> ~ is_up_of c ev.2) ->
  c ∈ input_listener.pressed_keys
        (input_listener.key_state
           (state (input_listener.feed lib call (pre ++ (t, event) :: post) m))).
Proof.
  intros Hdown Hk Hno. rewrite feed_run. cbn [state fst snd].
  cbn [input_listener.key_state input_listener.set_key_state].
  rewrite after_events_app. cbn [after_events fst snd].
  apply held_through; [|done].
  apply pressed_after_event. by right.
Qed.

Lemma key_held_after_last_press_witness :
  ecodes.KEY_LEFTCTRL
  ∈ input_listener.pressed_keys
      (input_listener.key_state
         (state (input_listener.feed sample.lib sample.quiet
                   ([] ++ (10, sample.down ecodes.KEY_LEFTCTRL)
                          :: [(20, sample.down ecodes.KEY_C);
                              (30, sample.up ecodes.KEY_C)])
                   input_listener.InputManager_new))).
Proof.
  apply (key_held_after_last_press sample.lib sample.quiet
           input_listener.InputManager_new [] _ 10 ecodes.KEY_LEFTCTRL).
  - repeat split.
  - reflexivity.
  - intros ev [->|[->|Hin%elem_of_nil]%elem_of_cons]%elem_of_cons;
      [| |done]; intros (_ & Hcode & _); discriminate Hcode.
Defined.

(** X10.  A key is free after its last release: when a key-up of a known
    code [c] is followed by no key-down of [c], then [c] is not in
    [pressed_keys] at the end, and so not in [modifiers] either when the
    run started from a fresh key state. *)
Theorem key_free_after_last_release
    (lib : evdev.Lib) (call : Callable -> option bool -> Outcome unit)
    (m : input_listener.InputManager)
    (pre post : list (Z * evdev.InputEvent)) (t c : Z)
    (event : evdev.InputEvent) :
  is_up_of c event ->
  evdev.keys lib c = true ->
  (forall ev, ev ∈ post -> ~ is_down_of c ev.2) ->
  (c ∉ input_listener.pressed_keys
         (input_listener.key_state
            (state (input_listener.feed lib call (pre ++ (t, event) :: post) m)))) /\
  (input_listener.key_state m = input_listener.KeyState_new ->
   c ∉ input_listener.modifiers
         (input_listener.key_state
            (state (input_listener.feed lib call (pre ++ (t, event) :: post) m)))).
Proof.
  intros Hup Hk Hno.
  assert (Hfree : c ∉ input_listener.pressed_keys
            (input_listener.key_state
               (state (input_listener.feed lib call
                         (pre ++ (t, event) :: post) m)))).
  { rewrite feed_run. cbn [state fst snd].
    cbn [input_listener.key_state input_listener.set_key_state].
    rewrite after_events_app. cbn [after_events fst snd].
    apply free_through; [|done].
    intros [[_ Hn]|[(_ & _ & Hv) _]]%pressed_after_event.
    - by apply Hn.
    - destruct Hup as (_ & _ & Hv'). lia. }
  split; [done|]. intros Hfresh.
  rewrite (modifiers_are_the_pressed_modifier_codes lib call m _ Hfresh).
  intros [Hin _]%elem_of_intersection. by apply Hfree.
Qed.

Lemma key_free_after_last_release_witness :
  ecodes.KEY_C
  ∉ input_listener.pressed_keys
      (input_listener.key_state
         (state (input_listener.feed sample.lib sample.quiet
                   ([(10, sample.down ecodes.KEY_LEFTCTRL);
                     (20, sample.down ecodes.KEY_C)]
                    ++ (30, sample.up ecodes.KEY_C)
                       :: [(40, sample.up ecodes.KEY_LEFTCTRL)])
                   input_listener.InputManager_new))).
Proof.
  apply (key_free_after_last_release sample.lib sample.quiet
           input_listener.InputManager_new
           [(10, sample.down ecodes.KEY_LEFTCTRL); (20, sample.down ecodes.KEY_C)]
           [(40, sample.up ecodes.KEY_LEFTCTRL)] 30 ecodes.KEY_C).
  - repeat split.
  - reflexivity.
  - intros ev [->|Hin%elem_of_nil]%elem_of_cons; [|done].
    intros (_ & Hcode & _). discriminate Hcode.
Defined.

(** X11.  The time of the last key follows the last key event: after a
    key-down of a known code it is the clock reading taken for that
    event, after a key-up of a known code it is 0. *)
Theorem last_key_time_follows_last_event
    (lib : evdev.Lib) (call : Callable -> option bool -> Outcome unit)
    (m : input_listener.InputManager)
    (events : list (Z * evdev.InputEvent)) (t : Z) (event : evdev.InputEvent) :
  evdev.keys lib (evdev.code event) = true ->
  (is_down_of (evdev.code event) event ->
   input_listener.last_key_time
     (input_listener.key_state
        (state (input_listener.feed lib call (events ++ [(t, event)]) m))) = t) /\
  (is_up_of (evdev.code event) event ->
   input_listener.last_key_time
     (input_listener.key_state
        (state (input_listener.feed lib call (events ++ [(t, event)]) m))) = 0).
Proof.
  intros Hk. rewrite feed_run. cbn [state fst snd].
  cbn [input_listener.key_state input_listener.set_key_state].
  rewrite after_events_app. cbn [after_events fst snd].
  split; intros Hev.
  - by rewrite (after_event_down lib t event _ Hev Hk).
  - by rewrite (after_event_up lib t event _ Hev Hk).
Qed.

Lemma last_key_time_follows_last_event_witness :
  input_listener.last_key_time
    (input_listener.key_state
       (state (input_listener.feed sample.lib sample.quiet
                 ([(10, sample.down ecodes.KEY_LEFTCTRL)]
                  ++ [(20, sample.down ecodes.KEY_C)])
                 input_listener.InputManager_new))) = 20.
Proof.
  apply (proj1 (last_key_time_follows_last_event sample.lib sample.quiet
                  input_listener.InputManager_new
                  [(10, sample.down ecodes.KEY_LEFTCTRL)] 20
                  (sample.down ecodes.KEY_C) eq_refl)).
  repeat split.
Defined.

(** *** Devices, start and cleanup *)

(** X12.  [_is_keyboard_device] never raises and changes nothing.  It
    answers [True] exactly when the device reports its capabilities,
    these have an entry for [EV_KEY], and that entry contains one of the
    codes KEY_A, KEY_SPACE and KEY_ENTER; a device whose [capabilities()]
    raises is not a keyboard. *)
Theorem is_keyboard_device_iff
    (device : evdev.InputDevice) (m : input_listener.InputManager) :
  (exists b, input_listener._is_keyboard_device device m = (Ret b, m, [])) /\
  (result (input_listener._is_keyboard_device device m) = Ret true <->
   exists capabilities codes,
     evdev.capabilities device = Ret capabilities /\
     capabilities !! ecodes.EV_KEY = Some codes /\
     (ecodes.KEY_A ∈ codes \/ ecodes.KEY_SPACE ∈ codes \/
      ecodes.KEY_ENTER ∈ codes)).
Proof.
  rewrite is_keyboard_device_run. split; [by eexists|].
  cbn [result fst]. unfold classifies.
  destruct (evdev.capabilities device) as [caps|e].
  2:{ split; [discriminate|]. by intros (? & ? & ? & _). }
  destruct (caps !! ecodes.EV_KEY) as [codes|] eqn:Hcaps.
  2:{ split; [discriminate|]. intros (c' & ? & [= <-] & ? & _). congruence. }
  cbn [existsb]. split.
  - intros [= Hb]. exists caps, codes. split; [done|]. split; [done|].
    rewrite orb_false_r in Hb.
    apply orb_true_iff in Hb as [Hb|Hb];
      [|apply orb_true_iff in Hb as [Hb|Hb]];
      apply bool_decide_eq_true in Hb; auto.
  - intros (caps' & codes' & [= <-] & Hc & Hin).
    rewrite Hcaps in Hc. injection Hc as <-. f_equal.
    rewrite orb_false_r.
    destruct Hin as [Hin|[Hin|Hin]];
      rewrite (bool_decide_eq_true_2 _ Hin); by rewrite ?orb_true_r.
Qed.

(** X13.  The scan for keyboards opens every listed path in order and
    appends to [devices] exactly the devices that open and classify as
    keyboards; a path that cannot be opened, or a device that is not a
    keyboard, does not stop it, and nothing else in the manager changes.
    When listing the paths itself raises, the exception leaves the scan
    with the manager untouched. *)
Theorem scan_keeps_the_keyboards
    (lib : evdev.Lib) (m : input_listener.InputManager) :
  (forall paths,
     evdev.list_devices lib = Ret paths ->
     result (input_listener.find_keyboards lib m) = Ret tt /\
     state (input_listener.find_keyboards lib m)
     = input_listener.set_devices
         (fun ds => ds ++ keyboards_among lib paths) m) /\
  (forall e,
     evdev.list_devices lib = Raise e ->
     input_listener.find_keyboards lib m = (Raise e, m, [])).
Proof.
  split.
  - intros paths Hlist.
    destruct (find_keyboards_devices lib paths m Hlist) as [t ->]. done.
  - intros e Hlist. unfold input_listener.find_keyboards, bind, lift.
    by rewrite Hlist.
Qed.

Lemma scan_keeps_the_keyboards_witness :
  state (input_listener.find_keyboards sample.lib input_listener.InputManager_new)
  = input_listener.set_devices (fun ds => ds ++ [sample.keyboard])
      input_listener.InputManager_new.
Proof.
  apply (proj1 (scan_keeps_the_keyboards sample.lib
                  input_listener.InputManager_new)
           ["/dev/input/event0"; "/dev/input/event1"]).
  reflexivity.
Defined.

Section CleanupFacts.
Import input_listener.

Lemma close_loop_run (ds : list evdev.InputDevice) (m : InputManager) :
  for_each ds (fun device =>
    try_except (lift (evdev.close device)) (fun _ => ret tt)) m
  = (Ret tt, m, []).
Proof.
  induction ds as [|d ds IH]; [done|].
  cbn [for_each]. unfold bind at 1. unfold try_except at 1, lift at 1.
  destruct (evdev.close d) as [[]|e]; cbn; by rewrite IH.
Qed.

Lemma InputManager_cleanup_run (join : Outcome unit) (m : InputManager) :
  InputManager_cleanup join m
  = match stop_outcome join m with
    | Ret _ =>
        (Ret tt,
         {| initialized := false; devices := []; key_state := key_state m;
            running := false; thread := None; key_handlers := ∅;
            modifier_handlers := ∅; gesture_handlers := ∅ |}, [])
    | Raise e =>
        (Ret tt, set_running false m,
         [Log ERROR input_cleanup_msg (Some e)])
    end.
Proof.
  unfold InputManager_cleanup, try_except, stop, stop_outcome.
  unfold bind at 1. unfold bind at 1. unfold modify at 1.
  unfold bind at 1. unfold get at 1.
  destruct m as [ini devs ks run [t|] kh mh gh];
    cbn [thread set_running].
  - unfold bind at 1. unfold lift at 1.
    destruct (Thread_join join t) as [[]|e]; [|done].
    unfold modify at 1. cbn [app].
    unfold bind at 1. unfold get at 1.
    unfold bind at 1. rewrite close_loop_run. done.
  - unfold ret at 1. cbn [app].
    unfold bind at 1. unfold get at 1.
    unfold bind at 1. rewrite close_loop_run. done.
Qed.

End CleanupFacts.

(** X14.  [InputManager.cleanup] never raises, also when closing a device
    raises.  It completes when there is no worker thread, and when the
    worker was started and joining it returns: afterwards there are no
    devices, no thread and no handlers of any kind, and the manager is
    neither initialized nor running; the key state is not reset.  When
    joining raises, as it does on a worker that was never started,
    [cleanup] logs the error and only [running] has changed: devices,
    handlers, the thread and [initialized] are as before. *)
Theorem input_cleanup_completes
    (join : Outcome unit) (m : input_listener.InputManager) :
  returns (result (input_listener.InputManager_cleanup join m)) = true /\
  ((input_listener.thread m = None \/
    (input_listener.thread m = Some {| input_listener.started := true |} /\
     join = Ret tt)) ->
   input_listener.InputManager_cleanup join m
   = (Ret tt,
      {| input_listener.initialized := false;
         input_listener.devices := [];
         input_listener.key_state := input_listener.key_state m;
         input_listener.running := false;
         input_listener.thread := None;
         input_listener.key_handlers := ∅;
         input_listener.modifier_handlers := ∅;
         input_listener.gesture_handlers := ∅ |}, [])) /\
  (input_listener.thread m = Some {| input_listener.started := false |} ->
   input_listener.InputManager_cleanup join m
   = (Ret tt, input_listener.set_running false m,
      [Log ERROR input_cleanup_msg (Some RuntimeError)])) /\
  (forall e,
      input_listener.thread m = Some {| input_listener.started := true |} ->
      join = Raise e ->
      input_listener.InputManager_cleanup join m
      = (Ret tt, input_listener.set_running false m,
         [Log ERROR input_cleanup_msg (Some e)])).
Proof.
  rewrite InputManager_cleanup_run. unfold stop_outcome.
  split; [by destruct (input_listener.thread m) as [[[]]|]; destruct join as [[]|]|].
  split.
  { intros [->|[-> ->]]; reflexivity. }
  split.
  { intros ->. reflexivity. }
  intros e -> ->. reflexivity.
Qed.

Lemma input_cleanup_completes_witness :
  input_listener.InputManager_cleanup (Ret tt) sample.two_handlers
  = (Ret tt,
     {| input_listener.initialized := false;
        input_listener.devices := [];
        input_listener.key_state :=
          input_listener.key_state sample.two_handlers;
        input_listener.running := false;
        input_listener.thread := None;
        input_listener.key_handlers := ∅;
        input_listener.modifier_handlers := ∅;
        input_listener.gesture_handlers := ∅ |}, []) /\
  input_listener.InputManager_cleanup (Ret tt) sample.never_started
  = (Ret tt, input_listener.set_running false sample.never_started,
     [Log ERROR input_cleanup_msg (Some RuntimeError)]).
Proof.
  destruct (input_cleanup_completes (Ret tt) sample.two_handlers)
    as (_ & Hdone & _).
  destruct (input_cleanup_completes (Ret tt) sample.never_started)
    as (_ & _ & Hgiven_up & _).
  split.
  - apply Hdone. left. reflexivity.
  - apply Hgiven_up. reflexivity.
Defined.

(** A worker that could not be started: [start()] returns [False] and
    keeps the thread object, and the [cleanup] that follows gives up at
    [join()], so that the handler registered before is still called. *)
Example cleanup_after_failed_start :
  let s := input_listener.start (Raise OSError) sample.ready in
  let c := input_listener.InputManager_cleanup (Ret tt) (state s) in
  result s = Ret false /\
  input_listener.thread (state s)
  = Some {| input_listener.started := false |} /\
  c = (Ret tt, state s, [Log ERROR input_cleanup_msg (Some RuntimeError)]) /\
  input_listener.initialized (state c) = true /\
  invoked 1%nat
    (trace (input_listener.feed sample.lib sample.quiet
              [(5, sample.down 30)] (state c))) = 1%nat.
Proof. repeat split; reflexivity. Qed.

(** X15.  After a [cleanup] that completes (no worker thread, or a
    started worker whose join returns) no key event reaches a handler:
    whatever was registered before and whatever keys are pressed, no
    callable is invoked. *)
Theorem no_handler_called_after_cleanup
    (lib : evdev.Lib) (call : Callable -> option bool -> Outcome unit)
    (join : Outcome unit) (m : input_listener.InputManager)
    (events : list (Z * evdev.InputEvent)) (h : Callable) :
  input_listener.thread m = None \/
  (input_listener.thread m = Some {| input_listener.started := true |} /\
   join = Ret tt) ->
  invoked h
    (trace (input_listener.feed lib call events
              (state (input_listener.InputManager_cleanup join m)))) = 0%nat.
Proof.
  intros Hjoin.
  apply invoked_zero. intros arg Hin.
  apply feed_invoke in Hin. rewrite InputManager_cleanup_run in Hin.
  assert (Hstop : stop_outcome join m = Ret tt).
  { unfold stop_outcome. by destruct Hjoin as [->|[-> ->]]. }
  rewrite Hstop in Hin.
  destruct Hin as [(k & hs & Hk & _)|(k & hs & Hk & _)];
    cbn in Hk; by rewrite lookup_empty in Hk.
Qed.

Lemma no_handler_called_after_cleanup_witness :
  invoked 1%nat
    (trace (input_listener.feed sample.lib sample.quiet [(5, sample.down 30)]
              (state (input_listener.InputManager_cleanup (Ret tt)
                        sample.two_handlers)))) = 0%nat.
Proof.
  apply (no_handler_called_after_cleanup sample.lib sample.quiet (Ret tt)
           sample.two_handlers [(5, sample.down 30)] 1%nat).
  left. reflexivity.
Defined.

(** X16.  Without a manager the functions of the module refuse: the
    three registrations and [listen_keys] return [False], log that the
    manager is not initialized and leave the global empty.  [cleanup]
    always ends without a manager, and never raises. *)
Theorem input_module_refuses_without_manager
    (spawn join : Outcome unit) (g : option input_listener.InputManager)
    (name : string) (handler : Callable) :
  input_listener.module_register_key_handler name handler None
  = (Ret false, None,
     [Log ERROR "Le gestionnaire d'entrées n'est pas initialisé" None]) /\
  input_listener.module_register_modifier_handler name handler None
  = (Ret false, None,
     [Log ERROR "Le gestionnaire d'entrées n'est pas initialisé" None]) /\
  input_listener.module_register_gesture_handler name handler None
  = (Ret false, None,
     [Log ERROR "Le gestionnaire d'entrées n'est pas initialisé" None]) /\
  input_listener.listen_keys spawn None
  = (Ret false, None,
     [Log ERROR "Le gestionnaire d'entrées n'est pas initialisé" None]) /\
  result (input_listener.cleanup join g) = Ret tt /\
  state (input_listener.cleanup join g) = None /\
  input_listener.cleanup join None = (Ret tt, None, []).
Proof.
  repeat (split; [reflexivity|]).
  assert (Hrun : exists t, input_listener.cleanup join g = (Ret tt, None, t)).
  { unfold input_listener.cleanup. unfold bind at 1. unfold get at 1.
    destruct g as [m|]; [|by eexists].
    unfold bind, input_listener.on_manager, zoom.
    rewrite InputManager_cleanup_run.
    destruct (stop_outcome join m); by eexists. }
  destruct Hrun as [t ->]. done.
Qed.

(** X17.  On every machine, [initialize()] leaves a manager that is not
    initialized, so that a following [listen_keys()] returns [False]
    without starting the worker, whether or not a thread could be
    spawned; handlers can be registered on that manager all the same. *)
Theorem listen_keys_refuses_after_initialize
    (lib : evdev.Lib) (spawn : Outcome unit) (name : string) (handler : Callable) :
  input_listener.initialize lib None
  = (Ret false, Some input_listener.InputManager_new,
     [Log ERROR init_msg (Some TypeError)]) /\
  input_listener.listen_keys spawn (state (input_listener.initialize lib None))
  = (Ret false, Some input_listener.InputManager_new,
     [Log ERROR "Le gestionnaire d'entrées n'est pas initialisé" None]) /\
  input_listener.module_register_key_handler name handler
    (state (input_listener.initialize lib None))
  = (Ret true,
     Some (input_listener.set_key_handlers
             (input_listener.append_handler name handler)
             input_listener.InputManager_new), []).
Proof. repeat split; reflexivity. Qed.

(** ** Further properties of the accessibility-tree client *)

(** *** Nodes *)

Section NodeFacts.
Import atspi_backend.

Lemma AccessibilityNode_new_result {S} (a : Atspi.Accessible) (s : S)
    (node : AccessibilityNode) :
  result (AccessibilityNode_new a s) = Ret node <-> snapshot_of a node.
Proof.
  unfold AccessibilityNode_new, snapshot_of, bind, lift, ret.
  destruct (Atspi.get_role_name a) as [r|e]; cbn.
  2:{ split; [discriminate|]. by intros (_ & ? & _). }
  destruct (Atspi.get_name a) as [n|e]; cbn.
  2:{ split; [discriminate|]. by intros (_ & _ & ? & _). }
  destruct (Atspi.get_description a) as [d|e]; cbn.
  2:{ split; [discriminate|]. by intros (_ & _ & _ & ? & _). }
  destruct (Atspi.get_state_set a) as [st|e]; cbn.
  2:{ split; [discriminate|]. by intros (_ & _ & _ & _ & ? & _). }
  split.
  - intros [= <-]. done.
  - destruct node as [a' r' n' d' st' ch pa]. cbn.
    intros (-> & [= ->] & [= ->] & [= ->] & [= ->] & -> & ->). done.
Qed.

End NodeFacts.

(** X18.  The node that [get_focused_node] returns is a snapshot of the
    accessible that the service reports as focused: it carries that
    accessible and the role name, name, description and states it
    answered, with no children and no parent.  Such a node is returned,
    without a log record, exactly when the service reports a focused
    accessible that answers these four queries; when it reports none,
    the result is [None], also without a record. *)
Theorem focused_node_is_a_snapshot
    (svc : Atspi.Service) (m : atspi_backend.AccessibilityManager)
    (node : atspi_backend.AccessibilityNode) :
  (atspi_backend.get_focused_node svc m = (Ret (Some node), m, []) <->
   exists a, Atspi.get_focused svc = Ret (Some a) /\ snapshot_of a node) /\
  (result (atspi_backend.get_focused_node svc m) = Ret (Some node) ->
   atspi_backend.get_focused_node svc m = (Ret (Some node), m, [])) /\
  (Atspi.get_focused svc = Ret None ->
   atspi_backend.get_focused_node svc m = (Ret None, m, [])).
Proof.
  rewrite get_focused_node_run.
  destruct (Atspi.get_focused svc) as [[a|]|e].
  - pose proof (AccessibilityNode_new_result a m node) as Hres.
    destruct (result (atspi_backend.AccessibilityNode_new a m)) as [n|e].
    + split; [|split; [|discriminate]].
      * split.
        -- intros [= ->]. exists a. split; [done|]. by apply Hres.
        -- intros (a' & [= <-] & Hs). apply Hres in Hs. by injection Hs as ->.
      * by intros [= ->].
    + split; [|split; [discriminate|discriminate]].
      split; [discriminate|].
      intros (a' & [= <-] & Hs). apply Hres in Hs. discriminate.
  - split; [|split; [discriminate|done]].
    split; [discriminate|]. by intros (a' & ? & _).
  - split; [|split; [discriminate|discriminate]].
    split; [discriminate|]. by intros (a' & ? & _).
Qed.

Lemma focused_node_is_a_snapshot_witness :
  exists node,
    atspi_backend.get_focused_node sample.svc atspi_backend.AccessibilityManager_new
    = (Ret (Some node), atspi_backend.AccessibilityManager_new, []) /\
    atspi_backend.name node = "Firefox".
Proof.
  exists {| atspi_backend.accessible := sample.app1;
            atspi_backend.role := "application";
            atspi_backend.name := "Firefox"; atspi_backend.description := "";
            atspi_backend.states := ∅; atspi_backend.children := [];
            atspi_backend.parent := None |}.
  split; [|reflexivity].
  apply (proj1 (focused_node_is_a_snapshot sample.svc
                  atspi_backend.AccessibilityManager_new _)).
  exists sample.app1. repeat split.
Defined.

(** X19.  Hit-testing asks the first desktop only.  The node it returns
    is a snapshot of the accessible that this desktop reports at the
    point; when the desktop reports none there, the result is [None]
    without a log record. *)
Theorem node_at_point_is_a_snapshot
    (svc : Atspi.Service) (m : atspi_backend.AccessibilityManager)
    (x y : Z) (node : atspi_backend.AccessibilityNode) :
  (atspi_backend.get_node_at_point svc x y m = (Ret (Some node), m, []) <->
   exists desktop a,
     Atspi.get_desktop svc 0 = Ret desktop /\
     Atspi.get_accessible_at_point desktop x y = Ret (Some a) /\
     snapshot_of a node) /\
  (forall desktop,
     Atspi.get_desktop svc 0 = Ret desktop ->
     Atspi.get_accessible_at_point desktop x y = Ret None ->
     atspi_backend.get_node_at_point svc x y m = (Ret None, m, [])).
Proof.
  rewrite get_node_at_point_run.
  destruct (Atspi.get_desktop svc 0) as [desktop|e].
  2:{ split; [|discriminate]. split; [discriminate|].
      by intros (? & ? & ? & _). }
  destruct (Atspi.get_accessible_at_point desktop x y) as [[a|]|e] eqn:Hat.
  - pose proof (AccessibilityNode_new_result a m node) as Hres.
    split.
    2:{ intros d [= <-]. rewrite Hat. discriminate. }
    destruct (result (atspi_backend.AccessibilityNode_new a m)) as [n|e].
    + split.
      * intros [= ->]. exists desktop, a. repeat split; try done; by apply Hres.
      * intros (d & a' & [= <-] & Ha & Hs). rewrite Hat in Ha.
        injection Ha as <-. apply Hres in Hs. by injection Hs as ->.
    + split; [discriminate|].
      intros (d & a' & [= <-] & Ha & Hs). rewrite Hat in Ha.
      injection Ha as <-. apply Hres in Hs. discriminate.
  - split; [|done]. split; [discriminate|].
    intros (d & a' & [= <-] & Ha & _). rewrite Hat in Ha. discriminate.
  - split.
    + split; [discriminate|].
      intros (d & a' & [= <-] & Ha & _). rewrite Hat in Ha. discriminate.
    + intros d [= <-]. rewrite Hat. discriminate.
Qed.

Lemma node_at_point_is_a_snapshot_witness :
  atspi_backend.get_node_at_point sample.healthy 5 7
    atspi_backend.AccessibilityManager_new
  = (Ret None, atspi_backend.AccessibilityManager_new, []).
Proof.
  apply (proj2 (node_at_point_is_a_snapshot sample.healthy
                  atspi_backend.AccessibilityManager_new 5 7
                  sample.mute_node) sample.healthy_desktop);
    reflexivity.
Defined.

(** *** Text and actions *)

Section ActionFacts.
Import atspi_backend.
Context {S : Type}.

Lemma map_m_names_all (actions : list Atspi.Action) (names : list string)
    (s : S) :
  Forall2 (fun action n => Atspi.action_get_name action = Ret n) actions names ->
  map_m (fun action => lift (Atspi.action_get_name action)) actions s
  = (Ret names, s, []).
Proof.
  intros Hall. revert s. induction Hall as [|a n actions names Hn _ IH];
    intros s; [done|].
  cbn [map_m]. unfold bind at 1. unfold lift at 1. rewrite Hn.
  unfold bind at 1. by rewrite IH.
Qed.

End ActionFacts.

(** X20.  [get_text] returns the whole text of the node (the range from
    0 to -1) when the accessible has a text interface that answers, and
    the empty string when it has none or when the interface fails; it
    never changes anything and never logs. *)
Theorem get_text_of_interface
    (node : atspi_backend.AccessibilityNode) (s : unit) :
  (Atspi.get_text (atspi_backend.accessible node) = Ret None ->
   atspi_backend.get_text node s = (Ret "", s, [])) /\
  (forall iface,
     Atspi.get_text (atspi_backend.accessible node) = Ret (Some iface) ->
     atspi_backend.get_text node s
     = (Ret (match Atspi.text_get_text iface 0 (-1) with
             | Ret text => text
             | Raise _ => ""
             end), s, [])).
Proof.
  split.
  - intros Hnone. unfold atspi_backend.get_text, bind, try_except, lift, ret.
    by rewrite Hnone.
  - intros iface Hsome.
    unfold atspi_backend.get_text, bind, try_except, lift, ret, deref.
    rewrite Hsome. cbn.
    by destruct (Atspi.text_get_text iface 0 (-1)).
Qed.

Lemma get_text_of_interface_witness :
  atspi_backend.get_text sample.button_node tt = (Ret "OK", tt, []).
Proof.
  apply (proj2 (get_text_of_interface sample.button_node tt) sample.button_text).
  reflexivity.
Defined.

(** X21.  [get_actions] is all or nothing: when every action of the
    interface answers its name, the names are returned in the order of
    the interface; when a single one fails, the result is the empty
    list, as it is when the accessible has no action interface.  Nothing
    is logged in either case. *)
Theorem get_actions_all_or_nothing
    (node : atspi_backend.AccessibilityNode) (s : unit) :
  (Atspi.get_action_iface (atspi_backend.accessible node) = Ret None ->
   atspi_backend.get_actions node s = (Ret [], s, [])) /\
  (forall iface actions,
     Atspi.get_action_iface (atspi_backend.accessible node) = Ret (Some iface) ->
     Atspi.get_actions iface = Ret actions ->
     (forall names,
        Forall2 (fun action n => Atspi.action_get_name action = Ret n)
          actions names ->
        atspi_backend.get_actions node s = (Ret names, s, [])) /\
     (forall action e,
        action ∈ actions ->
        Atspi.action_get_name action = Raise e ->
        atspi_backend.get_actions node s = (Ret [], s, []))).
Proof.
  split.
  - intros Hnone. unfold atspi_backend.get_actions, try_except.
    unfold bind at 1. unfold lift at 1. by rewrite Hnone.
  - intros iface actions Hiface Hactions.
    set (f := fun action : Atspi.Action =>
                (lift (Atspi.action_get_name action) : Py unit string)).
    assert (Hsilent : forall a, silent (f a)).
    { intros a. apply silent_lift. }
    assert (Hrun : atspi_backend.get_actions node s
                   = (match result (map_m f actions s) with
                      | Ret names => Ret names
                      | Raise _ => Ret []
                      end, s, [])).
    { unfold atspi_backend.get_actions, try_except.
      unfold bind at 1. unfold lift at 1. rewrite Hiface.
      unfold bind at 1. unfold lift at 1. cbn [deref].
      unfold bind at 1. unfold lift at 1. rewrite Hactions.
      fold f. rewrite (silent_run _ s (silent_map_m f actions Hsilent)).
      by destruct (result (map_m f actions s)). }
    rewrite Hrun. split.
    + intros names Hall. unfold f.
      by rewrite (map_m_names_all actions names s Hall).
    + intros action e Hin Hraise.
      assert (Hr : returns (result (map_m f actions s)) = false).
      { apply (map_m_raises f actions action s Hsilent Hin).
        unfold f, lift. by rewrite Hraise. }
      by destruct (result (map_m f actions s)).
Qed.

Lemma get_actions_all_or_nothing_witness :
  atspi_backend.get_actions sample.button_node tt
  = (Ret ["press"; "click"; "click"], tt, []).
Proof.
  apply (proj1 (proj2 (get_actions_all_or_nothing sample.button_node tt)
                  sample.button_actions [sample.press; sample.click; sample.click]
                  eq_refl eq_refl)).
  repeat constructor.
Defined.

Section PerformFacts.
Import atspi_backend.
Context {S : Type} (do_action : Atspi.ActionIface -> Z -> Outcome unit).

Lemma perform_loop_found (node : AccessibilityNode) (action_name : string)
    (iface : Atspi.ActionIface) (pre : list Atspi.Action) (a : Atspi.Action)
    (post : list Atspi.Action) (i : Z) (s : S) :
  Atspi.get_action_iface (accessible node) = Ret (Some iface) ->
  (forall b, b ∈ pre ->
     exists n, Atspi.action_get_name b = Ret n /\ n <> action_name) ->
  Atspi.action_get_name a = Ret action_name ->
  perform_loop do_action node action_name i (pre ++ a :: post) s
  = (match do_action iface (i + Z.of_nat (length pre)) with
     | Ret _ => Ret true
     | Raise e => Raise e
     end, s, []).
Proof.
  intros Hiface Hpre Ha. revert i.
  induction pre as [|b pre IH]; intros i; cbn [app perform_loop length].
  - unfold bind at 1. unfold lift at 1. rewrite Ha, String.eqb_refl.
    unfold bind, lift, ret, deref. rewrite Hiface, Z.add_0_r.
    by destruct (do_action iface i) as [[]|e].
  - destruct (Hpre b) as (n & Hn & Hne); [apply list_elem_of_here|].
    unfold bind at 1. unfold lift at 1. rewrite Hn.
    apply String.eqb_neq in Hne. rewrite Hne.
    rewrite IH.
    + rewrite Nat2Z.inj_succ.
      replace (i + 1 + Z.of_nat (length pre))
        with (i + Z.succ (Z.of_nat (length pre))) by lia. done.
    + intros b' Hin. apply Hpre. by apply list_elem_of_further.
Qed.

Lemma perform_loop_absent (node : AccessibilityNode) (action_name : string)
    (actions : list Atspi.Action) (i : Z) (s : S) :
  (forall b, b ∈ actions ->
     exists n, Atspi.action_get_name b = Ret n /\ n <> action_name) ->
  perform_loop do_action node action_name i actions s = (Ret false, s, []).
Proof.
  revert i. induction actions as [|b actions IH]; intros i Hall; [done|].
  cbn [perform_loop].
  destruct (Hall b) as (n & Hn & Hne); [apply list_elem_of_here|].
  unfold bind at 1. unfold lift at 1. rewrite Hn.
  apply String.eqb_neq in Hne. rewrite Hne.
  rewrite IH; [done|].
  intros b' Hin. apply Hall. by apply list_elem_of_further.
Qed.

End PerformFacts.

(** X22.  [perform_action] performs the first action that carries the
    requested name, by its position in the action list, and no other:
    when the actions before it answer other names, the service is asked
    for that index once, and the result is [True] when the service
    performs it.  When the service fails on it, the error is logged and
    the result is [False]. *)
Theorem perform_action_takes_first_match
    (do_action : Atspi.ActionIface -> Z -> Outcome unit)
    (node : atspi_backend.AccessibilityNode) (action_name : string)
    (iface : Atspi.ActionIface) (pre : list Atspi.Action) (a : Atspi.Action)
    (post : list Atspi.Action) (s : unit) :
  Atspi.get_action_iface (atspi_backend.accessible node) = Ret (Some iface) ->
  Atspi.get_actions iface = Ret (pre ++ a :: post) ->
  (forall b, b ∈ pre ->
     exists n, Atspi.action_get_name b = Ret n /\ n <> action_name) ->
  Atspi.action_get_name a = Ret action_name ->
  atspi_backend.perform_action do_action node action_name s
  = (Ret (returns (do_action iface (Z.of_nat (length pre)))), s,
     match do_action iface (Z.of_nat (length pre)) with
     | Ret _ => []
     | Raise e => [Log ERROR (perform_msg action_name) (Some e)]
     end).
Proof.
  intros Hiface Hactions Hpre Ha.
  unfold atspi_backend.perform_action, try_except.
  unfold bind at 1. unfold lift at 1. rewrite Hiface.
  unfold bind at 1. unfold lift at 1. cbn [deref].
  unfold bind at 1. unfold lift at 1. rewrite Hactions.
  rewrite (perform_loop_found do_action node action_name iface pre a post 0 s
             Hiface Hpre Ha).
  rewrite Z.add_0_l.
  by destruct (do_action iface (Z.of_nat (length pre))) as [[]|e].
Qed.

Lemma perform_action_takes_first_match_witness :
  atspi_backend.perform_action sample.do_action sample.button_node "click" tt
  = (Ret true, tt, []).
Proof.
  apply (perform_action_takes_first_match sample.do_action sample.button_node
           "click" sample.button_actions [sample.press] sample.click
           [sample.click] tt).
  - reflexivity.
  - reflexivity.
  - intros b [->|Hin%elem_of_nil]%elem_of_cons; [|done].
    exists "press". split; [reflexivity | discriminate].
  - reflexivity.
Defined.

(** X23.  [perform_action] never raises.  It returns [False] without a
    log record when no action of the node carries the requested name,
    and [False] with an error record when the node has no action
    interface. *)
Theorem perform_action_without_match
    (do_action : Atspi.ActionIface -> Z -> Outcome unit)
    (node : atspi_backend.AccessibilityNode) (action_name : string) (s : unit) :
  returns (result (atspi_backend.perform_action do_action node action_name s))
  = true /\
  (forall iface actions,
     Atspi.get_action_iface (atspi_backend.accessible node) = Ret (Some iface) ->
     Atspi.get_actions iface = Ret actions ->
     (forall b, b ∈ actions ->
        exists n, Atspi.action_get_name b = Ret n /\ n <> action_name) ->
     atspi_backend.perform_action do_action node action_name s
     = (Ret false, s, [])) /\
  (Atspi.get_action_iface (atspi_backend.accessible node) = Ret None ->
   atspi_backend.perform_action do_action node action_name s
   = (Ret false, s, [Log ERROR (perform_msg action_name) (Some AttributeError)])).
Proof.
  split; [by apply try_except_returns|]. split.
  - intros iface actions Hiface Hactions Hall.
    unfold atspi_backend.perform_action, try_except.
    unfold bind at 1. unfold lift at 1. rewrite Hiface.
    unfold bind at 1. unfold lift at 1. cbn [deref].
    unfold bind at 1. unfold lift at 1. rewrite Hactions.
    by rewrite (perform_loop_absent do_action node action_name actions 0 s Hall).
  - intros Hnone. unfold atspi_backend.perform_action, try_except.
    unfold bind at 1. unfold lift at 1. rewrite Hnone.
    unfold bind at 1. unfold lift at 1. done.
Qed.

Lemma perform_action_without_match_witness :
  atspi_backend.perform_action sample.do_action sample.button_node "focus" tt
  = (Ret false, tt, []).
Proof.
  destruct (perform_action_without_match sample.do_action sample.button_node
              "focus" tt) as (_ & Habsent & _).
  apply (Habsent sample.button_actions [sample.press; sample.click; sample.click]);
    [reflexivity | reflexivity |].
  intros b [->|[->|[->|Hin%elem_of_nil]%elem_of_cons]%elem_of_cons]%elem_of_cons;
    [| | |done].
  - exists "press". split; [reflexivity | discriminate].
  - exists "click". split; [reflexivity | discriminate].
  - exists "click". split; [reflexivity | discriminate].
Defined.

(** *** The application listing, once more *)

Section ReturnFacts.
Context {S : Type}.

Lemma bind_ret_inv {A B} (c : Py S A) (k : A -> Py S B) (s : S) (b : B) :
  silent c ->
  result (bind c k s) = Ret b ->
  exists a, result (c s) = Ret a /\ result (k a s) = Ret b.
Proof.
  intros Hc. unfold bind. rewrite (silent_run c s Hc).
  destruct (result (c s)) as [a|e]; [|discriminate].
  intros Hk. exists a. split; [done|].
  by destruct (k a s) as [[? ?] ?].
Qed.

Lemma map_m_ret_inv {A B} (f : A -> Py S B) (l : list A) (s : S)
    (ys : list B) :
  (forall x, silent (f x)) ->
  result (map_m f l s) = Ret ys ->
  Forall2 (fun x y => result (f x s) = Ret y) l ys.
Proof.
  intros Hf. revert ys. induction l as [|x l IH]; intros ys; cbn [map_m].
  - intros [= <-]. constructor.
  - intros Hr.
    apply bind_ret_inv in Hr as (y & Hy & Hr); [|apply Hf].
    apply bind_ret_inv in Hr as (ys' & Hys & Hr);
      [|by apply silent_map_m].
    injection Hr as <-. constructor; [done | by apply IH].
Qed.

Lemma Forall2_concat_elem {A B} (P : A -> list B -> Prop) (l : list A)
    (ys : list (list B)) (b : B) :
  Forall2 P l ys -> b ∈ concat ys ->
  exists x y, x ∈ l /\ P x y /\ b ∈ y.
Proof.
  induction 1 as [|x y l ys Hxy _ IH]; cbn [concat].
  - by intros ?%elem_of_nil.
  - intros [Hin|Hin]%elem_of_app.
    + exists x, y. split; [apply list_elem_of_here | done].
    + destruct (IH Hin) as (x' & y' & Hx' & HP & Hb).
      exists x', y'. split; [by apply list_elem_of_further | done].
Qed.

End ReturnFacts.

(** X24.  Every summary in the application listing comes from a child of
    a desktop whose role is APPLICATION, and carries the name, process
    id, role name and description which that child answered: the listing
    invents nothing and never includes a child of another role. *)
Theorem listing_is_sound
    (svc : Atspi.Service) (m : atspi_backend.AccessibilityManager)
    (summary : atspi_backend.AppSummary) :
  (exists apps,
      result (atspi_backend.get_application_list svc m) = Ret apps /\
      summary ∈ apps) ->
  exists i desktop j a,
    Atspi.get_desktop svc i = Ret desktop /\
    Atspi.get_child_at_index desktop j = Ret (Some a) /\
    summary_of a summary.
Proof.
  intros (apps & Hres & Hin).
  unfold atspi_backend.get_application_list, try_except in Hres.
  match type of Hres with
  | context [match ?body m with _ => _ end] => set (run := body) in Hres
  end.
  assert (Hsilent : silent run).
  { unfold run. apply silent_bind; [apply silent_lift|]. intros c.
    apply silent_bind; [|intros; apply silent_ret].
    apply silent_map_m. intros k. apply silent_desktop_entries. }
  rewrite (silent_run run m Hsilent) in Hres.
  destruct (result (run m)) as [apps'|e] eqn:Hrun; cbn in Hres.
  2:{ injection Hres as <-. by apply elem_of_nil in Hin. }
  injection Hres as ->. unfold run in Hrun.
  apply bind_ret_inv in Hrun as (count & _ & Hrun); [|apply silent_lift].
  apply bind_ret_inv in Hrun as (per_desktop & Hper & Hrun).
  2:{ apply silent_map_m. intros k. apply silent_desktop_entries. }
  injection Hrun as <-.
  apply map_m_ret_inv in Hper; [|intros k; apply silent_desktop_entries].
  destruct (Forall2_concat_elem _ _ _ _ Hper Hin) as (i & entries & _ & Hi & Hin').
  apply bind_ret_inv in Hi as (desktop & Hdesktop & Hi); [|apply silent_lift].
  apply bind_ret_inv in Hi as (n & _ & Hi); [|apply silent_lift].
  apply bind_ret_inv in Hi as (per_child & Hchildren & Hi).
  2:{ apply silent_map_m. intros k. apply silent_application_entry. }
  injection Hi as <-.
  apply map_m_ret_inv in Hchildren; [|intros k; apply silent_application_entry].
  destruct (Forall2_concat_elem _ _ _ _ Hchildren Hin')
    as (j & entry & _ & Hj & Hin'').
  exists i, desktop, j.
  unfold atspi_backend.application_entry in Hj.
  apply bind_ret_inv in Hj as (child & Hchild & Hj); [|apply silent_lift].
  destruct child as [a|]; [|injection Hj as <-; by apply elem_of_nil in Hin''].
  exists a.
  apply bind_ret_inv in Hj as (r & Hrole & Hj); [|apply silent_lift].
  destruct (Z.eqb_spec r Atspi.Role_APPLICATION) as [->|Hne];
    [|injection Hj as <-; by apply elem_of_nil in Hin''].
  apply bind_ret_inv in Hj as (node & Hnode & Hj);
    [|apply silent_AccessibilityNode_new].
  apply bind_ret_inv in Hj as (pid & Hpid & Hj); [|apply silent_lift].
  injection Hj as <-. apply list_elem_of_singleton in Hin'' as ->.
  apply AccessibilityNode_new_result in Hnode
    as (_ & Hrn & Hn & Hd & _).
  unfold summary_of. cbn. done.
Qed.

Lemma listing_is_sound_witness :
  exists i desktop j a,
    Atspi.get_desktop sample.healthy i = Ret desktop /\
    Atspi.get_child_at_index desktop j = Ret (Some a) /\
    summary_of a
      {| atspi_backend.app_name := "Kate"; atspi_backend.app_pid := 103;
         atspi_backend.app_role := "application";
         atspi_backend.app_description := "" |}.
Proof.
  apply (listing_is_sound sample.healthy atspi_backend.AccessibilityManager_new).
  eexists. split; [reflexivity|].
  apply list_elem_of_further, list_elem_of_here.
Defined.

(** *** Cleanup and the functions of the module *)

Section AtspiCleanupFacts.
Import atspi_backend.
Context (svc : Atspi.Service).

Lemma deregister_loop_stops (l1 : list Callable) (c : Callable)
    (l2 : list Callable) (e : Exn) (m : AccessibilityManager) :
  (forall c', c' ∈ l1 -> Atspi.deregister_keystroke_listener svc c' = Ret tt) ->
  Atspi.deregister_keystroke_listener svc c = Raise e ->
  for_each (l1 ++ c :: l2) (fun listener =>
    emit (DeregisterKeystroke listener) ;;
    lift (Atspi.deregister_keystroke_listener svc listener)) m
  = (Raise e, m, map DeregisterKeystroke (l1 ++ [c])).
Proof.
  intros Hok Hc. induction l1 as [|c' l1 IH]; cbn [app for_each map].
  - unfold bind at 1. unfold bind at 1. unfold emit at 1. unfold lift at 1.
    by rewrite Hc.
  - unfold bind at 1. unfold bind at 1. unfold emit at 1. unfold lift at 1.
    rewrite (Hok c') by apply list_elem_of_here.
    rewrite IH; [done|]. intros c'' Hin. apply Hok.
    by apply list_elem_of_further.
Qed.

Lemma deregister_loop_completes (l : list Callable) (m : AccessibilityManager) :
  (forall c, c ∈ l -> Atspi.deregister_keystroke_listener svc c = Ret tt) ->
  for_each l (fun listener =>
    emit (DeregisterKeystroke listener) ;;
    lift (Atspi.deregister_keystroke_listener svc listener)) m
  = (Ret tt, m, map DeregisterKeystroke l).
Proof.
  intros Hok. induction l as [|c l IH]; [done|].
  cbn [for_each map]. unfold bind at 1. unfold bind at 1.
  unfold emit at 1. unfold lift at 1.
  rewrite (Hok c) by apply list_elem_of_here.
  rewrite IH; [done|]. intros c' Hin. apply Hok. by apply list_elem_of_further.
Qed.

Lemma deregister_all_completes (d : list (string * list Callable))
    (m : AccessibilityManager) :
  (forall item c, item ∈ d -> c ∈ item.2 ->
     Atspi.deregister_keystroke_listener svc c = Ret tt) ->
  for_each d (fun item =>
    for_each item.2 (fun listener =>
      emit (DeregisterKeystroke listener) ;;
      lift (Atspi.deregister_keystroke_listener svc listener))) m
  = (Ret tt, m, flat_map (fun item => map DeregisterKeystroke item.2) d).
Proof.
  intros Hok. induction d as [|item d IH]; [done|].
  cbn [for_each flat_map]. unfold bind at 1.
  rewrite deregister_loop_completes.
  2:{ intros c Hin. apply (Hok item c); [apply list_elem_of_here | done]. }
  rewrite IH; [done|]. intros item' c Hin Hc. apply (Hok item' c); [|done].
  by apply list_elem_of_further.
Qed.

Lemma deregister_all_stops (d1 : list (string * list Callable))
    (event_type : string) (l1 : list Callable) (c : Callable)
    (l2 : list Callable) (d2 : list (string * list Callable)) (e : Exn)
    (m : AccessibilityManager) :
  (forall item c', item ∈ d1 -> c' ∈ item.2 ->
     Atspi.deregister_keystroke_listener svc c' = Ret tt) ->
  (forall c', c' ∈ l1 -> Atspi.deregister_keystroke_listener svc c' = Ret tt) ->
  Atspi.deregister_keystroke_listener svc c = Raise e ->
  for_each (d1 ++ (event_type, l1 ++ c :: l2) :: d2) (fun item =>
    for_each item.2 (fun listener =>
      emit (DeregisterKeystroke listener) ;;
      lift (Atspi.deregister_keystroke_listener svc listener))) m
  = (Raise e, m,
     flat_map (fun item => map DeregisterKeystroke item.2) d1
     ++ map DeregisterKeystroke (l1 ++ [c])).
Proof.
  intros Hd1 Hl1 Hc. induction d1 as [|item d1 IH]; cbn [app for_each flat_map].
  - unfold bind at 1. cbn [snd].
    by rewrite (deregister_loop_stops l1 c l2 e m Hl1 Hc).
  - unfold bind at 1. rewrite deregister_loop_completes.
    2:{ intros c' Hin. apply (Hd1 item c'); [apply list_elem_of_here | done]. }
    rewrite IH; [by rewrite app_assoc|].
    intros item' c' Hin Hc'. apply (Hd1 item' c'); [|done].
    by apply list_elem_of_further.
Qed.

End AtspiCleanupFacts.

(** X25.  When the service accepts every deregistration and the
    shutdown, [cleanup] deregisters each entry of the listener map once,
    in the order of the map and of its lists, then shuts the service
    down, and leaves the manager as a newly constructed one.  When only
    the shutdown fails, the listener map is already empty but the
    manager still counts as initialized, with its root and braille
    setting kept. *)
Theorem accessibility_cleanup_completes
    (svc : Atspi.Service) (m : atspi_backend.AccessibilityManager) :
  (forall item c, item ∈ atspi_backend.event_listeners m -> c ∈ item.2 ->
     Atspi.deregister_keystroke_listener svc c = Ret tt) ->
  (Atspi.shutdown svc = Ret tt ->
   atspi_backend.AccessibilityManager_cleanup svc m
   = (Ret tt, atspi_backend.AccessibilityManager_new,
      flat_map (fun item => map DeregisterKeystroke item.2)
        (atspi_backend.event_listeners m) ++ [Shutdown])) /\
  (forall e,
     Atspi.shutdown svc = Raise e ->
     atspi_backend.AccessibilityManager_cleanup svc m
     = (Ret tt, atspi_backend.set_event_listeners (fun _ => []) m,
        flat_map (fun item => map DeregisterKeystroke item.2)
          (atspi_backend.event_listeners m)
        ++ [Shutdown; Log ERROR cleanup_msg (Some e)])).
Proof.
  intros Hok.
  assert (Hrun : atspi_backend.AccessibilityManager_cleanup svc m
    = match Atspi.shutdown svc with
      | Ret _ =>
          (Ret tt, atspi_backend.AccessibilityManager_new,
           flat_map (fun item => map DeregisterKeystroke item.2)
             (atspi_backend.event_listeners m) ++ [Shutdown])
      | Raise e =>
          (Ret tt, atspi_backend.set_event_listeners (fun _ => []) m,
           flat_map (fun item => map DeregisterKeystroke item.2)
             (atspi_backend.event_listeners m)
           ++ [Shutdown; Log ERROR cleanup_msg (Some e)])
      end).
  { unfold atspi_backend.AccessibilityManager_cleanup, try_except.
    unfold bind at 1. unfold get at 1. unfold bind at 1.
    rewrite (deregister_all_completes svc _ m Hok).
    unfold bind, modify, emit, lift, logger, emit. cbn.
    destruct (Atspi.shutdown svc) as [[]|e]; cbn; [|by rewrite <- app_assoc].
    by destruct m. }
  rewrite Hrun. split.
  - by intros ->.
  - by intros e ->.
Qed.

Lemma accessibility_cleanup_completes_witness :
  atspi_backend.AccessibilityManager_cleanup sample.svc sample.listening
  = (Ret tt, atspi_backend.AccessibilityManager_new,
     [DeregisterKeystroke 4%nat; DeregisterKeystroke 5%nat; Shutdown]).
Proof.
  apply (proj1 (accessibility_cleanup_completes sample.svc sample.listening
                  (fun _ _ _ _ => eq_refl))).
  reflexivity.
Defined.

(** X26.  A deregistration that fails stops [cleanup] where it stands:
    the listeners before the failing one have been deregistered, the
    error is logged, and the manager is exactly as before, with its
    whole listener map, still initialized and the service not shut
    down.  [cleanup] itself returns normally. *)
Theorem accessibility_cleanup_stops_at_failure
    (svc : Atspi.Service) (m : atspi_backend.AccessibilityManager)
    (d1 : list (string * list Callable)) (event_type : string)
    (l1 : list Callable) (c : Callable) (l2 : list Callable)
    (d2 : list (string * list Callable)) (e : Exn) :
  atspi_backend.event_listeners m = d1 ++ (event_type, l1 ++ c :: l2) :: d2 ->
  (forall item c', item ∈ d1 -> c' ∈ item.2 ->
     Atspi.deregister_keystroke_listener svc c' = Ret tt) ->
  (forall c', c' ∈ l1 -> Atspi.deregister_keystroke_listener svc c' = Ret tt) ->
  Atspi.deregister_keystroke_listener svc c = Raise e ->
  atspi_backend.AccessibilityManager_cleanup svc m
  = (Ret tt, m,
     flat_map (fun item => map DeregisterKeystroke item.2) d1
     ++ map DeregisterKeystroke (l1 ++ [c])
     ++ [Log ERROR cleanup_msg (Some e)]).
Proof.
  intros Hmap Hd1 Hl1 Hc.
  unfold atspi_backend.AccessibilityManager_cleanup, try_except.
  unfold bind at 1. unfold get at 1. unfold bind at 1.
  rewrite Hmap.
  rewrite (deregister_all_stops svc d1 event_type l1 c l2 d2 e m Hd1 Hl1 Hc).
  unfold logger, emit. cbn. by rewrite <- !app_assoc.
Qed.

Lemma accessibility_cleanup_stops_at_failure_witness :
  atspi_backend.AccessibilityManager_cleanup sample.unreachable sample.listening
  = (Ret tt, sample.listening,
     [] ++ map DeregisterKeystroke ([] ++ [4%nat])
     ++ [Log ERROR cleanup_msg (Some ServiceError)]).
Proof.
  apply (accessibility_cleanup_stops_at_failure sample.unreachable
           sample.listening [] "object:state-changed:focused" [] 4%nat [5%nat]
           [] ServiceError).
  - reflexivity.
  - intros item c' Hin. by apply elem_of_nil in Hin.
  - intros c' Hin. by apply elem_of_nil in Hin.
  - reflexivity.
Defined.

(** X27.  [cleanup()] of the module never raises and always ends without
    a manager, also when the manager's own cleanup stopped half-way.
    Without a manager the listing returns the empty list, and
    registration, unregistration and [initialize_braille] return
    [False]; each of them logs that the manager is not initialized. *)
Theorem accessibility_module_without_manager
    (svc : Atspi.Service) (g : option atspi_backend.AccessibilityManager)
    (event_type : string) (callback : Callable) :
  result (atspi_backend.cleanup svc g) = Ret tt /\
  state (atspi_backend.cleanup svc g) = None /\
  atspi_backend.module_get_application_list svc None
  = (Ret [], None, [Log ERROR no_manager_msg None]) /\
  atspi_backend.module_register_event_listener svc event_type callback None
  = (Ret false, None, [Log ERROR no_manager_msg None]) /\
  atspi_backend.module_unregister_event_listener svc event_type callback None
  = (Ret false, None, [Log ERROR no_manager_msg None]) /\
  atspi_backend.module_initialize_braille None
  = (Ret false, None, [Log ERROR no_manager_msg None]).
Proof.
  assert (Hclean : exists t, atspi_backend.cleanup svc g = (Ret tt, None, t)).
  { unfold atspi_backend.cleanup. unfold bind at 1. unfold get at 1.
    destruct g as [m|]; [|by eexists].
    unfold bind at 1. unfold atspi_backend.on_manager, zoom.
    assert (Hret : returns (result
              (atspi_backend.AccessibilityManager_cleanup svc m)) = true).
    { by apply try_except_returns. }
    destruct (atspi_backend.AccessibilityManager_cleanup svc m)
      as [[[[]|e] m'] t]; [|discriminate].
    by eexists. }
  destruct Hclean as [t ->]. repeat split; reflexivity.
Qed.

(** *** The listener map, once more *)

Section DictOrderFacts.
Context {V : Type}.

Lemma dict_get_setdefault_ne (d : list (string * V)) (k other : string) (v : V) :
  k <> other -> dict_get (dict_setdefault k v d) other = dict_get d other.
Proof.
  intros Hne. unfold dict_setdefault.
  destruct (dict_get d k); [done|].
  induction d as [|[k' w] d IH]; cbn.
  - destruct (String.eqb other k) eqn:Hk; [|done].
    apply String.eqb_eq in Hk. congruence.
  - by destruct (String.eqb other k').
Qed.

Lemma dict_alter_keys (f : V -> V) (k : string) (d : list (string * V)) :
  map fst (dict_alter f k d) = map fst d.
Proof.
  induction d as [|[k' w] d IH]; [done|]. cbn.
  destruct (String.eqb k k'); cbn; [done | by rewrite IH].
Qed.

Lemma dict_setdefault_keys (k : string) (v : V) (d : list (string * V)) :
  map fst (dict_setdefault k v d)
  = map fst d ++ match dict_get d k with Some _ => [] | None => [k] end.
Proof.
  unfold dict_setdefault. destruct (dict_get d k).
  - by rewrite app_nil_r.
  - by rewrite map_app.
Qed.

End DictOrderFacts.

(** X28.  Registering a listener for one event type leaves the lists of
    all other event types as they are, and keeps the order of the event
    types in the map: a new event type goes to the end, a known one
    stays in its place.  This holds whether or not the service accepts
    the registration. *)
Theorem registration_keeps_other_event_types
    (svc : Atspi.Service) (m : atspi_backend.AccessibilityManager)
    (event_type : string) (callback : Callable) :
  (forall other, event_type <> other ->
     dict_get
       (atspi_backend.event_listeners
          (state (atspi_backend.register_event_listener svc event_type
                    callback m))) other
     = dict_get (atspi_backend.event_listeners m) other) /\
  map fst
    (atspi_backend.event_listeners
       (state (atspi_backend.register_event_listener svc event_type callback m)))
  = map fst (atspi_backend.event_listeners m)
    ++ match dict_get (atspi_backend.event_listeners m) event_type with
       | Some _ => []
       | None => [event_type]
       end.
Proof.
  rewrite register_event_listener_run. cbn [state fst snd].
  cbn [atspi_backend.event_listeners atspi_backend.set_event_listeners].
  unfold registered. split.
  - intros other Hne. rewrite dict_get_alter_ne by done.
    by apply dict_get_setdefault_ne.
  - by rewrite dict_alter_keys, dict_setdefault_keys.
Qed.

Lemma registration_keeps_other_event_types_witness :
  dict_get
    (atspi_backend.event_listeners
       (state (atspi_backend.register_event_listener sample.refusing "focus"
                 6%nat sample.listening))) "object:state-changed:focused"
  = dict_get (atspi_backend.event_listeners sample.listening)
      "object:state-changed:focused".
Proof.
  apply (proj1 (registration_keeps_other_event_types sample.refusing
                  sample.listening "focus" 6%nat)).
  discriminate.
Defined.

(** X29.  Registering a callback that is not in the list of its event
    type and unregistering it again brings that list back to what it
    was, and the service sees one registration followed by one
    deregistration.  An event type that was not in the map before stays
    in it, with an empty list. *)
Theorem register_then_unregister
    (svc : Atspi.Service) (m : atspi_backend.AccessibilityManager)
    (event_type : string) (callback : Callable) :
  (forall l, dict_get (atspi_backend.event_listeners m) event_type = Some l ->
             callback ∉ l) ->
  dict_get
    (atspi_backend.event_listeners
       (state (atspi_backend.unregister_event_listener svc event_type callback
                 (state (atspi_backend.register_event_listener svc event_type
                           callback m))))) event_type
  = Some (default [] (dict_get (atspi_backend.event_listeners m) event_type)) /\
  emitted_calls
    (trace (atspi_backend.register_event_listener svc event_type callback m)
     ++ trace (atspi_backend.unregister_event_listener svc event_type callback
                 (state (atspi_backend.register_event_listener svc event_type
                           callback m))))
  = [RegisterKeystroke callback; DeregisterKeystroke callback].
Proof.
  intros Habsent.
  set (old := default [] (dict_get (atspi_backend.event_listeners m) event_type)).
  assert (Hnot : callback ∉ old).
  { unfold old. destruct (dict_get _ event_type) as [l|] eqn:Hget; cbn.
    - by apply Habsent.
    - by intros ?%elem_of_nil. }
  rewrite !register_event_listener_run. cbn [state trace fst snd].
  set (m' := atspi_backend.set_event_listeners (registered event_type callback) m).
  assert (Hget : dict_get (atspi_backend.event_listeners m') event_type
                 = Some (old ++ callback :: [])).
  { unfold m'. cbn [atspi_backend.event_listeners
                    atspi_backend.set_event_listeners].
    apply registered_get. }
  rewrite (unregister_event_listener_found svc _ _ m' old [] Hget Hnot).
  cbn [state trace fst snd atspi_backend.event_listeners
       atspi_backend.set_event_listeners].
  split.
  - rewrite dict_get_alter, Hget. cbn. by rewrite app_nil_r.
  - destruct (Atspi.register_keystroke_listener svc callback) as [[]|e1];
      destruct (Atspi.deregister_keystroke_listener svc callback) as [[]|e2];
      reflexivity.
Qed.

Lemma register_then_unregister_witness :
  dict_get
    (atspi_backend.event_listeners
       (state (atspi_backend.unregister_event_listener sample.svc "focus" 6%nat
                 (state (atspi_backend.register_event_listener sample.svc "focus"
                           6%nat sample.listening))))) "focus"
  = Some [].
Proof.
  apply (register_then_unregister sample.svc sample.listening "focus" 6%nat).
  intros l H. discriminate H.
Defined.

(** X30.  Unregistering takes the oldest entry: when a callback that is
    already in the list is registered once more and then unregistered,
    the entry that goes is the earlier one, so that the callback ends up
    at the end of the list. *)
Theorem unregister_takes_oldest_entry
    (svc : Atspi.Service) (m : atspi_backend.AccessibilityManager)
    (event_type : string) (callback : Callable) (l1 l2 : list Callable) :
  dict_get (atspi_backend.event_listeners m) event_type
  = Some (l1 ++ callback :: l2) ->
  callback ∉ l1 ->
  dict_get
    (atspi_backend.event_listeners
       (state (atspi_backend.unregister_event_listener svc event_type callback
                 (state (atspi_backend.register_event_listener svc event_type
                           callback m))))) event_type
  = Some (l1 ++ l2 ++ [callback]).
Proof.
  intros Hget Hnot.
  rewrite register_event_listener_run. cbn [state fst snd].
  set (m' := atspi_backend.set_event_listeners (registered event_type callback) m).
  assert (Hget' : dict_get (atspi_backend.event_listeners m') event_type
                  = Some (l1 ++ callback :: (l2 ++ [callback]))).
  { unfold m'. cbn [atspi_backend.event_listeners
                    atspi_backend.set_event_listeners].
    rewrite registered_get, Hget. cbn. by rewrite <- app_assoc. }
  rewrite (unregister_event_listener_found svc _ _ m' l1 _ Hget' Hnot).
  cbn [state fst snd atspi_backend.event_listeners
       atspi_backend.set_event_listeners].
  rewrite dict_get_alter, Hget'. done.
Qed.

Lemma unregister_takes_oldest_entry_witness :
  dict_get
    (atspi_backend.event_listeners
       (state (atspi_backend.unregister_event_listener sample.svc
                 "object:state-changed:focused" 4%nat
                 (state (atspi_backend.register_event_listener sample.svc
                           "object:state-changed:focused" 4%nat
                           sample.listening)))))
    "object:state-changed:focused"
  = Some ([] ++ [5%nat] ++ [4%nat]).
Proof.
  apply (unregister_takes_oldest_entry sample.svc sample.listening
           "object:state-changed:focused" 4%nat [] [5%nat]).
  - reflexivity.
  - intros H. by apply elem_of_nil in H.
Defined.
